(** * my-spotify-journey: the natural-language-to-SQL pipeline

    A shallow embedding of the query validation helper
    ([dashboard/db_utils.py]), the connection handling and the store
    executors ([backend/db/duckdb_helper.py]), the two analysis chains
    ([backend/llm/langchain_integration.py], [backend/llm/chains.py]) and
    the visualization mapper ([dashboard/visualization_mapper.py]), followed
    by the properties established about them.

    Python [str] values are modelled as [string]; the model is exact on
    ASCII text (case mapping and whitespace of other code points are left
    as they are). *)

From Equations Require Import Equations.
From Stdlib Require Import String Ascii List Bool Arith ZArith Lia.
Import ListNotations.
Local Open Scope string_scope.
Local Open Scope bool_scope.

(* ===================================================================== *)
(** * Part I: definitions                                                 *)
(* ===================================================================== *)

(** ** Python string primitives used by the sources *)

Module PyStr.

(** [c.upper()] on one ASCII character. *)
Definition upper_char (c : ascii) : ascii :=
  let n := nat_of_ascii c in
  if ((97 <=? n) && (n <=? 122))%nat then ascii_of_nat (n - 32) else c.

(** [s.upper()]. *)
Fixpoint upper (s : string) : string :=
  match s with
  | EmptyString => EmptyString
  | String c s' => String (upper_char c) (upper s')
  end.

(** [c.lower()] on one ASCII character. *)
Definition lower_char (c : ascii) : ascii :=
  let n := nat_of_ascii c in
  if ((65 <=? n) && (n <=? 90))%nat then ascii_of_nat (n + 32) else c.

(** [s.lower()]. *)
Fixpoint lower (s : string) : string :=
  match s with
  | EmptyString => EmptyString
  | String c s' => String (lower_char c) (lower s')
  end.

(** [s.startswith(p)]. *)
Definition startswith (s p : string) : bool := prefix p s.

(** [needle in s] for two strings: substring search. *)
Fixpoint contains (needle s : string) : bool :=
  prefix needle s ||
  match s with
  | EmptyString => false
  | String _ s' => contains needle s'
  end.

(** The characters removed by [s.strip()] with no argument (ASCII part of
    Python's whitespace: TAB, LF, VT, FF, CR, FS, GS, RS, US, space). *)
Definition is_space (c : ascii) : bool :=
  let n := nat_of_ascii c in
  (((9 <=? n) && (n <=? 13)) || ((28 <=? n) && (n <=? 32)))%nat.

(** [s.lstrip(...)]: drop every leading character satisfying [p]. *)
Fixpoint lstrip_by (p : ascii -> bool) (s : string) : string :=
  match s with
  | EmptyString => EmptyString
  | String c s' => if p c then lstrip_by p s' else s
  end.

(** [s.rstrip(...)]: drop every trailing character satisfying [p]. *)
Fixpoint rstrip_by (p : ascii -> bool) (s : string) : string :=
  match s with
  | EmptyString => EmptyString
  | String c s' =>
      match rstrip_by p s' with
      | EmptyString => if p c then EmptyString else String c EmptyString
      | r => String c r
      end
  end.

Definition strip_by (p : ascii -> bool) (s : string) : string :=
  rstrip_by p (lstrip_by p s).

(** [s.strip()]. *)
Definition strip (s : string) : string := strip_by is_space s.

(** [s.strip(ch)] for a one-character argument. *)
Definition strip_char (ch : ascii) (s : string) : string :=
  strip_by (Ascii.eqb ch) s.

(** [s.find(ch)]: index of the first occurrence, or -1. *)
Fixpoint find_from (ch : ascii) (s : string) (i : Z) : Z :=
  match s with
  | EmptyString => (-1)%Z
  | String c s' => if Ascii.eqb c ch then i else find_from ch s' (i + 1)%Z
  end.

Definition find (ch : ascii) (s : string) : Z := find_from ch s 0%Z.

(** [s.rfind(ch)]: index of the last occurrence, or -1. *)
Fixpoint rfind_from (ch : ascii) (s : string) (i : Z) (last : Z) : Z :=
  match s with
  | EmptyString => last
  | String c s' =>
      rfind_from ch s' (i + 1)%Z (if Ascii.eqb c ch then i else last)
  end.

Definition rfind (ch : ascii) (s : string) : Z := rfind_from ch s 0%Z (-1)%Z.

(** [s[a:b]] for indices that are not negative. *)
Definition slice (s : string) (a b : Z) : string :=
  substring (Z.to_nat a) (Z.to_nat (b - a)) s.

(** [s[:n]]. *)
Definition take (n : nat) (s : string) : string := substring 0 n s.

(** [sep.join(l)]. *)
Definition join (sep : string) (l : list string) : string := String.concat sep l.

(** [repr] of a list of plain identifiers, as an f-string prints it:
    ['a', 'b']. *)
Definition repr_names (l : list string) : string :=
  "[" ++ String.concat ", " (map (fun f => "'" ++ f ++ "'") l) ++ "]".

(** [s.replace(old, new)] for a non-empty [old]: the occurrences of [old]
    are replaced from left to right without overlap. [skip] counts the
    characters of a matched occurrence still to be passed over. *)
Fixpoint replace_from (old new : string) (skip : nat) (s : string) : string :=
  match s with
  | EmptyString => EmptyString
  | String c s' =>
      match skip with
      | S k => replace_from old new k s'
      | O =>
          if prefix old s
          then new ++ replace_from old new (String.length old - 1) s'
          else String c (replace_from old new 0 s')
      end
  end.

Definition replace (old new s : string) : string := replace_from old new 0 s.

(** [s[n:]]. *)
Fixpoint drop (n : nat) (s : string) : string :=
  match n, s with
  | O, _ => s
  | S n', String _ s' => drop n' s'
  | S _, EmptyString => EmptyString
  end.

(** [s.split(sep)[0]] for a non-empty [sep]: the text before the first
    occurrence of [sep], the whole text when there is none. *)
Fixpoint before_first (sep s : string) : string :=
  if prefix sep s then EmptyString
  else match s with
       | EmptyString => EmptyString
       | String c s' => String c (before_first sep s')
       end.

(** The text after the first occurrence of [sep], when there is one. *)
Fixpoint after_first (sep s : string) : option string :=
  if prefix sep s then Some (drop (String.length sep) s)
  else match s with
       | EmptyString => None
       | String _ s' => after_first sep s'
       end.

(** [s.split(sep)[1]]: the text between the first and the second occurrence
    of [sep]; [None] stands for the [IndexError] raised when [sep] does not
    occur. *)
Definition second_part (sep s : string) : option string :=
  match after_first sep s with
  | Some rest => Some (before_first sep rest)
  | None => None
  end.

(** [needle] occurs in [s], as a proposition. *)
Definition occurs_in (needle s : string) : Prop :=
  exists pre post, s = pre ++ needle ++ post.

End PyStr.

(** ** Tabular data: result rows and polars frames *)

(** A value of one result cell. *)
Inductive cell : Type :=
| CNull
| CBool (b : bool)
| CInt (z : Z)
| CFloat (literal : string)
| CStr (s : string)
| CDate (days : Z)
| CDatetime (micros : Z).

(** One result row: a dict from column name to value, in column order. *)
Definition row : Type := list (string * cell).

(** The polars dtypes the sources distinguish. *)
Inductive dtype : Type :=
| Int64 | Float64 | Utf8 | Boolean | Date | Datetime | OtherDtype.

Definition dtype_eqb (a b : dtype) : bool :=
  match a, b with
  | Int64, Int64 | Float64, Float64 | Utf8, Utf8 | Boolean, Boolean
  | Date, Date | Datetime, Datetime | OtherDtype, OtherDtype => true
  | _, _ => false
  end.

Record series : Type := { s_name : string; s_dtype : dtype; s_values : list cell }.

(** [pl.DataFrame]: the columns in order. *)
Definition DataFrame : Type := list series.

Definition columns (df : DataFrame) : list string := map s_name df.

(** [len(df)]. *)
Definition height (df : DataFrame) : nat :=
  match df with
  | [] => 0
  | s :: _ => List.length (s_values s)
  end.

(** [df.is_empty()]. *)
Definition is_empty (df : DataFrame) : bool := Nat.eqb (height df) 0.

(** [pl.DataFrame()]. *)
Definition empty_frame : DataFrame := [].

(** ** Opening a connection ([backend/db/duckdb_helper.py]) *)

Module Connection.

Definition MAX_RETRIES : nat := 5.

(** What the host observes of one call: the lock-file handling and its
    answer, the attempts to connect, and the pauses, each with the retry
    count that sets its delay ([BASE_RETRY_DELAY * 2 ** retry_count] plus a
    random jitter). *)
Inductive event : Type :=
| LockHandled (ok : bool)
| Connecting (read_only : bool)
| Sleeping (retry_count : nat).

(** The outcome of [duckdb.connect] followed by the probe [SELECT 1]: a
    connection, or a [duckdb.Error] with its text. *)
Inductive attempt (Conn : Type) : Type :=
| Connected (conn : Conn)
| DuckDbError (message : string).

Arguments Connected {Conn} _.
Arguments DuckDbError {Conn} _.

Section Retry.

(** The host: file system, clock, random source and database file.
    [handle_lock_file] answers whether the lock file is out of the way. *)
Variable Conn Env : Type.
Variable handle_lock_file : Env -> bool * Env.
Variable connect : bool -> Env -> attempt Conn * Env.
Variable sleep : nat -> Env -> Env.

Record host : Type := { env : Env; journal : list event }.

Definition lock_step (h : host) : bool * host :=
  let '(ok, e) := handle_lock_file (env h) in
  (ok, {| env := e; journal := journal h ++ [LockHandled ok] |}).

Definition connect_step (read_only : bool) (h : host) : attempt Conn * host :=
  let '(a, e) := connect read_only (env h) in
  (a, {| env := e; journal := journal h ++ [Connecting read_only] |}).

Definition sleep_step (retry_count : nat) (h : host) : host :=
  {| env := sleep retry_count (env h);
     journal := journal h ++ [Sleeping retry_count] |}.

(** [get_connection_with_retry(read_only, retry_count)]. *)
Equations? get_connection_with_retry (read_only : bool) (retry_count : nat)
    (h : host) : option Conn * host by wf (MAX_RETRIES - retry_count) lt :=
  get_connection_with_retry read_only retry_count h with lock_step h => {
    | (false, h1) := (None, h1);
    | (true, h1) with connect_step read_only h1 => {
        | (Connected conn, h2) := (Some conn, h2);
        | (DuckDbError message, h2) with lt_dec retry_count MAX_RETRIES => {
            | right _ := (None, h2);
            | left _ with PyStr.contains "different configuration" message => {
                | false := (None, h2);
                | true := get_connection_with_retry read_only (S retry_count)
                            (sleep_step retry_count h2) } } } }.
Proof.
  unfold MAX_RETRIES in *. clear get_connection_with_retry.
  do 5 (destruct retry_count as [|retry_count]; [simpl; lia|]). lia.
Qed.

End Retry.

(** The number of attempts to connect, and of pauses, in a journal. *)
Definition attempts (j : list event) : nat :=
  List.length (filter (fun e => match e with Connecting _ => true | _ => false end) j).

Definition pauses (j : list event) : nat :=
  List.length (filter (fun e => match e with Sleeping _ => true | _ => false end) j).

(** What one call starting at [retry_count] may add to the journal: at most
    one attempt more than the retries left, at most one pause per retry left,
    and pauses only with the retry counts still to come. *)
Definition bounded_run (retry_count : nat) (added : list event) : Prop :=
  attempts added <= S (MAX_RETRIES - retry_count)
  /\ pauses added <= MAX_RETRIES - retry_count
  /\ forall k, In (Sleeping k) added -> retry_count <= k < MAX_RETRIES.

Arguments env {Env} _.
Arguments journal {Env} _.
Arguments Build_host {Env} _ _.

End Connection.

(** ** The store and its executors ([backend/db/duckdb_helper.py]) *)

Module DuckDb.

(** What a caller may bind to [conn]: a DuckDB connection, the type
    [execute_visualization_query] declares, or the context manager that
    [get_db_connection()] returns before it is entered, an object without an
    [execute] attribute. *)
Inductive connection_object : Type :=
| LiveConnection
| UnenteredContextManager.

(** The statement [get_connection_with_retry] tests a new connection with. *)
Definition probe : string := "SELECT 1".

Section Store.

(** The DuckDB database behind a connection, and [conn.execute(sql)]: it
    answers with a frame or raises a [duckdb.Error] (the message is kept),
    and may change the database. *)
Variable Db : Type.
Variable conn_execute : Db -> string -> (DataFrame + string) * Db.

(** The store as the program sees it. [reachable] tells whether the lock
    file is out of the way and [duckdb.connect] opens the database file, taken
    not to change while one operation runs; [forwarded] records, oldest
    first, every statement handed to [conn.execute], the probes included. *)
Record world : Type := { db : Db; reachable : bool; forwarded : list string }.

(** [conn.execute(sql)] on a live connection. *)
Definition execute (w : world) (sql : string) : (DataFrame + string) * world :=
  let '(r, d) := conn_execute (db w) sql in
  (r, {| db := d; reachable := reachable w; forwarded := forwarded w ++ [sql] |}).

(** [get_connection_with_retry], by the retries left,
    [MAX_RETRIES - retry_count]: the connection is opened and probed; a
    failing probe is retried while retries are left and the message speaks of
    a different configuration. The answer tells whether a connection came
    out ([None] otherwise). *)
Fixpoint get_connection_with_retry (retries_left : nat) (w : world)
  : bool * world :=
  if reachable w then
    match execute w probe with
    | (inl _, w') => (true, w')
    | (inr message, w') =>
        match retries_left with
        | S fewer =>
            if PyStr.contains "different configuration" message
            then get_connection_with_retry fewer w'
            else (false, w')
        | O => (false, w')
        end
    end
  else (false, w).

(** One attempt, as [Connection.get_connection_with_retry] sees it:
    [duckdb.connect] followed by the probe. A database file that cannot be
    opened raises an error that is no configuration conflict. *)
Definition connect_and_probe (read_only : bool) (w : world)
  : Connection.attempt unit * world :=
  if reachable w then
    match execute w probe with
    | (inl _, w') => (Connection.Connected tt, w')
    | (inr message, w') => (Connection.DuckDbError message, w')
    end
  else (Connection.DuckDbError "IO Error: Cannot open file", w).

(** Entering [with get_db_connection() as conn]: [true] when the body runs
    with a connection, [false] when the context manager raises instead. *)
Definition get_db_connection (w : world) : bool * world :=
  get_connection_with_retry Connection.MAX_RETRIES w.

(** [execute_query(sql)] with [params=None]: opens a connection, runs the
    statement; every exception is logged and answered by an empty frame. *)
Definition execute_query (w : world) (sql : string) : DataFrame * world :=
  let '(opened, w1) := get_db_connection w in
  if opened then
    match execute w1 sql with
    | (inl df, w') => (df, w')
    | (inr _, w') => (empty_frame, w')
    end
  else (empty_frame, w1).

(** [execute_visualization_query(conn, sql)]: on an object without
    [execute] the attribute lookup raises inside the [try], and the handler
    answers with an empty frame. *)
Definition execute_visualization_query (conn : connection_object) (w : world)
    (sql : string) : DataFrame * world :=
  match conn with
  | LiveConnection =>
      match execute w sql with
      | (inl df, w') => (df, w')
      | (inr _, w') => (empty_frame, w')
      end
  | UnenteredContextManager => (empty_frame, w)
  end.

(** The executor [analyze_question] of [backend/main.py] hands to the
    analysis chain: [lambda sql: execute_visualization_query(conn, sql)] with
    [conn = get_db_connection()], never entered. *)
Definition analyze_question_executor (w : world) (sql : string)
  : DataFrame * world :=
  execute_visualization_query UnenteredContextManager w sql.

End Store.

Arguments db {Db} _.
Arguments reachable {Db} _.
Arguments forwarded {Db} _.
Arguments Build_world {Db} _ _ _.

End DuckDb.

(** ** Query validation ([dashboard/db_utils.py]) *)

Module DbUtils.

Definition dangerous_keywords : list string :=
  ["DROP"; "DELETE"; "TRUNCATE"; "UPDATE"; "INSERT";
   "ALTER"; "CREATE"; "GRANT"; "REVOKE"; "EXEC"].

(** [validate_query]: the [for] loop returns [False] at the first keyword
    found in the uppercased text; then the text must start with SELECT. *)
Definition validate_query (query : string) : bool :=
  let query_upper := PyStr.upper query in
  if existsb (fun keyword => PyStr.contains keyword query_upper)
             dangerous_keywords
  then false
  else if negb (PyStr.startswith query_upper "SELECT") then false
  else true.

(** [sanitize_sql_query] of [dashboard/db_utils.py]. *)
Definition sanitize_sql_query (query : string) : string :=
  let query := PyStr.replace "WHERE AND" "WHERE" query in
  PyStr.replace "WHERE WHERE" "WHERE" query.

(** The strings of a column, when every value is a string
    ([series.to_list()] fed to [str.join]). *)
Fixpoint str_values (l : list cell) : option (list string) :=
  match l with
  | [] => Some []
  | CStr s :: l' => option_map (cons s) (str_values l')
  | _ :: _ => None
  end.

Section Explain.

Variable Db : Type.
Variable conn_execute : Db -> string -> (DataFrame + string) * Db.

(** [get_query_explain_plan]. *)
Definition get_query_explain_plan (w : DuckDb.world Db) (query : string)
  : option string * DuckDb.world Db :=
  if negb (validate_query query) then (None, w)
  else
    let explain_query := "EXPLAIN " ++ query in
    let '(result, w') := DuckDb.execute_query Db conn_execute w explain_query in
    if negb (is_empty result) then
      match result with
      | first :: _ =>
          match str_values (s_values first) with
          | Some lines => (Some (PyStr.join (String "010"%char "") lines), w')
          | None => (None, w')
          end
      | [] => (None, w')
      end
    else (None, w').

End Explain.

(** [date(2015, 1, 1)], in days since 1970-01-01. *)
Definition default_start : cell := CDate 16436.

Definition date_range_query : string :=
  "SELECT MIN(CAST(ts AS DATE)) as min_date, MAX(CAST(ts AS DATE)) as max_date FROM streaming_history".

(** [value.date() if hasattr(value, 'date') else value]: only a datetime
    has a [date] method. *)
Definition as_date (value : cell) : cell :=
  match value with
  | CDatetime micros => CDate (micros / 86400000000)
  | _ => value
  end.

(** [result[name][0]]; [None] stands for the exception raised when the
    column or its first value is missing. *)
Definition first_of (name : string) (result : DataFrame) : option cell :=
  match find (fun s => String.eqb (s_name s) name) result with
  | Some s => nth_error (s_values s) 0
  | None => None
  end.

Definition is_null (value : cell) : bool :=
  match value with CNull => true | _ => false end.

Section DateRange.

Variable Db : Type.
Variable conn_execute : Db -> string -> (DataFrame + string) * Db.

(** [get_date_range()]; [today] is [date.today()]. The function enters a
    connection of its own and then runs its query through [execute_query],
    which opens a second one. It returns a pair of dates, or [None] when it
    falls off its [if]. *)
Definition get_date_range (today : cell) (w : DuckDb.world Db)
  : option (cell * cell) * DuckDb.world Db :=
  let '(opened, w1) := DuckDb.get_db_connection Db conn_execute w in
  if opened then
    let '(result, w') := DuckDb.execute_query Db conn_execute w1 date_range_query in
    if negb (is_empty result) then
      match first_of "min_date" result, first_of "max_date" result with
      | Some min_date_value, Some max_date_value =>
          let min_date := as_date min_date_value in
          let max_date := as_date max_date_value in
          if is_null min_date || is_null max_date
          then (Some (default_start, today), w')
          else (Some (min_date, max_date), w')
      | _, _ => (Some (default_start, today), w')
      end
    else (None, w')
  else (Some (default_start, today), w1).

End DateRange.

End DbUtils.

(** ** Decoded JSON and Python exceptions *)

(** What [json.loads] returns. A dict keeps its entries in order. *)
#[warnings="-register-all"]
Inductive json : Type :=
| JNull
| JBool (b : bool)
| JInt (z : Z)
| JFloat (literal : string)
| JStr (s : string)
| JList (items : list json)
| JDict (entries : list (string * json)).

(** The exceptions that reach a handler of the analysis chain. *)
Inductive exn : Type :=
| JSONDecodeError (detail : string)
| KeyError (key : string)
| TypeError (detail : string)
| IndexError (detail : string)
| ValidationError (model : string)
| Raised (message : string).

Module Py.

(** [d.get(key)] on the entries of a dict. *)
Fixpoint lookup {A : Type} (key : string) (entries : list (string * A)) : option A :=
  match entries with
  | [] => None
  | (k, v) :: rest => if String.eqb k key then Some v else lookup key rest
  end.

(** [key in d]. *)
Definition has_key {A : Type} (key : string) (entries : list (string * A)) : bool :=
  match lookup key entries with Some _ => true | None => false end.

Definition is_JStr (s : string) (j : json) : bool :=
  match j with JStr t => String.eqb t s | _ => false end.

(** [field in analysis] for a string [field]: key test on a dict, element
    test on a list, substring test on a string, [TypeError] otherwise. *)
Definition contains (field : string) (analysis : json) : bool + exn :=
  match analysis with
  | JDict entries => inl (has_key field entries)
  | JList items => inl (existsb (is_JStr field) items)
  | JStr s => inl (PyStr.contains field s)
  | _ => inr (TypeError "argument is not iterable")
  end.

(** [analysis[key]] for a string [key]. *)
Definition getitem (analysis : json) (key : string) : json + exn :=
  match analysis with
  | JDict entries =>
      match lookup key entries with
      | Some v => inl v
      | None => inr (KeyError key)
      end
  | JList _ => inr (TypeError "list indices must be integers or slices, not str")
  | JStr _ => inr (TypeError "string indices must be integers")
  | _ => inr (TypeError "object is not subscriptable")
  end.

End Py.

(** ** The analysis chain ([backend/llm/langchain_integration.py]) *)

Module LangChain.

(** [VisualizationSpec] of [backend/llm/schemas.py] ([config] stays
    [None]). *)
Record VisualizationSpec : Type :=
  { v_type : string; v_title : string; v_dimensions : list (string * json) }.

(** [SpotifyAnalysisResponse] of [backend/llm/schemas.py]; an optional
    field left at its default is [None]. *)
Record SpotifyAnalysisResponse : Type :=
  { r_type : string;
    r_content : string;
    r_sql : option string;
    r_data : option (list row);
    r_visualization : option VisualizationSpec }.

(** The value stored under ["data"] in an executor result. *)
Inductive data_value : Type :=
| DNone
| DRows (rows : list row).

(** The dict an executor returns: each of the three keys the chain reads
    may be missing. *)
Record exec_result : Type :=
  { success : option bool; error : option string; data : option data_value }.

(** What the three chain invocations of one request answer: the text of
    the model, or the exception raised by the invocation (building its
    prompt included). *)
Record collaborator : Type :=
  { schema_analyzer : string + exn;
    sql_generator : string + exn;
    simplifier : string + exn }.

(** The cleaning applied to generated SQL (lines 176-177 and 300-301):
    [s.strip()], then [strip] of the backtick, then [strip] of the single
    quote, then [strip] of the double quote. *)
Definition clean_sql (raw : string) : string :=
  let sql_query := PyStr.strip raw in
  PyStr.strip_char "034"%char
    (PyStr.strip_char "039"%char (PyStr.strip_char "096"%char sql_query)).

Definition required_fields : list string :=
  ["tables"; "columns"; "analysis_type"; "visualization"].

(** [[field for field in fields if field not in analysis]]. *)
Fixpoint missing_fields (fields : list string) (analysis : json)
  : list string + exn :=
  match fields with
  | [] => inl []
  | field :: rest =>
      match Py.contains field analysis with
      | inr e => inr e
      | inl present =>
          match missing_fields rest analysis with
          | inr e => inr e
          | inl others => inl (if present then others else field :: others)
          end
      end
  end.

(** An error response: only [type] and [content] (and [sql] when given). *)
Definition error_response (content : string) (sql : option string)
  : SpotifyAnalysisResponse :=
  {| r_type := "error"; r_content := content; r_sql := sql;
     r_data := None; r_visualization := None |}.

(** Lines 122-134: the text handed to [json.loads], from the first opening
    brace to the last closing brace when both exist, the whole trimmed
    response otherwise. *)
Definition json_candidate (schema_analysis : string) : string :=
  let analysis_text := PyStr.strip schema_analysis in
  let start_idx := PyStr.find "{"%char analysis_text in
  let end_idx := (PyStr.rfind "}"%char analysis_text + 1)%Z in
  if (0 <=? start_idx)%Z && (0 <? end_idx)%Z
  then PyStr.slice analysis_text start_idx end_idx
  else analysis_text.

(** The shape the validation of lines 136-151 establishes. *)
Definition complete_plan (analysis : json) : Prop :=
  exists entries viz,
    analysis = JDict entries
    /\ (forall f, In f required_fields -> Py.has_key f entries = true)
    /\ Py.lookup "visualization" entries = Some (JDict viz)
    /\ Py.has_key "type" viz = true
    /\ Py.has_key "dimensions" viz = true.

(** The three shapes a response of the chain can take. *)
Definition terminal (response : SpotifyAnalysisResponse) : Prop :=
  (r_type response = "error"
   /\ r_data response = None /\ r_visualization response = None)
  \/ (r_type response = "sql" /\ r_sql response = None
      /\ r_data response = None /\ r_visualization response = None)
  \/ (r_type response = "visualization"
      /\ exists sql spec, r_sql response = Some sql
                          /\ r_visualization response = Some spec).

Section Chain.

(** Library functions: [json.loads] (answering the decoded value or the
    [JSONDecodeError]), [str] of a decoded value inside an f-string, and
    [str] of an exception. *)
Variable json_loads : string -> json + exn.
Variable str_of_json : json -> string.
Variable str_of_exn : exn -> string.

(** The store behind the executor, and the executor: it returns a result
    dict or raises, and may change the store. *)
Variable Store : Type.
Definition Executor : Type := Store -> string -> (exec_result + exn) * Store.

(** The store together with the statements the executor was called with,
    oldest first. *)
Record run : Type := { store : Store; calls : list string }.

Definition call (executor : Executor) (r : run) (sql : string)
  : (exec_result + exn) * run :=
  let '(o, s) := executor (store r) sql in
  (o, {| store := s; calls := calls r ++ [sql] |}).

(** Step 1, the parsing block (lines 119-164): the decoded analysis, or the
    error response the block returns. *)
Definition parse_analysis (schema_analysis : string)
  : json + SpotifyAnalysisResponse :=
  let analysis_text := PyStr.strip schema_analysis in
  let start_idx := PyStr.find "{"%char analysis_text in
  let end_idx := (PyStr.rfind "}"%char analysis_text + 1)%Z in
  let decoded :=
    if (0 <=? start_idx)%Z && (0 <? end_idx)%Z
    then json_loads (PyStr.slice analysis_text start_idx end_idx)
    else json_loads analysis_text in
  match decoded with
  | inr (JSONDecodeError d) =>
      inr (error_response
             ("Failed to parse schema analysis: "
                ++ str_of_exn (JSONDecodeError d)
                ++ ". Raw response: " ++ PyStr.take 100 schema_analysis ++ "...")
             None)
  | inr e =>
      inr (error_response ("Error parsing schema analysis: " ++ str_of_exn e) None)
  | inl analysis =>
      match missing_fields required_fields analysis with
      | inr e =>
          inr (error_response
                 ("Error parsing schema analysis: " ++ str_of_exn e) None)
      | inl (f :: fs) =>
          inr (error_response
                 ("Invalid schema analysis: missing required fields "
                    ++ PyStr.repr_names (f :: fs)) None)
      | inl [] =>
          match Py.getitem analysis "visualization" with
          | inr e =>
              inr (error_response
                     ("Error parsing schema analysis: " ++ str_of_exn e) None)
          | inl (JDict viz) =>
              if negb (Py.has_key "type" viz) || negb (Py.has_key "dimensions" viz)
              then inr (error_response
                          "Invalid visualization specification in schema analysis"
                          None)
              else inl analysis
          | inl _ =>
              inr (error_response
                     "Invalid visualization specification in schema analysis"
                     None)
          end
      end
  end.

(** [generate_simplified_query]: the cleaned reply, or [None] when the
    invocation raises. *)
Definition generate_simplified_query (llm : collaborator) : option string :=
  match simplifier llm with
  | inl raw => Some (clean_sql raw)
  | inr _ => None
  end.

(** The handler of the inner [try] (lines 236-242). *)
Definition execution_error (sql_query : string) (e : exn)
  : SpotifyAnalysisResponse :=
  error_response ("Error executing SQL query: " ++ str_of_exn e) (Some sql_query).

(** [VisualizationSpec(type=..., title=question, dimensions=...)]: pydantic
    accepts a string for [type] and a dict for [dimensions]. *)
Definition make_viz_spec (question : string) (analysis : json)
  : VisualizationSpec + exn :=
  match Py.getitem analysis "visualization" with
  | inr e => inr e
  | inl viz =>
      match Py.getitem viz "type" with
      | inr e => inr e
      | inl ty =>
          match Py.getitem viz "dimensions" with
          | inr e => inr e
          | inl dims =>
              match ty, dims with
              | JStr t, JDict d =>
                  inl {| v_type := t; v_title := question; v_dimensions := d |}
              | _, _ => inr (ValidationError "VisualizationSpec")
              end
          end
      end
  end.

(** Lines 221-235: build the visualization response from the current
    [sql_query] and the current [result]. *)
Definition visualization_response (question : string) (analysis : json)
    (sql_query : string) (result : exec_result) : SpotifyAnalysisResponse :=
  match make_viz_spec question analysis with
  | inr e => execution_error sql_query e
  | inl viz_spec =>
      match Py.getitem analysis "analysis_type" with
      | inr e => execution_error sql_query e
      | inl kind =>
          match data result with
          | None => execution_error sql_query (KeyError "data")
          | Some d =>
              {| r_type := "visualization";
                 r_content := "Analysis of " ++ str_of_json kind;
                 r_sql := Some sql_query;
                 r_data := match d with DNone => None | DRows rows => Some rows end;
                 r_visualization := Some viz_spec |}
          end
      end
  end.

(** Truth value of [result.get("data")]. *)
Definition has_rows (result : exec_result) : bool :=
  match data result with
  | Some (DRows (_ :: _)) => true
  | _ => false
  end.

(** Lines 185-242: the inner [try] with its handler. *)
Definition execute_and_respond (executor : Executor) (llm : collaborator)
    (question : string) (analysis : json) (sql_query : string) (r : run)
  : SpotifyAnalysisResponse * run :=
  let '(o, r1) := call executor r sql_query in
  match o with
  | inr e => (execution_error sql_query e, r1)
  | inl result =>
      match success result with
      | None => (execution_error sql_query (KeyError "success"), r1)
      | Some ok =>
          match data result with
          | Some DNone =>
              (* len(None) in the log line *)
              (execution_error sql_query
                 (TypeError "object of type 'NoneType' has no len()"), r1)
          | _ =>
              if negb ok then
                match error result with
                | None => (execution_error sql_query (KeyError "error"), r1)
                | Some msg =>
                    (error_response ("Query execution failed: " ++ msg)
                       (Some sql_query), r1)
                end
              else if has_rows result then
                (visualization_response question analysis sql_query result, r1)
              else
                match generate_simplified_query llm with
                | Some simplified_query =>
                    if negb (String.eqb simplified_query "")
                       && negb (String.eqb simplified_query sql_query)
                    then
                      let '(o2, r2) := call executor r1 simplified_query in
                      match o2 with
                      | inr e => (execution_error sql_query e, r2)
                      | inl result2 =>
                          match success result2 with
                          | None =>
                              (execution_error sql_query (KeyError "success"), r2)
                          | Some ok2 =>
                              if ok2 && has_rows result2
                              then (visualization_response question analysis
                                      simplified_query result2, r2)
                              else (visualization_response question analysis
                                      sql_query result2, r2)
                          end
                      end
                    else
                      (visualization_response question analysis sql_query result, r1)
                | None =>
                    (visualization_response question analysis sql_query result, r1)
                end
          end
      end
  end.

(** [analyze_query]. *)
Definition analyze_query (question : string) (llm : collaborator)
    (executor : option Executor) (r : run) : SpotifyAnalysisResponse * run :=
  match schema_analyzer llm with
  | inr e => (error_response ("Analysis failed: " ++ str_of_exn e) None, r)
  | inl schema_analysis =>
      match parse_analysis schema_analysis with
      | inr response => (response, r)
      | inl analysis =>
          match sql_generator llm with
          | inr e => (error_response ("Analysis failed: " ++ str_of_exn e) None, r)
          | inl raw =>
              let sql_query := clean_sql raw in
              match executor with
              | Some ex =>
                  if negb (String.eqb sql_query "")
                  then execute_and_respond ex llm question analysis sql_query r
                  else ({| r_type := "sql"; r_content := sql_query; r_sql := None;
                           r_data := None; r_visualization := None |}, r)
              | None =>
                  ({| r_type := "sql"; r_content := sql_query; r_sql := None;
                      r_data := None; r_visualization := None |}, r)
              end
          end
      end
  end.

End Chain.

Arguments store {Store} _.
Arguments calls {Store} _.
Arguments Build_run {Store} _ _.

End LangChain.

(** ** The visualization mapper ([dashboard/visualization_mapper.py]) *)

Module Mapper.

(** The intent ([visualization_spec], a [Dict[str, Any]]) and everything in
    it are decoded JSON: any value can stand where the analyzer prompt asks
    for a dict or a string, and the code meets it with Python's own
    behaviour on that value. *)

(** One encoding channel, built from the shorthand [f"{field}:{type}"]:
    the two interpolated values, as [str] prints them. *)
Record channel : Type := { c_field : string; c_type : string }.

(** The chart handed to Altair: mark, data frame and encodings. The
    [properties] (height, base configuration) come from [ChartConfig] and
    carry no field; they are left out. *)
Record chart : Type :=
  { mark : string;
    frame : DataFrame;
    enc_x : option channel;
    enc_y : option channel;
    enc_color : option channel;
    enc_size : option channel;
    enc_theta : option channel;
    enc_radius : option channel;
    tooltip : list channel }.

Definition bind {A B : Type} (m : A + exn) (k : A -> B + exn) : B + exn :=
  match m with
  | inl a => k a
  | inr e => inr e
  end.

Notation "x <- m ;; k" := (bind m (fun x => k))
  (at level 61, m at next level, right associativity).

(** The exception raised by looking up an attribute an object lacks. *)
Definition AttributeError : exn := Raised "AttributeError".

(** [obj.get(key, default)]: only a dict has [get]. *)
Definition py_get (obj : json) (key : string) (default : json) : json + exn :=
  match obj with
  | JDict entries =>
      inl (match Py.lookup key entries with Some v => v | None => default end)
  | _ => inr AttributeError
  end.

(** [v.lower()]: only a string has [lower]. *)
Definition py_lower (v : json) : string + exn :=
  match v with
  | JStr s => inl (PyStr.lower s)
  | _ => inr AttributeError
  end.

(** [v[0]]: the first character of a string, the first item of a list; a
    dict decoded from JSON has no key 0; nothing else can be indexed. *)
Definition first_item (v : json) : json + exn :=
  match v with
  | JStr (String c _) => inl (JStr (String c EmptyString))
  | JStr EmptyString => inr (IndexError "string index out of range")
  | JList (item :: _) => inl item
  | JList [] => inr (IndexError "list index out of range")
  | JDict _ => inr (KeyError "0")
  | _ => inr (TypeError "object is not subscriptable")
  end.

(** [dimensions.get(role, {}).get("field")]. *)
Definition field_of (role : string) (dims : json) : json + exn :=
  entry <- py_get dims role (JDict []) ;;
  py_get entry "field" JNull.

(** [dimensions.get(role, {}).get("type", default)[0]]. *)
Definition type_of (role default : string) (dims : json) : json + exn :=
  entry <- py_get dims role (JDict []) ;;
  declared <- py_get entry "type" (JStr default) ;;
  first_item declared.

(** [visualization_spec.get("type", "bar").lower()]. *)
Definition kind_of (spec : json) : string + exn :=
  declared <- py_get spec "type" (JStr "bar") ;;
  py_lower declared.

(** [visualization_spec.get("dimensions", {})]. *)
Definition dims_of (spec : json) : json + exn :=
  py_get spec "dimensions" (JDict []).

(** [l[i]]. *)
Definition item (l : list string) (i : nat) : string + exn :=
  match nth_error l i with
  | Some x => inl x
  | None => inr (IndexError "list index out of range")
  end.

(** [l[i] if len(l) > i else cols[j]]. *)
Definition item_or (l : list string) (i : nat) (cols : list string) (j : nat)
  : string + exn :=
  match nth_error l i with
  | Some x => inl x
  | None => item cols j
  end.

Definition is_numeric (d : dtype) : bool :=
  match d with Float64 | Int64 => true | _ => false end.

Definition is_temporal (d : dtype) : bool :=
  match d with Date | Datetime => true | _ => false end.

Definition mem (x : string) (l : list string) : bool :=
  existsb (String.eqb x) l.

(** [[col for col in df.columns if df[col].dtype in (pl.Float64, pl.Int64)]]. *)
Definition numeric_cols (df : DataFrame) : list string :=
  map s_name (filter (fun s => is_numeric (s_dtype s)) df).

(** [[col for col in df.columns if df[col].dtype in (pl.Date, pl.Datetime)]]. *)
Definition date_cols (df : DataFrame) : list string :=
  map s_name (filter (fun s => is_temporal (s_dtype s)) df).

(** [[col for col in df.columns if col not in numeric_cols]]. *)
Definition other_cols (df : DataFrame) : list string :=
  filter (fun col => negb (mem col (numeric_cols df))) (columns df).

(** [_infer_field_type]. *)
Definition _infer_field_type (s : series) : string :=
  match s_dtype s with
  | Date | Datetime => "T"
  | Float64 | Int64 => "Q"
  | Boolean => "N"
  | _ => "N"
  end.

(** The tooltip list built over all columns. *)
Definition tooltip_fields (df : DataFrame) : list channel :=
  map (fun s => {| c_field := s_name s; c_type := _infer_field_type s |}) df.

(** The encoding channels of a chart, each with its role. *)
Definition channel_of (role : string) (c : option channel)
  : list (string * channel) :=
  match c with Some ch => [(role, ch)] | None => [] end.

Definition channels (c : chart) : list (string * channel) :=
  (channel_of "x" (enc_x c) ++ channel_of "y" (enc_y c)
   ++ channel_of "color" (enc_color c) ++ channel_of "size" (enc_size c)
   ++ channel_of "theta" (enc_theta c) ++ channel_of "radius" (enc_radius c))%list.

(** The channel on which a chart of the given kind carries the field the
    intent gives for [x]: the colour of a pie or donut chart, the angle of a
    polar chart, the [x] channel otherwise. *)
Definition x_channel (kind : string) (c : chart) : option channel :=
  if String.eqb kind "pie" || String.eqb kind "donut" then enc_color c
  else if String.eqb kind "polar" then enc_theta c
  else enc_x c.

(** The channel that carries the field the intent gives for [y]: the angle
    of a pie or donut chart, the radius of a polar chart, the [y] channel
    otherwise. *)
Definition y_channel (kind : string) (c : chart) : option channel :=
  if String.eqb kind "pie" || String.eqb kind "donut" then enc_theta c
  else if String.eqb kind "polar" then enc_radius c
  else enc_y c.




Section Builders.

(** Library functions: [format_duration_tooltip] applied to one value of
    [total_ms]; whether the float a JSON literal denotes differs from zero;
    [str] of a number, a list or a dict. *)
Variable format_duration_tooltip : cell -> cell.
Variable float_is_nonzero : string -> bool.
Variable str_of_json : json -> string.

(** [bool(v)]. *)
Definition truthy (v : json) : bool :=
  match v with
  | JNull => false
  | JBool b => b
  | JInt z => negb (Z.eqb z 0)
  | JFloat literal => float_is_nonzero literal
  | JStr s => negb (String.eqb s "")
  | JList items => match items with [] => false | _ :: _ => true end
  | JDict entries => match entries with [] => false | _ :: _ => true end
  end.

(** [str(v)] inside an f-string. *)
Definition fmt (v : json) : string :=
  match v with
  | JStr s => s
  | JNull => "None"
  | JBool true => "True"
  | JBool false => "False"
  | _ => str_of_json v
  end.

(** [given or fallback]: the fallback is evaluated only when the given
    value is falsy. *)
Definition or_else (given : json) (fallback : string + exn) : json + exn :=
  if truthy given then inl given
  else (column <- fallback ;; inl (JStr column)).

(** [a or b] where [b] itself reads the intent. *)
Definition or_value (a : json) (b : json + exn) : json + exn :=
  if truthy a then inl a else b.

(** The channel of [f"{field}:{type}"]. *)
Definition channel_for (field type : json) : channel :=
  {| c_field := fmt field; c_type := fmt type |}.

(** A channel added only [if field:], its type read then. *)
Definition optional_channel (role default : string) (dims field : json)
  : option channel + exn :=
  if truthy field then
    declared <- type_of role default dims ;;
    inl (Some (channel_for field declared))
  else inl None.

(** The intent gives [f] as the field of some role: the value found there
    is truthy and prints as [f]. *)
Definition requested (dims : json) (f : string) : Prop :=
  exists role v, field_of role dims = inl v /\ truthy v = true /\ fmt v = f.

(** The intent gives no field for [role]: the entry or its field is
    missing, or the field is null, empty or otherwise falsy. *)
Definition unrequested (role : string) (dims : json) : Prop :=
  exists v, field_of role dims = inl v /\ truthy v = false.

(** A field is accounted for when it names a column of the chart's frame or
    is given by the intent. *)
Definition accounted (df : DataFrame) (dims : json) (f : string) : Prop :=
  In f (columns df) \/ requested dims f.

(** Every channel of [ch], except those with a role in [skip], carries an
    accounted field, and [ch] is drawn from [df]. *)
Definition channels_accounted (skip : list string) (df : DataFrame)
    (dims : json) (ch : chart) : Prop :=
  frame ch = df
  /\ forall role c, In (role, c) (channels ch) -> ~ In role skip ->
                    accounted df dims (c_field c).

(** The intent gives [f] as the field of [color]. *)
Definition color_given (dims : json) (f : string) : Prop :=
  exists v, field_of "color" dims = inl v /\ truthy v = true /\ fmt v = f.

(** What is to be shown of a chart built from [df]: its channels are
    accounted for; a truthy field the intent gives for [x] or [y] is
    carried, as it prints, by the channel [x_at] or [y_at]; and when the
    intent gives none, that channel carries a column of [df], or, for [x],
    what [x_stand_in] allows. *)
Definition built_well (x_at y_at : chart -> option channel)
    (x_stand_in : string -> Prop) (skip : list string) (df : DataFrame)
    (dims : json) (ch : chart) : Prop :=
  channels_accounted skip df dims ch
  /\ (forall v, field_of "x" dims = inl v -> truthy v = true ->
                exists c, x_at ch = Some c /\ c_field c = fmt v)
  /\ (forall v, field_of "y" dims = inl v -> truthy v = true ->
                exists c, y_at ch = Some c /\ c_field c = fmt v)
  /\ (forall v, field_of "x" dims = inl v -> truthy v = false ->
                exists c, x_at ch = Some c
                          /\ (In (c_field c) (columns df)
                              \/ x_stand_in (c_field c)))
  /\ (forall v, field_of "y" dims = inl v -> truthy v = false ->
                exists c, y_at ch = Some c /\ In (c_field c) (columns df)).

(** [_add_tooltips]. *)
Definition _add_tooltips (df : DataFrame) : DataFrame :=
  if mem "total_ms" (columns df) && negb (mem "duration_tooltip" (columns df))
  then
    match find (fun s => String.eqb (s_name s) "total_ms") df with
    | Some total =>
        (df ++ [{| s_name := "duration_tooltip"; s_dtype := Utf8;
                   s_values := map format_duration_tooltip (s_values total) |}])%list
    | None => df
    end
  else df.

Definition xy_chart (m : string) (df : DataFrame) (x y : channel)
    (color size : option channel) : chart :=
  {| mark := m; frame := df; enc_x := Some x; enc_y := Some y;
     enc_color := color; enc_size := size; enc_theta := None;
     enc_radius := None; tooltip := tooltip_fields df |}.

(** [_create_bar_chart]. The three fields are read first; the fallbacks of
    the [if] block are those of [x_field or ...] and [y_field or ...]. *)
Definition _create_bar_chart (df0 : DataFrame) (dims : json) : chart + exn :=
  let df := _add_tooltips df0 in
  x_given <- field_of "x" dims ;;
  y_given <- field_of "y" dims ;;
  color_field <- field_of "color" dims ;;
  x_field <- or_else x_given (item_or (numeric_cols df) 0 (columns df) 0) ;;
  y_field <- or_else y_given (item_or (other_cols df) 0 (columns df) 1) ;;
  x_type <- type_of "x" "quantitative" dims ;;
  y_type <- type_of "y" "nominal" dims ;;
  color <- optional_channel "color" "nominal" dims color_field ;;
  inl (xy_chart "bar" df (channel_for x_field x_type)
         (channel_for y_field y_type) color None).

(** [_create_line_chart]. *)
Definition _create_line_chart (df0 : DataFrame) (dims : json) : chart + exn :=
  let df := _add_tooltips df0 in
  x_given <- field_of "x" dims ;;
  y_given <- field_of "y" dims ;;
  color_field <- field_of "color" dims ;;
  x_field <- or_else x_given (item_or (date_cols df) 0 (columns df) 0) ;;
  y_field <- or_else y_given (item_or (numeric_cols df) 0 (columns df) 1) ;;
  x_type <- type_of "x" "temporal" dims ;;
  y_type <- type_of "y" "quantitative" dims ;;
  color <- optional_channel "color" "nominal" dims color_field ;;
  inl (xy_chart "line" df (channel_for x_field x_type)
         (channel_for y_field y_type) color None).

(** [_create_scatter_chart]. *)
Definition _create_scatter_chart (df0 : DataFrame) (dims : json) : chart + exn :=
  let df := _add_tooltips df0 in
  x_given <- field_of "x" dims ;;
  y_given <- field_of "y" dims ;;
  color_field <- field_of "color" dims ;;
  size_field <- field_of "size" dims ;;
  x_field <- or_else x_given (item_or (numeric_cols df) 0 (columns df) 0) ;;
  y_field <- or_else y_given (item_or (numeric_cols df) 1 (columns df) 1) ;;
  x_type <- type_of "x" "quantitative" dims ;;
  y_type <- type_of "y" "quantitative" dims ;;
  color <- optional_channel "color" "nominal" dims color_field ;;
  size <- optional_channel "size" "quantitative" dims size_field ;;
  inl (xy_chart "circle" df (channel_for x_field x_type)
         (channel_for y_field y_type) color size).

(** [_create_pie_chart]: the colour takes the field of [x], or else that of
    [color], which is read only then. *)
Definition _create_pie_chart (df0 : DataFrame) (dims : json) : chart + exn :=
  let df := _add_tooltips df0 in
  theta_given <- field_of "y" dims ;;
  x_given <- field_of "x" dims ;;
  color_given <- or_value x_given (field_of "color" dims) ;;
  theta_field <- or_else theta_given
                   (item_or (numeric_cols df) 0 (columns df) 1) ;;
  color_field <- or_else color_given
                   (item_or (other_cols df) 0 (columns df) 0) ;;
  inl {| mark := "arc"; frame := df; enc_x := None; enc_y := None;
         enc_color := Some (channel_for color_field (JStr "N"));
         enc_size := None;
         enc_theta := Some (channel_for theta_field (JStr "Q"));
         enc_radius := None; tooltip := tooltip_fields df |}.

(** [_create_heatmap]. *)
Definition _create_heatmap (df0 : DataFrame) (dims : json) : chart + exn :=
  let df := _add_tooltips df0 in
  x_given <- field_of "x" dims ;;
  y_given <- field_of "y" dims ;;
  color_given <- field_of "color" dims ;;
  x_field <- or_else x_given (item_or (other_cols df) 0 (columns df) 0) ;;
  y_field <- or_else y_given (item_or (other_cols df) 1 (columns df) 1) ;;
  color_field <- or_else color_given
                   (item_or (numeric_cols df) 0 (columns df) 2) ;;
  x_type <- type_of "x" "ordinal" dims ;;
  y_type <- type_of "y" "ordinal" dims ;;
  color_type <- type_of "color" "quantitative" dims ;;
  inl (xy_chart "rect" df (channel_for x_field x_type)
         (channel_for y_field y_type)
         (Some (channel_for color_field color_type)) None).

(** [_create_area_chart]. *)
Definition _create_area_chart (df0 : DataFrame) (dims : json) : chart + exn :=
  let df := _add_tooltips df0 in
  x_given <- field_of "x" dims ;;
  y_given <- field_of "y" dims ;;
  color_field <- field_of "color" dims ;;
  x_field <- or_else x_given (item_or (date_cols df) 0 (columns df) 0) ;;
  y_field <- or_else y_given (item_or (numeric_cols df) 0 (columns df) 1) ;;
  x_type <- type_of "x" "temporal" dims ;;
  y_type <- type_of "y" "quantitative" dims ;;
  color <- optional_channel "color" "nominal" dims color_field ;;
  inl (xy_chart "area" df (channel_for x_field x_type)
         (channel_for y_field y_type) color None).

(** [_create_polar_chart]: without a colour field the colour repeats the
    angle. *)
Definition _create_polar_chart (df0 : DataFrame) (dims : json) : chart + exn :=
  let df := _add_tooltips df0 in
  angle_given <- field_of "x" dims ;;
  radius_given <- field_of "y" dims ;;
  color_field <- field_of "color" dims ;;
  angle_field <- or_else angle_given
                   (item_or (other_cols df) 0 (columns df) 0) ;;
  radius_field <- or_else radius_given
                    (item_or (numeric_cols df) 0 (columns df) 1) ;;
  color <- optional_channel "color" "nominal" dims color_field ;;
  inl {| mark := "arc"; frame := df; enc_x := None; enc_y := None;
         enc_color := match color with
                      | Some c => Some c
                      | None => Some (channel_for angle_field (JStr "N"))
                      end;
         enc_size := None;
         enc_theta := Some (channel_for angle_field (JStr "N"));
         enc_radius := Some (channel_for radius_field (JStr "Q"));
         tooltip := tooltip_fields df |}.

(** [_create_ridgeline_plot]: the colour field is settled before the
    fallback for [y] is computed, from the field of [color] or else the field
    of [y] as the intent gives it. *)
Definition _create_ridgeline_plot (df0 : DataFrame) (dims : json) : chart + exn :=
  let df := _add_tooltips df0 in
  x_given <- field_of "x" dims ;;
  y_given <- field_of "y" dims ;;
  color_given <- field_of "color" dims ;;
  let color_field := if truthy color_given then color_given else y_given in
  x_field <- or_else x_given (item_or (numeric_cols df) 0 (columns df) 0) ;;
  y_field <- or_else y_given (item_or (other_cols df) 0 (columns df) 1) ;;
  x_type <- type_of "x" "quantitative" dims ;;
  y_type <- type_of "y" "ordinal" dims ;;
  inl (xy_chart "area" df (channel_for x_field x_type)
         (channel_for y_field y_type)
         (Some (channel_for color_field (JStr "N"))) None).

(** The builder [map_to_visualization] picks for a chart kind. *)
Definition builder_for (viz_type : string) (df : DataFrame) (dims : json)
  : chart + exn :=
  if String.eqb viz_type "bar" || String.eqb viz_type "stacked bar"
  then _create_bar_chart df dims
  else if String.eqb viz_type "line" then _create_line_chart df dims
  else if String.eqb viz_type "scatter" then _create_scatter_chart df dims
  else if String.eqb viz_type "pie" || String.eqb viz_type "donut"
  then _create_pie_chart df dims
  else if String.eqb viz_type "heatmap" then _create_heatmap df dims
  else if String.eqb viz_type "area" then _create_area_chart df dims
  else if String.eqb viz_type "polar" then _create_polar_chart df dims
  else if String.eqb viz_type "ridgeline" then _create_ridgeline_plot df dims
  else _create_bar_chart df dims.

(** [pl.DataFrame(data)]: the frame polars builds from a list of rows
    (the rows are taken to be ones polars accepts). *)
Variable pl_DataFrame : list row -> DataFrame.

(** [map_to_visualization]; [None] is the answer for no rows. *)
Definition map_to_visualization (data : list row) (visualization_spec : json)
  : option chart + exn :=
  match data with
  | [] => inl None
  | _ :: _ =>
      let df := pl_DataFrame data in
      viz_type <- kind_of visualization_spec ;;
      dimensions <- dims_of visualization_spec ;;
      c <- builder_for viz_type df dimensions ;;
      inl (Some c)
  end.

End Builders.

End Mapper.

(** ** The post-processing of generated SQL as the specification words it *)

Module SpecWords.

Definition is_quote (c : ascii) : bool :=
  Ascii.eqb c "096"%char || Ascii.eqb c "039"%char || Ascii.eqb c "034"%char.

(** The last character of a string and what precedes it. *)
Fixpoint unsnoc (s : string) : option (string * ascii) :=
  match s with
  | EmptyString => None
  | String c s' =>
      match unsnoc s' with
      | None => Some (EmptyString, c)
      | Some (body, z) => Some (String c body, z)
      end
  end.

(** The specification's wording of the cleaning: trim the surrounding
    whitespace, then remove one layer of enclosing backticks or quotes, in a
    single pass. *)
Definition strip_one_layer (raw : string) : string :=
  let s := PyStr.strip raw in
  match s with
  | String c rest =>
      match unsnoc rest with
      | Some (body, z) => if is_quote c && Ascii.eqb c z then body else s
      | None => s
      end
  | EmptyString => s
  end.

(** The vocabulary used to describe what the cleaning removes. *)

Fixpoint all_chars (p : ascii -> bool) (s : string) : bool :=
  match s with
  | EmptyString => true
  | String c s' => p c && all_chars p s'
  end.

(** The first character, if any, does not satisfy [p]. *)
Definition head_clear (p : ascii -> bool) (s : string) : bool :=
  match s with
  | EmptyString => true
  | String c _ => negb (p c)
  end.

(** The last character, if any, does not satisfy [p]. *)
Fixpoint last_clear (p : ascii -> bool) (s : string) : bool :=
  match s with
  | EmptyString => true
  | String c EmptyString => negb (p c)
  | String _ s' => last_clear p s'
  end.

Definition space_or_quote (c : ascii) : bool := PyStr.is_space c || is_quote c.

(** Neither end of [s] satisfies [p]. *)
Definition clear_of (p : ascii -> bool) (s : string) : bool :=
  head_clear p s && last_clear p s.

Definition backtick : ascii := "096"%char.
Definition single_quote : ascii := "039"%char.
Definition double_quote : ascii := "034"%char.

(** Neither end of [s] is whitespace, a backtick or a quote. *)
Definition edges_clear (s : string) : bool :=
  head_clear space_or_quote s && last_clear space_or_quote s.

(** [n] copies of one character. *)
Fixpoint replicate (n : nat) (c : ascii) : string :=
  match n with
  | O => EmptyString
  | S n' => String c (replicate n' c)
  end.

(** [s] enclosed between [l] and [r]. *)
Definition enclose (l s r : string) : string := l ++ s ++ r.

(** The character [ch] does not occur in [s]. *)
Definition no_char (ch : ascii) (s : string) : bool :=
  all_chars (fun c => negb (Ascii.eqb c ch)) s.

End SpecWords.

(** ** The one-shot analysis chain ([backend/llm/chains.py]) *)

Module Chains.

(** [SpotifyAnalysisResponse] as this chain fills it: [content] may be a
    string or a dict, [visualization] is never set. *)
Record response : Type :=
  { type : string;
    content : json;
    sql : option string;
    data : option (list row) }.

Definition fence : string := "```".
Definition json_fence : string := "```json".

(** Lines 93-96: the text handed to [json.loads]. *)
Definition unfenced (response_text : string) : string + exn :=
  if PyStr.contains json_fence response_text then
    match PyStr.second_part json_fence response_text with
    | Some part => inl (PyStr.strip (PyStr.before_first fence part))
    | None => inr (IndexError "list index out of range")
    end
  else if PyStr.contains fence response_text then
    match PyStr.second_part fence response_text with
    | Some part => inl (PyStr.strip (PyStr.before_first fence part))
    | None => inr (IndexError "list index out of range")
    end
  else inl response_text.

(** [df.iter_rows(named=True)] turned into records. *)
Definition records (df : DataFrame) : list row :=
  map (fun i => map (fun s => (s_name s, nth i (s_values s) CNull)) df)
      (seq 0 (height df)).

Section Chain.

Variable json_loads : string -> json + exn.
Variable str_of_exn : exn -> string.

(** The handler of the outer [try] of [analyze]. *)
Definition failure (e : exn) : response :=
  {| type := "error";
     content := JStr ("An error occurred: " ++ str_of_exn e);
     sql := Some "";
     data := None |}.

(** [result.get(key, default)] on the decoded value; a value that is not a
    dict has no [get]. *)
Definition get (result : json) (key : string) (default : json) : json + exn :=
  match result with
  | JDict entries =>
      inl (match Py.lookup key entries with Some v => v | None => default end)
  | _ => inr (Raised "AttributeError")
  end.



(** The construction of the response (lines 101-106), with the checks
    pydantic applies: [type] a string, [content] a string or a dict, [sql] a
    string or [None]. *)
Definition build (result : json) : response + exn :=
  match get result "type" (JStr "text"),
        get result "content" (JStr ""),
        get result "sql" (JStr "") with
  | inl (JStr t), inl c, inl q =>
      match c, q with
      | (JStr _ | JDict _), JStr text =>
          inl {| type := t; content := c; sql := Some text; data := None |}
      | (JStr _ | JDict _), JNull =>
          inl {| type := t; content := c; sql := None; data := None |}
      | _, _ => inr (ValidationError "SpotifyAnalysisResponse")
      end
  | inl _, inl _, inl _ => inr (ValidationError "SpotifyAnalysisResponse")
  | inr e, _, _ => inr e
  | _, inr e, _ => inr e
  | _, _, inr e => inr e
  end.

(** [analyze]: [reply] is what [self.client.invoke(messages)] answers, the
    text of the model or an exception. *)
Definition analyze (reply : string + exn) : response :=
  match reply with
  | inr e => failure e
  | inl response_text =>
      match unfenced response_text with
      | inr e => failure e
      | inl text =>
          match json_loads text with
          | inr (JSONDecodeError _) =>
              {| type := "error";
                 content := JStr "Failed to parse LLM response as JSON.";
                 sql := Some "";
                 data := None |}
          | inr e => failure e
          | inl result =>
              match build result with
              | inl r => r
              | inr e => failure e
              end
          end
      end
  end.

(** The store behind the executor, and the executor: it returns a frame or
    raises. The journal records the statements it was called with. *)
Variable Store : Type.
Definition Executor : Type := Store -> string -> (DataFrame + exn) * Store.

Record run : Type := { store : Store; calls : list string }.

(** [analyze_query]. The schema is turned into CREATE TABLE text that only
    enters the prompt; the reply of the model is [reply]. *)
Definition analyze_query (reply : string + exn) (executor : option Executor)
    (r : run) : response * run :=
  let response := analyze reply in
  match sql response, executor with
  | Some (String c q), Some ex =>
      if negb (String.eqb (type response) "error") then
        let '(o, s) := ex (store r) (String c q) in
        let r' := {| store := s; calls := calls r ++ [String c q] |} in
        match o with
        | inl df =>
            if negb (is_empty df)
            then ({| type := type response; content := content response;
                     sql := sql response; data := Some (records df) |}, r')
            else (response, r')
        | inr e =>
            ({| type := "error";
                content := JStr ("Error executing SQL query: " ++ str_of_exn e);
                sql := sql response; data := data response |}, r')
        end
      else (response, r)
  | _, _ => (response, r)
  end.

End Chain.

Arguments store {Store} _.
Arguments calls {Store} _.
Arguments Build_run {Store} _ _.

End Chains.

(** ** The schema and table helpers ([backend/db/duckdb_helper.py],
       [dashboard/db_utils.py]) *)

Module Tables.

Definition nl : string := String "010"%char "".

(** The four statements of [create_tables_if_needed], in order. *)
Definition create_streaming_history : string :=
  PyStr.join nl
    ["";
     "            CREATE TABLE IF NOT EXISTS streaming_history (";
     "                ts TIMESTAMP,";
     "                platform VARCHAR,";
     "                ms_played INTEGER,";
     "                track VARCHAR,";
     "                artist VARCHAR,";
     "                album VARCHAR,";
     "                spotify_track_uri VARCHAR,";
     "                reason_start VARCHAR,";
     "                reason_end VARCHAR,";
     "                skipped BOOLEAN,";
     "                conn_country VARCHAR";
     "            )";
     "        "].

Definition create_track_metadata : string :=
  PyStr.join nl
    ["";
     "            CREATE TABLE IF NOT EXISTS track_metadata (";
     "                spotify_track_uri VARCHAR PRIMARY KEY,";
     "                track VARCHAR,";
     "                artist VARCHAR,";
     "                track_popularity INTEGER,";
     "                album_release_date DATE,";
     "                album VARCHAR,";
     "                duration_ms INTEGER,";
     "                explicit BOOLEAN,";
     "                album_type VARCHAR,";
     "                total_tracks INTEGER,";
     "                genres VARCHAR,";
     "                artist_popularity INTEGER,";
     "                artist_uri VARCHAR,";
     "                artist_followers INTEGER";
     "            )";
     "        "].

Definition create_idx_track_uri : string :=
  "CREATE INDEX IF NOT EXISTS idx_track_uri ON streaming_history(spotify_track_uri)".

Definition create_idx_ts : string :=
  "CREATE INDEX IF NOT EXISTS idx_ts ON streaming_history(ts)".

Definition ddl_statements : list string :=
  [create_streaming_history; create_track_metadata;
   create_idx_track_uri; create_idx_ts].

(** The query of [get_table_schema], an f-string around the table name. *)
Definition schema_query (table_name : string) : string :=
  (PyStr.join nl
     ["";
      "                SELECT column_name, data_type";
      "                FROM information_schema.columns";
      "                WHERE table_name = '"])
  ++ table_name ++
  (PyStr.join nl
     ["'";
      "            "]).

(** The query of [get_table_counts]. *)
Definition counts_query : string :=
  PyStr.join nl
    ["";
     "                SELECT ";
     "                    (SELECT COUNT(*) FROM streaming_history) as history_count,";
     "                    (SELECT COUNT(*) FROM track_metadata) as metadata_count,";
     "                    (SELECT COUNT(*) FROM track_metadata WHERE genres IS NOT NULL AND genres != '') as genre_track_count";
     "            "].

(** [result.fetchall()]: the rows of the result, each a tuple of cells. *)
Definition fetchall (df : DataFrame) : list (list cell) :=
  map (fun i => map (fun s => nth i (s_values s) CNull) df)
      (seq 0 (height df)).

(** [result.fetchone()]: the first row, or [None]. *)
Definition fetchone (df : DataFrame) : option (list cell) :=
  match fetchall df with
  | [] => None
  | r :: _ => Some r
  end.

(** The key and value [{col[0]: col[1] for col in result}] takes from one
    row; a row with fewer than two cells raises. *)
Definition pair_of (col : list cell) : option (cell * cell) :=
  match col with
  | name :: ty :: _ => Some (name, ty)
  | _ => None
  end.

Fixpoint pairs_of (rows : list (list cell)) : option (list (cell * cell)) :=
  match rows with
  | [] => Some []
  | col :: rest =>
      match pair_of col, pairs_of rest with
      | Some kv, Some kvs => Some (kv :: kvs)
      | _, _ => None
      end
  end.

Section Store.

Variable Db : Type.
Variable conn_execute : Db -> string -> (DataFrame + string) * Db.

Local Abbreviation execute := (DuckDb.execute Db conn_execute).

(** The [try] body of [create_tables_if_needed]: the statements one after
    the other; the first that raises ends the run with [False]. *)
Fixpoint run_statements (statements : list string) (w : DuckDb.world Db)
  : bool * DuckDb.world Db :=
  match statements with
  | [] => (true, w)
  | sql :: later =>
      match execute w sql with
      | (inl _, w') => run_statements later w'
      | (inr _, w') => (false, w')
      end
  end.

(** [create_tables_if_needed(conn)]: with a connection given, or with
    [None], in which case one is opened with [get_connection_with_retry] and
    closed at the end; without a connection the answer is [False]. *)
Definition create_tables_if_needed (conn_given : bool) (w : DuckDb.world Db)
  : bool * DuckDb.world Db :=
  if conn_given then run_statements ddl_statements w
  else
    let '(opened, w1) :=
      DuckDb.get_connection_with_retry Db conn_execute Connection.MAX_RETRIES w in
    if opened then run_statements ddl_statements w1 else (false, w1).

(** [get_table_schema(table_name)]: the connection is opened outside the
    [try], so a missing connection raises; a failing query, or a row too
    short, gives the empty dict. *)
Definition get_table_schema (w : DuckDb.world Db) (table_name : string)
  : (list (cell * cell) + exn) * DuckDb.world Db :=
  let '(opened, w1) := DuckDb.get_db_connection Db conn_execute w in
  if opened then
    match execute w1 (schema_query table_name) with
    | (inl df, w') =>
        match pairs_of (fetchall df) with
        | Some d => (inl d, w')
        | None => (inl [], w')
        end
    | (inr _, w') => (inl [], w')
    end
  else (inr (Raised "Could not connect to database"), w1).

(** [get_table_counts()]: the three counts under their keys, or the empty
    dict on any failure. *)
Definition get_table_counts (w : DuckDb.world Db)
  : list (string * cell) * DuckDb.world Db :=
  let '(opened, w1) := DuckDb.get_db_connection Db conn_execute w in
  if opened then
    match execute w1 counts_query with
    | (inl df, w') =>
        match fetchone df with
        | Some (history :: metadata :: genre :: _) =>
            ([("history_count", history); ("metadata_count", metadata);
              ("genre_track_count", genre)], w')
        | _ => ([], w')
        end
    | (inr _, w') => ([], w')
    end
  else ([], w1).

(** The dict [get_table_info] returns. *)
Record table_info : Type :=
  { row_count : cell; schema : option (list (cell * cell)) }.

(** [get_table_info(table_name)] of [dashboard/db_utils.py]. *)
Definition get_table_info (w : DuckDb.world Db) (table_name : string)
  : table_info * DuckDb.world Db :=
  match get_table_schema w table_name with
  | (inr _, w1) => ({| row_count := CInt 0; schema := None |}, w1)
  | (inl columns_of_table, w1) =>
      let '(counts, w2) := get_table_counts w1 in
      ({| row_count :=
            match Py.lookup (table_name ++ "_count") counts with
            | Some n => n
            | None => CInt 0
            end;
          schema := Some columns_of_table |}, w2)
  end.

End Store.

End Tables.

(** ** Sample collaborators

    Concrete stand-ins for the collaborators, used to run the definitions
    on explicit inputs. *)

Module Fixtures.

Import LangChain.

(** A well-formed analysis plan. *)
Definition plan : json :=
  JDict [("tables", JList [JStr "streaming_history"]);
         ("columns", JList [JStr "artist"; JStr "ms_played"]);
         ("analysis_type", JStr "aggregation");
         ("visualization",
          JDict [("type", JStr "bar"); ("dimensions", JDict [])])].

(** A decoder that knows one document. *)
Definition decode (text : string) : json + exn :=
  if String.eqb text "{plan}" then inl plan else inr (JSONDecodeError text).

Definition show_json (j : json) : string :=
  match j with JStr s => s | _ => "?" end.

Definition show_exn (e : exn) : string :=
  match e with
  | KeyError k => "'" ++ k ++ "'"
  | JSONDecodeError d | TypeError d | IndexError d | ValidationError d
  | Raised d => d
  end.

(** An executor that answers its successive calls from a script; its store
    is the number of calls answered so far. *)
Definition scripted (script : list (exec_result + exn)) : Executor nat :=
  fun n _ => (nth n script (inr (Raised "script exhausted")), S n).

Definition primary_sql : string :=
  "SELECT artist FROM streaming_history WHERE ms_played < 0".

Definition simplified_sql : string :=
  "SELECT artist FROM streaming_history LIMIT 10".

(** The model wraps the plan in prose and the SQL in a code fence. *)
Definition llm (simplified : string + exn) : collaborator :=
  {| schema_analyzer := inl "Sure! Here is the analysis: {plan}";
     sql_generator := inl ("`" ++ primary_sql ++ "`");
     simplifier := simplified |}.

Definition no_rows : exec_result :=
  {| success := Some true; error := None; data := Some (DRows []) |}.

Definition failed_without_data : exec_result :=
  {| success := Some false; error := Some "Parser Error"; data := None |}.

Definition failed_with_null_data : exec_result :=
  {| success := Some false; error := Some "Parser Error"; data := Some DNone |}.

Definition start : run nat := {| store := 0; calls := [] |}.

Definition two_rows : list row :=
  [[("artist", CStr "Nina Simone")]; [("artist", CStr "Bill Evans")]].

Definition with_rows : exec_result :=
  {| success := Some true; error := None; data := Some (DRows two_rows) |}.

Definition bar_spec (question : string) : VisualizationSpec :=
  {| v_type := "bar"; v_title := question; v_dimensions := [] |}.

(** A store that answers every statement with an empty frame. *)
Definition quiet_store (d : unit) (sql : string) : (DataFrame + string) * unit :=
  (inl empty_frame, d).

Definition fresh_world : DuckDb.world unit :=
  DuckDb.Build_world tt true [].

(** The frame a connection answers the probe with. *)
Definition probe_frame : DataFrame :=
  [{| s_name := "1"; s_dtype := OtherDtype; s_values := [CInt 1] |}].

(** A database without tables: the probe succeeds, every other statement
    raises. *)
Definition empty_database (d : unit) (sql : string) : (DataFrame + string) * unit :=
  if String.eqb sql DuckDb.probe then (inl probe_frame, d)
  else (inr "Catalog Error: Table does not exist!", d).

(** One result row with a genre and its count, the frame polars builds from
    it, and an intent asking for a column the rows do not have. *)
Definition genre_rows : list row :=
  [[("genre", CStr "rock"); ("count", CInt 42)]].

Definition genre_frame : DataFrame :=
  [{| s_name := "genre"; s_dtype := Utf8; s_values := [CStr "rock"] |};
   {| s_name := "count"; s_dtype := Int64; s_values := [CInt 42] |}].

Definition genre_spec : json :=
  JDict [("type", JStr "bar");
         ("dimensions",
          JDict [("x", JDict [("field", JStr "missing_col")]);
                 ("y", JDict [("field", JStr "count")])])].

Definition no_tooltip (c : cell) : cell := c.

(** Top artists by listening time, and an intent that names no field. *)
Definition artist_rows : list row :=
  [[("artist", CStr "Nina Simone"); ("total_ms", CInt 7200000)]].

Definition artist_frame : DataFrame :=
  [{| s_name := "artist"; s_dtype := Utf8; s_values := [CStr "Nina Simone"] |};
   {| s_name := "total_ms"; s_dtype := Int64; s_values := [CInt 7200000] |}].

Definition plain_bar : json := JDict [("type", JStr "bar")].

(** Stand-ins for the library functions of the mapper: no float is met, and
    numbers, lists and dicts print as a question mark. *)
Definition no_float (literal : string) : bool := true.

(** A reply of the one-shot chain and a decoder that knows it. *)
Definition answer_json : json :=
  JDict [("type", JStr "visualization");
         ("content", JStr "Top artists");
         ("sql", JStr "SELECT artist FROM plays")].

Definition decode_answer (text : string) : json + exn :=
  if String.eqb text "{answer}" then inl answer_json
  else inr (JSONDecodeError text).


(** A single count. *)
Definition count_series : series :=
  {| s_name := "plays"; s_dtype := Int64; s_values := [CInt 42] |}.

End Fixtures.

(* ===================================================================== *)
(** * Part II: properties                                                 *)
(* ===================================================================== *)

(** ** Strings *)

Section StringFacts.

Lemma prefix_iff (p s : string) :
  prefix p s = true <-> exists post, s = p ++ post.
Proof.
  revert s. induction p as [|a p IH]; intros s.
  - split; [intros _; exists s; reflexivity | intros _; destruct s; reflexivity].
  - destruct s as [|b s]; simpl.
    + split; [discriminate | intros [post H]; discriminate].
    + destruct (Ascii.ascii_dec a b) as [->|Hab].
      * rewrite IH. split; intros [post H]; exists post.
        -- now rewrite H.
        -- now inversion H.
      * split; [discriminate|]. intros [post H]. inversion H. congruence.
Qed.

Lemma contains_nil (needle : string) :
  PyStr.contains needle "" = prefix needle "".
Proof. simpl. apply orb_false_r. Qed.

Lemma contains_cons (needle : string) (c : ascii) (s : string) :
  PyStr.contains needle (String c s)
  = prefix needle (String c s) || PyStr.contains needle s.
Proof. reflexivity. Qed.

Lemma contains_iff (needle s : string) :
  PyStr.contains needle s = true <-> PyStr.occurs_in needle s.
Proof.
  induction s as [|c s IH]; [rewrite contains_nil | rewrite contains_cons].
  - rewrite prefix_iff. split.
    + intros [post H]. exists "", post. exact H.
    + intros [pre [post H]]. destruct pre; simpl in H.
      * now exists post.
      * discriminate.
  - rewrite orb_true_iff, IH, prefix_iff. split.
    + intros [[post H] | [pre [post H]]].
      * exists "", post. exact H.
      * exists (String c pre), post. simpl. now rewrite H.
    + intros [pre [post H]]. destruct pre as [|a pre]; simpl in H.
      * left. now exists post.
      * right. inversion H. now exists pre, post.
Qed.

End StringFacts.

(** ** Query validation *)

Section Validation.

Import DbUtils.

Lemma validate_query_true_iff (query : string) :
  validate_query query = true <->
  PyStr.startswith (PyStr.upper query) "SELECT" = true /\
  forall keyword, In keyword dangerous_keywords ->
                  ~ PyStr.occurs_in keyword (PyStr.upper query).
Proof.
  unfold validate_query.
  destruct (existsb _ dangerous_keywords) eqn:E.
  - split; [discriminate|]. intros [_ H].
    apply existsb_exists in E. destruct E as [k [Hk Hc]].
    exfalso. apply (H k Hk). now apply contains_iff.
  - assert (Hno : forall keyword, In keyword dangerous_keywords ->
                    ~ PyStr.occurs_in keyword (PyStr.upper query)).
    { intros k Hk Hocc. apply contains_iff in Hocc.
      assert (existsb (fun keyword => PyStr.contains keyword (PyStr.upper query))
                dangerous_keywords = true)
        by (apply existsb_exists; eauto).
      congruence. }
    destruct (PyStr.startswith (PyStr.upper query) "SELECT"); simpl; split;
      try discriminate; try tauto.
Qed.

(** C10. [validate_query] answers [True] exactly when the uppercased query
    starts with SELECT and none of the ten keywords occurs anywhere in it as
    a substring; so a read-only SELECT naming the column created_at, whose
    uppercased text contains CREATE, is rejected. *)
Theorem validate_query_characterization :
  (forall query,
      validate_query query = true <->
      (exists rest, PyStr.upper query = "SELECT" ++ rest) /\
      forall keyword, In keyword dangerous_keywords ->
                      ~ PyStr.occurs_in keyword (PyStr.upper query)) /\
  List.length dangerous_keywords = 10 /\
  PyStr.startswith (PyStr.upper "SELECT created_at FROM streaming_history")
                   "SELECT" = true /\
  PyStr.occurs_in "CREATE" (PyStr.upper "SELECT created_at FROM streaming_history") /\
  validate_query "SELECT created_at FROM streaming_history" = false.
Proof.
  split; [|split; [reflexivity|split; [reflexivity|split]]].
  - intros query. rewrite validate_query_true_iff.
    unfold PyStr.startswith. now rewrite prefix_iff.
  - exists "SELECT ", "D_AT FROM STREAMING_HISTORY". reflexivity.
  - reflexivity.
Qed.

End Validation.

(** ** The store executors *)

Section StoreFacts.

Import DbUtils.

Section Opening.

Variable Db : Type.
Variable conn_execute : Db -> string -> (DataFrame + string) * Db.

Local Abbreviation open_with := (DuckDb.get_connection_with_retry Db conn_execute).

(** Opening a connection sends the probe, once per attempt, and nothing
    else; no probe is sent when the database cannot be reached, and a
    connection comes out only after a probe. *)
Lemma get_connection_with_retry_probes (retries_left : nat) (w : DuckDb.world Db) :
  exists attempts,
    attempts <= S retries_left
    /\ DuckDb.forwarded (snd (open_with retries_left w))
       = (DuckDb.forwarded w ++ repeat DuckDb.probe attempts)%list
    /\ DuckDb.reachable (snd (open_with retries_left w)) = DuckDb.reachable w
    /\ (fst (open_with retries_left w) = true -> DuckDb.reachable w = true)
    /\ (DuckDb.reachable w = true -> 1 <= attempts)
    /\ (DuckDb.reachable w = false -> open_with retries_left w = (false, w)).
Proof.
  revert w. induction retries_left as [|n IH]; intros w;
    cbn [DuckDb.get_connection_with_retry]; unfold DuckDb.execute;
    destruct (DuckDb.reachable w) eqn:R.
  all: try solve [exists 0; cbn; rewrite app_nil_r;
                  repeat split; auto; try lia; try discriminate].
  all: destruct (conn_execute (DuckDb.db w) DuckDb.probe) as [[df|message] d].
  all: try solve [exists 1; cbn; repeat split; auto; try lia; try discriminate].
  destruct (PyStr.contains "different configuration" message).
  - match goal with
    | |- context [open_with n ?w1] => destruct (IH w1) as [k [K [F [Rk [T [P U]]]]]]
    end.
    exists (S k). cbn [DuckDb.forwarded DuckDb.reachable] in *.
    rewrite F, Rk, <- app_assoc. cbn [repeat app].
    repeat split; auto; try lia; try discriminate.
  - exists 1. cbn. repeat split; auto; try lia; discriminate.
Qed.

Lemma get_db_connection_probes (w : DuckDb.world Db) :
  exists attempts,
    attempts <= 6
    /\ DuckDb.forwarded (snd (DuckDb.get_db_connection Db conn_execute w))
       = (DuckDb.forwarded w ++ repeat DuckDb.probe attempts)%list
    /\ DuckDb.reachable (snd (DuckDb.get_db_connection Db conn_execute w))
       = DuckDb.reachable w
    /\ (fst (DuckDb.get_db_connection Db conn_execute w) = true ->
        DuckDb.reachable w = true)
    /\ (DuckDb.reachable w = true -> 1 <= attempts)
    /\ (DuckDb.reachable w = false ->
        DuckDb.get_db_connection Db conn_execute w = (false, w)).
Proof. apply (get_connection_with_retry_probes Connection.MAX_RETRIES w). Qed.

(** The object [backend/main.py] binds to [conn] is never entered: whatever
    the statement, nothing reaches the store and the answer is the empty
    frame. *)
Lemma unentered_context_manager_forwards_nothing
    (w : DuckDb.world Db) (sql : string) :
  DuckDb.analyze_question_executor Db conn_execute w sql = (empty_frame, w).
Proof. reflexivity. Qed.

End Opening.

Lemma rejected_iff (s : string) :
  validate_query s = false <->
  (exists keyword, In keyword dangerous_keywords
                   /\ PyStr.occurs_in keyword (PyStr.upper s))
  \/ PyStr.startswith (PyStr.upper s) "SELECT" = false.
Proof.
  unfold validate_query.
  destruct (existsb _ dangerous_keywords) eqn:E.
  - split; [intros _; left | reflexivity].
    apply existsb_exists in E. destruct E as [k [Hk Hc]].
    exists k. split; [exact Hk | now apply contains_iff].
  - destruct (PyStr.startswith (PyStr.upper s) "SELECT") eqn:P; cbn [negb].
    + split; [discriminate|]. intros [[k [Hk Hocc]] | H]; [|discriminate].
      apply contains_iff in Hocc.
      assert (existsb (fun keyword => PyStr.contains keyword (PyStr.upper s))
                dangerous_keywords = true)
        by (apply existsb_exists; eauto).
      congruence.
    + split; [now right | reflexivity].
Qed.

(** C1, as amended. For every string that contains one of the ten keywords
    (case-insensitively) or does not start with SELECT (case-insensitively),
    [validate_query] answers [False] and [get_query_explain_plan] returns
    [None] without handing anything to the store, not even the probe of a
    new connection. The executor of the pipeline,
    [execute_visualization_query], applies no such check: given a live
    connection it hands every string, rejected or not, to the connection
    unchanged, and what it returns is a frame, the one the store answers with
    or, when the store raises, an empty one. *)
Theorem keyword_check_guards_explain_plan_only (s : string) :
  ((exists keyword, In keyword dangerous_keywords
                    /\ PyStr.occurs_in keyword (PyStr.upper s))
   \/ PyStr.startswith (PyStr.upper s) "SELECT" = false ->
   validate_query s = false
   /\ (forall Db conn_execute (w : DuckDb.world Db),
          get_query_explain_plan Db conn_execute w s = (None, w)))
  /\ (forall Db conn_execute (w : DuckDb.world Db),
         let out := DuckDb.execute_visualization_query Db conn_execute
                      DuckDb.LiveConnection w s in
         DuckDb.forwarded (snd out) = (DuckDb.forwarded w ++ [s])%list
         /\ DuckDb.db (snd out) = snd (conn_execute (DuckDb.db w) s)
         /\ fst out = match fst (conn_execute (DuckDb.db w) s) with
                      | inl df => df
                      | inr _ => empty_frame
                      end).
Proof.
  split.
  - intros H. apply rejected_iff in H. split; [exact H|].
    intros Db ce w. unfold get_query_explain_plan. now rewrite H.
  - intros Db ce w. unfold DuckDb.execute_visualization_query, DuckDb.execute.
    destruct (ce (DuckDb.db w) s) as [[df|e] d]; cbn; auto.
Qed.

Lemma keyword_check_guards_explain_plan_only_witness :
  validate_query "DROP TABLE streaming_history" = false
  /\ get_query_explain_plan unit Fixtures.quiet_store Fixtures.fresh_world
       "DROP TABLE streaming_history" = (None, Fixtures.fresh_world)
  /\ DuckDb.forwarded
       (snd (DuckDb.execute_visualization_query unit Fixtures.quiet_store
               DuckDb.LiveConnection Fixtures.fresh_world
               "DROP TABLE streaming_history"))
     = ["DROP TABLE streaming_history"].
Proof.
  assert (H : (exists keyword, In keyword dangerous_keywords
                 /\ PyStr.occurs_in keyword (PyStr.upper "DROP TABLE streaming_history"))
              \/ PyStr.startswith (PyStr.upper "DROP TABLE streaming_history")
                   "SELECT" = false)
    by (right; reflexivity).
  destruct (keyword_check_guards_explain_plan_only "DROP TABLE streaming_history")
    as [Guard Live].
  destruct (Guard H) as [Hv He].
  split; [exact Hv | split].
  - apply He.
  - apply (Live unit Fixtures.quiet_store Fixtures.fresh_world).
Defined.

(** C1, as stated, fails: the statement DROP TABLE streaming_history
    contains the keyword DROP and does not start with SELECT, yet the
    executor of the pipeline, given a live connection as its signature
    declares, forwards it to the store and answers with the frame of the
    store, here an empty one, as it does for an accepted statement. Given
    the object [backend/main.py] binds to [conn], it forwards nothing and
    still reports no failure: the answer is the empty frame that every
    statement gets. *)
Lemma drop_table_reaches_the_store :
  PyStr.occurs_in "DROP" (PyStr.upper "DROP TABLE streaming_history")
  /\ PyStr.startswith (PyStr.upper "DROP TABLE streaming_history") "SELECT" = false
  /\ In "DROP TABLE streaming_history"
       (DuckDb.forwarded
          (snd (DuckDb.execute_visualization_query unit Fixtures.quiet_store
                  DuckDb.LiveConnection Fixtures.fresh_world
                  "DROP TABLE streaming_history")))
  /\ fst (DuckDb.execute_visualization_query unit Fixtures.quiet_store
            DuckDb.LiveConnection Fixtures.fresh_world
            "DROP TABLE streaming_history")
     = fst (DuckDb.execute_visualization_query unit Fixtures.quiet_store
              DuckDb.LiveConnection Fixtures.fresh_world "SELECT 1")
  /\ DuckDb.analyze_question_executor unit Fixtures.quiet_store
       Fixtures.fresh_world "DROP TABLE streaming_history"
     = DuckDb.analyze_question_executor unit Fixtures.quiet_store
         Fixtures.fresh_world "SELECT 1".
Proof.
  split; [exists "", " TABLE STREAMING_HISTORY"; reflexivity|].
  split; [reflexivity|].
  split; [simpl; now left | split; reflexivity].
Qed.

End StoreFacts.

(** ** The analysis chain *)

Section ChainFacts.

Import LangChain.

Variable json_loads : string -> json + exn.
Variable str_of_json : json -> string.
Variable str_of_exn : exn -> string.
Variable Store : Type.

Local Abbreviation parse := (parse_analysis json_loads str_of_exn).
Local Abbreviation respond := (execute_and_respond str_of_json str_of_exn Store).
Local Abbreviation analyze := (analyze_query json_loads str_of_json str_of_exn Store).

(** *** Step 1: the plan is complete or the request ends in an error *)

Lemma missing_fields_nil_dict (fields : list string) (entries : list (string * json)) :
  missing_fields fields (JDict entries) = inl [] ->
  forall f, In f fields -> Py.has_key f entries = true.
Proof.
  induction fields as [|g fields IH]; simpl; [intros _ f []|].
  destruct (missing_fields fields (JDict entries)) as [others|e] eqn:M;
    [|discriminate].
  destruct (Py.has_key g entries) eqn:K; [|discriminate].
  intros H f [<-|Hf]; [exact K|]. apply IH; [exact H|exact Hf].
Qed.

Lemma parse_analysis_cases (schema_analysis : string) :
  match parse schema_analysis with
  | inl analysis => complete_plan analysis
  | inr response =>
      r_type response = "error" /\ r_sql response = None
      /\ r_data response = None /\ r_visualization response = None
  end.
Proof.
  unfold parse_analysis. cbv zeta.
  destruct ((0 <=? _)%Z && (0 <? _)%Z);
    (destruct (json_loads _) as [analysis|e]; [|destruct e; simpl; auto]).
  all: destruct (missing_fields required_fields analysis) as [[|f fs]|e] eqn:M;
    simpl; auto.
  all: destruct analysis as [| | | | |items|entries]; simpl; auto.
  all: destruct (Py.lookup "visualization" entries) as [v|] eqn:L; simpl; auto.
  all: destruct v as [| | | | | |viz]; simpl; auto.
  all: destruct (Py.has_key "type" viz) eqn:T; simpl; auto.
  all: destruct (Py.has_key "dimensions" viz) eqn:D; simpl; auto.
  all: exists entries, viz; repeat split; auto.
  all: now apply missing_fields_nil_dict.
Qed.



(** *** The statements handed to the executor *)

Lemma respond_calls (executor : Executor Store) (llm : collaborator)
    (question : string) (analysis : json) (sql_query : string) (r : run Store) :
  let r' := snd (respond executor llm question analysis sql_query r) in
  calls r' = (calls r ++ [sql_query])%list
  \/ (exists simplified_query,
         generate_simplified_query llm = Some simplified_query
         /\ simplified_query <> "" /\ simplified_query <> sql_query
         /\ calls r' = (calls r ++ [sql_query; simplified_query])%list).
Proof.
  unfold execute_and_respond, call.
  destruct (executor (store r) sql_query) as [[result|e] s1]; simpl; auto.
  destruct (success result) as [ok|]; simpl; auto.
  destruct (data result) as [[|rows]|]; simpl; auto;
    destruct ok; simpl; auto;
    try (destruct (error result); simpl; auto; fail);
    try (destruct (has_rows result); simpl; auto);
    (destruct (generate_simplified_query llm) as [sq|] eqn:G; simpl; auto;
     destruct (String.eqb_spec sq ""); simpl; auto;
     destruct (String.eqb_spec sq sql_query); simpl; auto;
     right; exists sq; repeat split; auto;
     destruct (executor s1 sq) as [[result2|e2] s2]; simpl;
     [destruct (success result2) as [ok2|]; simpl;
      [destruct (ok2 && has_rows result2)|]|];
     simpl; now rewrite <- app_assoc).
Qed.

Lemma analyze_calls (question : string) (llm : collaborator)
    (executor : option (Executor Store)) (r : run Store) :
  let r' := snd (analyze question llm executor r) in
  calls r' = calls r
  \/ (exists sql_query, calls r' = (calls r ++ [sql_query])%list)
  \/ (exists sql_query simplified_query,
         calls r' = (calls r ++ [sql_query; simplified_query])%list).
Proof.
  unfold analyze_query.
  destruct (schema_analyzer llm) as [text|e]; simpl; auto.
  destruct (parse text) as [analysis|response]; simpl; auto.
  destruct (sql_generator llm) as [raw|e]; simpl; auto.
  destruct executor as [ex|]; simpl; auto.
  destruct (String.eqb (clean_sql raw) ""); simpl; auto.
  destruct (respond_calls ex llm question analysis (clean_sql raw) r)
    as [H | [sq [_ [_ [_ H]]]]]; right; [left|right]; eauto.
Qed.

(** C3. Answering one question invokes the executor at most twice: the
    statements handed to it are none, or the primary candidate alone, or the
    primary candidate followed by one simplified candidate. This holds for
    every executor, whatever it answers and however often a zero-row outcome
    would recur. *)
Theorem executor_invoked_at_most_twice
    (question : string) (llm : collaborator)
    (executor : option (Executor Store)) (r : run Store) :
  exists extra,
    calls (snd (analyze question llm executor r)) = (calls r ++ extra)%list
    /\ List.length extra <= 2.
Proof.
  destruct (analyze_calls question llm executor r)
    as [H | [[p H] | [p [q H]]]].
  - exists []. rewrite app_nil_r. split; [exact H | simpl; lia].
  - exists [p]. split; [exact H | simpl; lia].
  - exists [p; q]. split; [exact H | simpl; lia].
Qed.

(** C8. When the simplification returns nothing usable - the invocation
    raised, the cleaned text is empty, or it equals the cleaned primary
    candidate - the retry is skipped: the executor is invoked exactly once,
    with the primary candidate. *)
Theorem unusable_simplification_is_not_executed
    (question : string) (llm : collaborator) (executor : Executor Store)
    (r : run Store) (schema_analysis : string) (analysis : json) (raw : string) :
  schema_analyzer llm = inl schema_analysis ->
  parse schema_analysis = inl analysis ->
  sql_generator llm = inl raw ->
  clean_sql raw <> "" ->
  (generate_simplified_query llm = None
   \/ generate_simplified_query llm = Some ""
   \/ generate_simplified_query llm = Some (clean_sql raw)) ->
  calls (snd (analyze question llm (Some executor) r))
  = (calls r ++ [clean_sql raw])%list.
Proof.
  intros Hs Hp Hg Hne Hsimp. unfold analyze_query. rewrite Hs, Hp, Hg.
  destruct (String.eqb_spec (clean_sql raw) ""); [contradiction|]. simpl.
  destruct (respond_calls executor llm question analysis (clean_sql raw) r)
    as [H | [sq [G [N1 [N2 _]]]]]; [exact H|].
  exfalso. rewrite G in Hsimp.
  destruct Hsimp as [H|[H|H]]; inversion H; subst; contradiction.
Qed.

End ChainFacts.



Lemma unusable_simplification_is_not_executed_witness :
  LangChain.calls
    (snd (LangChain.analyze_query Fixtures.decode Fixtures.show_json
            Fixtures.show_exn nat "Who did I never play?"
            (Fixtures.llm (inl Fixtures.primary_sql))
            (Some (Fixtures.scripted [inl Fixtures.no_rows]))
            Fixtures.start))
  = [Fixtures.primary_sql].
Proof.
  apply (unusable_simplification_is_not_executed
           Fixtures.decode Fixtures.show_json Fixtures.show_exn nat
           "Who did I never play?" (Fixtures.llm (inl Fixtures.primary_sql))
           (Fixtures.scripted [inl Fixtures.no_rows]) Fixtures.start
           "Sure! Here is the analysis: {plan}" Fixtures.plan
           ("`" ++ Fixtures.primary_sql ++ "`")).
  - reflexivity.
  - reflexivity.
  - reflexivity.
  - discriminate.
  - right. right. reflexivity.
Defined.

(** *** Terminal responses *)

Section ChainOutcomes.

Import LangChain.

Variable json_loads : string -> json + exn.
Variable str_of_json : json -> string.
Variable str_of_exn : exn -> string.
Variable Store : Type.

Local Abbreviation parse := (parse_analysis json_loads str_of_exn).
Local Abbreviation respond := (execute_and_respond str_of_json str_of_exn Store).
Local Abbreviation analyze := (analyze_query json_loads str_of_json str_of_exn Store).
Local Abbreviation visualize := (visualization_response str_of_json str_of_exn).

Lemma visualize_terminal (question : string) (analysis : json)
    (sql_query : string) (result : exec_result) :
  terminal (visualize question analysis sql_query result).
Proof.
  unfold visualization_response, execution_error, error_response, terminal.
  destruct (make_viz_spec question analysis) as [spec|e]; simpl; auto.
  destruct (Py.getitem analysis "analysis_type") as [kind|e]; simpl; auto.
  destruct (data result) as [d|]; simpl; auto.
  right. right. split; [reflexivity|]. now exists sql_query, spec.
Qed.

Lemma respond_terminal (executor : Executor Store) (llm : collaborator)
    (question : string) (analysis : json) (sql_query : string) (r : run Store) :
  terminal (fst (respond executor llm question analysis sql_query r)).
Proof.
  assert (E : forall c s, terminal (error_response c s))
    by (intros; left; repeat split).
  unfold execute_and_respond, call, execution_error.
  destruct (executor (store r) sql_query) as [[result|e] s1]; simpl; auto.
  destruct (success result) as [ok|]; simpl; auto.
  destruct (data result) as [[|rows]|] eqn:D; simpl; auto;
    destruct ok; simpl; auto;
    try (destruct (error result); simpl; now auto);
    try (destruct (has_rows result); simpl; [now apply visualize_terminal|]);
    (destruct (generate_simplified_query llm) as [sq|];
       [|now apply visualize_terminal];
     destruct (negb (String.eqb sq "") && negb (String.eqb sq sql_query));
       [|now apply visualize_terminal];
     destruct (executor s1 sq) as [[result2|e2] s2]; simpl; auto;
     destruct (success result2) as [ok2|]; simpl; auto;
     destruct (ok2 && has_rows result2); simpl; now apply visualize_terminal).
Qed.

(** Every response of [analyze_query] is of type error, sql or
    visualization; an error carries neither data nor visualization. *)
Lemma analyze_terminal (question : string) (llm : collaborator)
    (executor : option (Executor Store)) (r : run Store) :
  terminal (fst (analyze question llm executor r)).
Proof.
  unfold analyze_query.
  destruct (schema_analyzer llm) as [text|e]; simpl; [|left; now repeat split].
  pose proof (parse_analysis_cases json_loads str_of_exn text) as P.
  destruct (parse text) as [analysis|response]; simpl.
  2:{ left. tauto. }
  destruct (sql_generator llm) as [raw|e]; simpl; [|left; now repeat split].
  destruct executor as [ex|]; simpl.
  - destruct (String.eqb (clean_sql raw) ""); simpl.
    + right. left. now repeat split.
    + apply respond_terminal.
  - right. left. now repeat split.
Qed.

Lemma error_carries_no_payload (question : string) (llm : collaborator)
    (executor : option (Executor Store)) (r : run Store) :
  r_type (fst (analyze question llm executor r)) = "error" ->
  r_data (fst (analyze question llm executor r)) = None
  /\ r_visualization (fst (analyze question llm executor r)) = None.
Proof.
  intros H. destruct (analyze_terminal question llm executor r)
    as [[_ P] | [[T _] | [T _]]]; [exact P | |]; rewrite T in H; discriminate.
Qed.

Lemma visualize_without_data (question : string) (analysis : json)
    (sql_query : string) (result : exec_result) :
  r_type (visualize question analysis sql_query result) = "visualization" ->
  r_data (visualize question analysis sql_query result) = None ->
  data result = Some DNone.
Proof.
  unfold visualization_response, execution_error, error_response.
  destruct (make_viz_spec question analysis) as [spec|e]; simpl;
    [|discriminate].
  destruct (Py.getitem analysis "analysis_type") as [kind|e]; simpl;
    [|discriminate].
  destruct (data result) as [[|rows]|]; simpl; try discriminate. reflexivity.
Qed.

(** A visualization response lacks its data only on the retry path: the
    executor was invoked a second time, with the simplified candidate. *)
Lemma missing_data_only_after_retry (executor : Executor Store)
    (llm : collaborator) (question : string) (analysis : json)
    (sql_query : string) (r : run Store) :
  let out := respond executor llm question analysis sql_query r in
  r_type (fst out) = "visualization" ->
  r_data (fst out) = None ->
  exists simplified_query,
    calls (snd out) = (calls r ++ [sql_query; simplified_query])%list.
Proof.
  unfold execute_and_respond, call, execution_error.
  destruct (executor (store r) sql_query) as [[result|e] s1]; simpl;
    try discriminate.
  destruct (success result) as [ok|]; simpl; try discriminate.
  destruct (data result) as [[|rows]|] eqn:D; simpl; try discriminate;
    destruct ok; simpl;
    try (destruct (error result); simpl; discriminate);
    try (destruct (has_rows result); simpl;
         [intros T N; pose proof (visualize_without_data _ _ _ _ T N);
          congruence|]);
    (destruct (generate_simplified_query llm) as [sq|];
       [|intros T N; pose proof (visualize_without_data _ _ _ _ T N);
         congruence];
     destruct (negb (String.eqb sq "") && negb (String.eqb sq sql_query));
       [|intros T N; pose proof (visualize_without_data _ _ _ _ T N);
         congruence];
     destruct (executor s1 sq) as [[result2|e2] s2]; simpl; try discriminate;
     destruct (success result2) as [ok2|]; simpl; try discriminate;
     destruct (ok2 && has_rows result2); simpl; intros _ _; exists sq;
     now rewrite <- app_assoc).
Qed.

Lemma never_text (question : string) (llm : collaborator)
    (executor : option (Executor Store)) (r : run Store) :
  r_type (fst (analyze question llm executor r)) <> "text".
Proof.
  destruct (analyze_terminal question llm executor r)
    as [[T _] | [[T _] | [T _]]]; rewrite T; discriminate.
Qed.

(** C4, as amended. If the primary query succeeds with zero rows, the
    simplified query (a non-empty candidate different from the primary one)
    also succeeds with zero rows, and the plan's visualization has a string
    type and a dict of dimensions, then the response has type visualization
    (the chain never answers with type text), its sql is the primary query,
    its data is the empty sequence, its content names the analysis type, and
    its visualization is the plan's. *)
Theorem two_empty_results_give_empty_visualization
    (question : string) (llm : collaborator) (executor : Executor Store)
    (r : run Store) (schema_analysis : string) (analysis : json) (raw : string)
    (result result2 : exec_result) (s1 s2 : Store) (simplified_query : string)
    (spec : VisualizationSpec) (kind : json) :
  schema_analyzer llm = inl schema_analysis ->
  parse schema_analysis = inl analysis ->
  sql_generator llm = inl raw ->
  clean_sql raw <> "" ->
  executor (store r) (clean_sql raw) = (inl result, s1) ->
  success result = Some true ->
  data result = Some (DRows []) ->
  generate_simplified_query llm = Some simplified_query ->
  simplified_query <> "" ->
  simplified_query <> clean_sql raw ->
  executor s1 simplified_query = (inl result2, s2) ->
  success result2 = Some true ->
  data result2 = Some (DRows []) ->
  make_viz_spec question analysis = inl spec ->
  Py.getitem analysis "analysis_type" = inl kind ->
  fst (analyze question llm (Some executor) r)
  = {| r_type := "visualization";
       r_content := "Analysis of " ++ str_of_json kind;
       r_sql := Some (clean_sql raw);
       r_data := Some [];
       r_visualization := Some spec |}
  /\ r_type (fst (analyze question llm (Some executor) r)) <> "text".
Proof.
  intros Hs Hp Hg Hne He1 Hok1 Hd1 Hsq Hn1 Hn2 He2 Hok2 Hd2 Hv Hk.
  split; [|apply never_text].
  unfold analyze_query. rewrite Hs, Hp, Hg.
  destruct (String.eqb_spec (clean_sql raw) ""); [contradiction|]. simpl.
  unfold execute_and_respond, call. rewrite He1, Hok1, Hd1. simpl.
  unfold has_rows. rewrite Hd1, Hsq.
  destruct (String.eqb_spec simplified_query ""); [contradiction|].
  destruct (String.eqb_spec simplified_query (clean_sql raw)); [contradiction|].
  simpl. rewrite He2, Hok2, Hd2. simpl.
  unfold visualization_response. now rewrite Hv, Hk, Hd2.
Qed.

End ChainOutcomes.

Lemma two_empty_results_give_empty_visualization_witness :
  fst (LangChain.analyze_query Fixtures.decode Fixtures.show_json
         Fixtures.show_exn nat "Who did I never play?"
         (Fixtures.llm (inl Fixtures.simplified_sql))
         (Some (Fixtures.scripted [inl Fixtures.no_rows; inl Fixtures.no_rows]))
         Fixtures.start)
  = {| LangChain.r_type := "visualization";
       LangChain.r_content := "Analysis of aggregation";
       LangChain.r_sql := Some Fixtures.primary_sql;
       LangChain.r_data := Some [];
       LangChain.r_visualization :=
         Some {| LangChain.v_type := "bar";
                 LangChain.v_title := "Who did I never play?";
                 LangChain.v_dimensions := [] |} |}.
Proof.
  apply (two_empty_results_give_empty_visualization
           Fixtures.decode Fixtures.show_json Fixtures.show_exn nat
           "Who did I never play?" (Fixtures.llm (inl Fixtures.simplified_sql))
           (Fixtures.scripted [inl Fixtures.no_rows; inl Fixtures.no_rows])
           Fixtures.start "Sure! Here is the analysis: {plan}" Fixtures.plan
           ("`" ++ Fixtures.primary_sql ++ "`")
           Fixtures.no_rows Fixtures.no_rows 1 2 Fixtures.simplified_sql
           {| LangChain.v_type := "bar";
              LangChain.v_title := "Who did I never play?";
              LangChain.v_dimensions := [] |}
           (JStr "aggregation")).
  all: try reflexivity.
  all: discriminate.
Defined.

(** C4, as stated, fails: the primary query returns zero rows without error
    and so does the simplified one, yet the response has type visualization,
    not text (its sql is the primary query and its data the empty sequence). *)
Lemma two_empty_results_are_not_text :
  let response :=
    fst (LangChain.analyze_query Fixtures.decode Fixtures.show_json
           Fixtures.show_exn nat "Who did I never play?"
           (Fixtures.llm (inl Fixtures.simplified_sql))
           (Some (Fixtures.scripted [inl Fixtures.no_rows; inl Fixtures.no_rows]))
           Fixtures.start) in
  LangChain.r_type response = "visualization"
  /\ LangChain.r_type response <> "text"
  /\ LangChain.r_sql response = Some Fixtures.primary_sql
  /\ LangChain.r_data response = Some [].
Proof.
  repeat split. discriminate.
Qed.

(** C5: the code at a failing input. The primary query returns zero rows
    without error; the simplified query fails, either by a result with
    success false and no data key or by an exception of the executor. In both
    runs the response has type error: the lookup of data in the overwritten
    result raises in the first, the executor's exception reaches the handler
    in the second. *)
Theorem failed_simplification_ends_in_error :
  let failing_result :=
    fst (LangChain.analyze_query Fixtures.decode Fixtures.show_json
           Fixtures.show_exn nat "Who did I never play?"
           (Fixtures.llm (inl Fixtures.simplified_sql))
           (Some (Fixtures.scripted
                    [inl Fixtures.no_rows; inl Fixtures.failed_without_data]))
           Fixtures.start) in
  let raising_executor :=
    fst (LangChain.analyze_query Fixtures.decode Fixtures.show_json
           Fixtures.show_exn nat "Who did I never play?"
           (Fixtures.llm (inl Fixtures.simplified_sql))
           (Some (Fixtures.scripted
                    [inl Fixtures.no_rows; inr (Raised "Parser Error")]))
           Fixtures.start) in
  failing_result
  = LangChain.error_response "Error executing SQL query: 'data'"
      (Some Fixtures.primary_sql)
  /\ raising_executor
     = LangChain.error_response "Error executing SQL query: Parser Error"
         (Some Fixtures.primary_sql)
  /\ LangChain.r_type failing_result = "error"
  /\ LangChain.r_type raising_executor = "error".
Proof.
  repeat split.
Qed.

(** C7: the code at a failing input. The primary query returns zero rows
    without error; the simplified query fails with a result whose data is
    None. The response has type visualization and its data is absent. *)
Theorem visualization_response_without_data :
  let response :=
    fst (LangChain.analyze_query Fixtures.decode Fixtures.show_json
           Fixtures.show_exn nat "Who did I never play?"
           (Fixtures.llm (inl Fixtures.simplified_sql))
           (Some (Fixtures.scripted
                    [inl Fixtures.no_rows; inl Fixtures.failed_with_null_data]))
           Fixtures.start) in
  LangChain.r_type response = "visualization"
  /\ LangChain.r_data response = None
  /\ LangChain.r_sql response = Some Fixtures.primary_sql.
Proof.
  repeat split.
Qed.

(** ** Cleaning of generated SQL *)

Section StripFacts.

Import SpecWords.

Variable p : ascii -> bool.

Lemma lstrip_by_app (l s : string) :
  all_chars p l = true -> head_clear p s = true ->
  PyStr.lstrip_by p (l ++ s) = s.
Proof.
  intros Hl Hs. induction l as [|c l IH]; simpl in *.
  - destruct s as [|c s]; [reflexivity|]. simpl in *.
    now destruct (p c).
  - apply andb_true_iff in Hl. destruct Hl as [Hc Hl]. rewrite Hc. now apply IH.
Qed.

Lemma rstrip_by_all (r : string) :
  all_chars p r = true -> PyStr.rstrip_by p r = "".
Proof.
  induction r as [|c r IH]; simpl; [reflexivity|].
  intros H. apply andb_true_iff in H. destruct H as [Hc Hr].
  now rewrite (IH Hr), Hc.
Qed.

Lemma rstrip_by_cons (c : ascii) (s : string) :
  PyStr.rstrip_by p (String c s)
  = match PyStr.rstrip_by p s with
    | EmptyString => if p c then EmptyString else String c EmptyString
    | String d x => String c (String d x)
    end.
Proof. reflexivity. Qed.

Lemma rstrip_by_app (s r : string) :
  all_chars p r = true -> last_clear p s = true ->
  PyStr.rstrip_by p (s ++ r) = s.
Proof.
  intros Hr. induction s as [|c s IH]; intros Hs.
  - now apply rstrip_by_all.
  - change (String c s ++ r) with (String c (s ++ r)).
    rewrite rstrip_by_cons. destruct s as [|d s].
    + simpl in *. rewrite (rstrip_by_all r Hr). now destruct (p c).
    + now rewrite (IH Hs).
Qed.

Lemma all_chars_app (l r : string) :
  all_chars p l = true -> all_chars p r = true -> all_chars p (l ++ r) = true.
Proof.
  intros Hl Hr. induction l as [|c l IH]; simpl in *; [exact Hr|].
  apply andb_true_iff in Hl. destruct Hl as [Hc Hl]. now rewrite Hc, IH.
Qed.

Lemma lstrip_by_all (l : string) :
  all_chars p l = true -> PyStr.lstrip_by p l = "".
Proof.
  induction l as [|c l IH]; simpl; [reflexivity|].
  intros H. apply andb_true_iff in H. destruct H as [Hc Hl]. now rewrite Hc, IH.
Qed.

(** Stripping removes what encloses a text whose two ends are clear. *)
Lemma strip_by_enclose (l s r : string) :
  all_chars p l = true -> all_chars p r = true ->
  head_clear p s = true -> last_clear p s = true ->
  PyStr.strip_by p (enclose l s r) = s.
Proof.
  intros Hl Hr Hh Ht. unfold PyStr.strip_by, enclose.
  destruct s as [|c s].
  - simpl. now rewrite lstrip_by_all by now apply all_chars_app.
  - rewrite lstrip_by_app; [now apply rstrip_by_app | exact Hl | exact Hh].
Qed.

Lemma head_clear_enclose (l s r : string) :
  head_clear p l = true -> head_clear p s = true -> head_clear p r = true ->
  head_clear p (enclose l s r) = true.
Proof.
  unfold enclose. intros Hl Hs Hr.
  destruct l; [|exact Hl]. destruct s; [|exact Hs]. exact Hr.
Qed.

Lemma last_clear_app (l r : string) :
  last_clear p l = true -> last_clear p r = true -> last_clear p (l ++ r) = true.
Proof.
  intros Hl Hr. induction l as [|c l IH]; [exact Hr|].
  change (String c l ++ r) with (String c (l ++ r)).
  destruct l as [|d l].
  - destruct r as [|e r]; [exact Hl | exact Hr].
  - change (last_clear p (String d l ++ r) = true). apply IH. exact Hl.
Qed.

Lemma last_clear_enclose (l s r : string) :
  last_clear p l = true -> last_clear p s = true -> last_clear p r = true ->
  last_clear p (enclose l s r) = true.
Proof.
  unfold enclose. intros Hl Hs Hr. now repeat apply last_clear_app.
Qed.

Lemma head_clear_replicate (n : nat) (c : ascii) :
  p c = false -> head_clear p (replicate n c) = true.
Proof. intros H. destruct n; simpl; [reflexivity | now rewrite H]. Qed.

Lemma last_clear_replicate (n : nat) (c : ascii) :
  p c = false -> last_clear p (replicate n c) = true.
Proof.
  intros H. induction n as [|n IH]; [reflexivity|].
  simpl. destruct (replicate n c); [now rewrite H | exact IH].
Qed.

Lemma all_chars_replicate (n : nat) (c : ascii) :
  p c = true -> all_chars p (replicate n c) = true.
Proof. intros H. induction n as [|n IH]; simpl; [reflexivity | now rewrite H]. Qed.

Lemma head_clear_weaken (q : ascii -> bool) (s : string) :
  (forall c, p c = true -> q c = true) ->
  head_clear q s = true -> head_clear p s = true.
Proof.
  intros Hpq. destruct s as [|c s]; simpl; [reflexivity|].
  destruct (p c) eqn:E; [|reflexivity]. now rewrite (Hpq c E).
Qed.

Lemma last_clear_weaken (q : ascii -> bool) (s : string) :
  (forall c, p c = true -> q c = true) ->
  last_clear q s = true -> last_clear p s = true.
Proof.
  intros Hpq. induction s as [|c s IH]; [reflexivity|].
  destruct s as [|d s]; [|exact IH]. simpl.
  destruct (p c) eqn:E; [|reflexivity]. now rewrite (Hpq c E).
Qed.

End StripFacts.

Section StripShape.

Import SpecWords.

Variable p : ascii -> bool.

Lemma lstrip_by_split (s : string) :
  exists l, s = l ++ PyStr.lstrip_by p s /\ all_chars p l = true.
Proof.
  induction s as [|c s [l [E A]]]; simpl.
  - now exists "".
  - destruct (p c) eqn:Pc.
    + exists (String c l). simpl. rewrite Pc, A. split; [now rewrite <- E | reflexivity].
    + now exists "".
Qed.

Lemma rstrip_by_split (s : string) :
  exists r, s = PyStr.rstrip_by p s ++ r /\ all_chars p r = true.
Proof.
  induction s as [|c s [r [E A]]].
  - now exists "".
  - rewrite rstrip_by_cons. destruct (PyStr.rstrip_by p s) as [|d x] eqn:R.
    + simpl in E. subst s. destruct (p c) eqn:Pc.
      * exists (String c r). simpl. now rewrite Pc, A.
      * exists r. simpl. now split.
    + exists r. split; [|exact A]. simpl in E |- *. now rewrite <- E.
Qed.

Lemma strip_by_split (s : string) :
  exists l r, s = l ++ PyStr.strip_by p s ++ r
              /\ all_chars p l = true /\ all_chars p r = true.
Proof.
  unfold PyStr.strip_by.
  destruct (lstrip_by_split s) as [l [El Al]].
  destruct (rstrip_by_split (PyStr.lstrip_by p s)) as [r [Er Ar]].
  exists l, r. split; [|now split]. now rewrite <- Er.
Qed.

Lemma lstrip_by_head (s : string) : head_clear p (PyStr.lstrip_by p s) = true.
Proof.
  induction s as [|c s IH]; simpl; [reflexivity|].
  destruct (p c) eqn:Pc; [exact IH | simpl; now rewrite Pc].
Qed.

Lemma rstrip_by_last (s : string) : last_clear p (PyStr.rstrip_by p s) = true.
Proof.
  induction s as [|c s IH]; [reflexivity|].
  rewrite rstrip_by_cons. destruct (PyStr.rstrip_by p s) as [|d x].
  - destruct (p c) eqn:Pc; simpl; [reflexivity | now rewrite Pc].
  - exact IH.
Qed.

Lemma rstrip_by_head (s : string) :
  head_clear p s = true -> head_clear p (PyStr.rstrip_by p s) = true.
Proof.
  destruct s as [|c s]; [reflexivity|]. intros H. rewrite rstrip_by_cons.
  destruct (PyStr.rstrip_by p s); [|exact H].
  simpl in H. apply negb_true_iff in H. rewrite H. simpl. now rewrite H.
Qed.

(** After [strip] neither end satisfies the stripped predicate. *)
Lemma strip_by_edges (s : string) :
  head_clear p (PyStr.strip_by p s) = true
  /\ last_clear p (PyStr.strip_by p s) = true.
Proof.
  unfold PyStr.strip_by. split.
  - apply rstrip_by_head, lstrip_by_head.
  - apply rstrip_by_last.
Qed.

Lemma all_chars_weaken (q : ascii -> bool) (s : string) :
  (forall c, p c = true -> q c = true) ->
  all_chars p s = true -> all_chars q s = true.
Proof.
  intros Hpq. induction s as [|c s IH]; simpl; [reflexivity|].
  intros H. apply andb_true_iff in H. destruct H as [Hc Hs].
  now rewrite (Hpq c Hc), IH.
Qed.

End StripShape.

Section StripEdges.

Import SpecWords.

Variable p : ascii -> bool.

Lemma enclose_nothing (s : string) : enclose "" s "" = s.
Proof.
  unfold enclose. simpl. induction s as [|c s IH]; simpl;
    [reflexivity | now rewrite IH].
Qed.

(** Stripping leaves a text with clear ends as it is. *)
Lemma strip_by_clear (s : string) :
  clear_of p s = true -> PyStr.strip_by p s = s.
Proof.
  unfold clear_of. intros H. apply andb_true_iff in H. destruct H as [Hh Ht].
  rewrite <- (enclose_nothing s) at 1. now apply strip_by_enclose.
Qed.

Lemma last_clear_after (l r : string) :
  r <> "" -> last_clear p (l ++ r) = last_clear p r.
Proof.
  intros N. induction l as [|c l IH]; [reflexivity|].
  change (String c l ++ r) with (String c (l ++ r)).
  destruct (l ++ r) as [|d x] eqn:E; [|exact IH].
  destruct l; [simpl in E; contradiction | discriminate].
Qed.

(** A text enclosed in runs of a character that [p] lets through has clear
    ends, whatever it holds inside. *)
Lemma clear_of_enclosed (ch : ascii) (a a' : nat) (inner : string) :
  p ch = false ->
  clear_of p (enclose (replicate (S a) ch) inner (replicate (S a') ch)) = true.
Proof.
  intros H. unfold clear_of, enclose. apply andb_true_iff. split.
  - simpl. now rewrite H.
  - rewrite (last_clear_after (replicate (S a) ch) (inner ++ replicate (S a') ch))
      by (destruct inner; discriminate).
    rewrite (last_clear_after inner (replicate (S a') ch)) by discriminate.
    now apply last_clear_replicate.
Qed.

Lemma clear_of_weaken (q : ascii -> bool) (s : string) :
  (forall c, p c = true -> q c = true) ->
  clear_of q s = true -> clear_of p s = true.
Proof.
  unfold clear_of. intros W H. apply andb_true_iff in H. destruct H as [Hh Ht].
  apply andb_true_iff. split.
  - now apply (head_clear_weaken p q).
  - now apply (last_clear_weaken p q).
Qed.

End StripEdges.

Section Cleaning.

Import SpecWords LangChain.

Lemma space_is_space_or_quote (c : ascii) :
  PyStr.is_space c = true -> space_or_quote c = true.
Proof. intros H. unfold space_or_quote. now rewrite H. Qed.

Lemma quote_is_space_or_quote (q : ascii) :
  is_quote q = true ->
  forall c, Ascii.eqb q c = true -> space_or_quote c = true.
Proof.
  intros Hq c H. apply Ascii.eqb_eq in H. subst c.
  unfold space_or_quote. rewrite Hq. apply orb_true_r.
Qed.

Ltac weaker_than_space_or_quote :=
  first [ exact space_is_space_or_quote
        | apply quote_is_space_or_quote; reflexivity ].

Ltac clear_edges :=
  repeat first
    [ apply head_clear_enclose | apply last_clear_enclose
    | apply head_clear_replicate; reflexivity
    | apply last_clear_replicate; reflexivity
    | apply all_chars_replicate; reflexivity
    | assumption
    | apply (head_clear_weaken _ space_or_quote);
        [ weaker_than_space_or_quote | assumption ]
    | apply (last_clear_weaken _ space_or_quote);
        [ weaker_than_space_or_quote | assumption ] ].

(** The cleaning, stage by stage. *)
Lemma clean_sql_stages (raw : string) :
  clean_sql raw
  = PyStr.strip_by (Ascii.eqb double_quote)
      (PyStr.strip_by (Ascii.eqb single_quote)
         (PyStr.strip_by (Ascii.eqb backtick)
            (PyStr.strip_by PyStr.is_space raw))).
Proof. reflexivity. Qed.

Lemma strip_by_whole_runs (p : ascii -> bool) (s : string) :
  exists l r,
    s = enclose l (PyStr.strip_by p s) r
    /\ all_chars p l = true /\ all_chars p r = true
    /\ clear_of p (PyStr.strip_by p s) = true.
Proof.
  destruct (strip_by_split p s) as [l [r [E [Al Ar]]]].
  destruct (strip_by_edges p s) as [Hh Ht].
  exists l, r. unfold clear_of. rewrite Hh, Ht. now repeat split.
Qed.

(** C9, as amended. For every raw text, the cleaning trims the surrounding
    whitespace and then, in one pass in the order backtick, single quote,
    double quote, removes every leading and trailing occurrence of that
    character: the raw text is the cleaned SQL enclosed in runs of double
    quotes, these in runs of single quotes, these in runs of backticks, these
    in runs of whitespace, each run of any length and each as long as it can
    be. The pass is not repeated: what a later step uncovers remains, so a
    text enclosed in double quotes, in single quotes or in backticks comes
    out as it stands between them, with the whitespace, backticks or quotes
    of an earlier step that it may hold at its ends. *)
Theorem clean_sql_strips_whole_runs_in_one_pass :
  (forall raw,
      exists w1 w2 b1 b2 q1 q2 d1 d2,
        let in_double := enclose d1 (clean_sql raw) d2 in
        let in_single := enclose q1 in_double q2 in
        let in_backticks := enclose b1 in_single b2 in
        raw = enclose w1 in_backticks w2
        /\ all_chars PyStr.is_space w1 = true
        /\ all_chars PyStr.is_space w2 = true
        /\ all_chars (Ascii.eqb backtick) b1 = true
        /\ all_chars (Ascii.eqb backtick) b2 = true
        /\ all_chars (Ascii.eqb single_quote) q1 = true
        /\ all_chars (Ascii.eqb single_quote) q2 = true
        /\ all_chars (Ascii.eqb double_quote) d1 = true
        /\ all_chars (Ascii.eqb double_quote) d2 = true
        /\ clear_of PyStr.is_space in_backticks = true
        /\ clear_of (Ascii.eqb backtick) in_single = true
        /\ clear_of (Ascii.eqb single_quote) in_double = true
        /\ clear_of (Ascii.eqb double_quote) (clean_sql raw) = true)
  /\ (forall inner a a',
        clear_of (Ascii.eqb double_quote) inner = true ->
        clean_sql (enclose (replicate (S a) double_quote) inner
                     (replicate (S a') double_quote))
        = inner)
  /\ (forall inner a a',
        clear_of (fun c => Ascii.eqb single_quote c || Ascii.eqb double_quote c)
          inner = true ->
        clean_sql (enclose (replicate (S a) single_quote) inner
                     (replicate (S a') single_quote))
        = inner)
  /\ (forall inner a a',
        clear_of (fun c => Ascii.eqb backtick c || Ascii.eqb single_quote c
                           || Ascii.eqb double_quote c) inner = true ->
        clean_sql (enclose (replicate (S a) backtick) inner
                     (replicate (S a') backtick))
        = inner).
Proof.
  split; [|split; [|split]].
  - intros raw. rewrite clean_sql_stages.
    destruct (strip_by_whole_runs PyStr.is_space raw)
      as [w1 [w2 [E1 [A1 [B1 C1]]]]].
    set (s1 := PyStr.strip_by PyStr.is_space raw) in *.
    destruct (strip_by_whole_runs (Ascii.eqb backtick) s1)
      as [b1 [b2 [E2 [A2 [B2 C2]]]]].
    set (s2 := PyStr.strip_by (Ascii.eqb backtick) s1) in *.
    destruct (strip_by_whole_runs (Ascii.eqb single_quote) s2)
      as [q1 [q2 [E3 [A3 [B3 C3]]]]].
    set (s3 := PyStr.strip_by (Ascii.eqb single_quote) s2) in *.
    destruct (strip_by_whole_runs (Ascii.eqb double_quote) s3)
      as [d1 [d2 [E4 [A4 [B4 C4]]]]].
    exists w1, w2, b1, b2, q1, q2, d1, d2. cbv zeta.
    rewrite <- E4, <- E3, <- E2. repeat split; assumption.
  - intros inner a a' H. rewrite clean_sql_stages.
    rewrite (strip_by_clear PyStr.is_space)
      by (apply clear_of_enclosed; reflexivity).
    rewrite (strip_by_clear (Ascii.eqb backtick))
      by (apply clear_of_enclosed; reflexivity).
    rewrite (strip_by_clear (Ascii.eqb single_quote))
      by (apply clear_of_enclosed; reflexivity).
    unfold clear_of in H. apply andb_true_iff in H. destruct H as [Hh Ht].
    apply strip_by_enclose; try assumption;
      apply all_chars_replicate; reflexivity.
  - intros inner a a' H. rewrite clean_sql_stages.
    rewrite (strip_by_clear PyStr.is_space)
      by (apply clear_of_enclosed; reflexivity).
    rewrite (strip_by_clear (Ascii.eqb backtick))
      by (apply clear_of_enclosed; reflexivity).
    assert (S : clear_of (Ascii.eqb single_quote) inner = true)
      by (revert H; apply clear_of_weaken; intros c ->; reflexivity).
    assert (D : clear_of (Ascii.eqb double_quote) inner = true)
      by (revert H; apply clear_of_weaken; intros c ->; apply orb_true_r).
    unfold clear_of in S. apply andb_true_iff in S. destruct S as [Sh St].
    rewrite (strip_by_enclose (Ascii.eqb single_quote)); try assumption;
      try (apply all_chars_replicate; reflexivity).
    now apply strip_by_clear.
  - intros inner a a' H. rewrite clean_sql_stages.
    rewrite (strip_by_clear PyStr.is_space)
      by (apply clear_of_enclosed; reflexivity).
    assert (B : clear_of (Ascii.eqb backtick) inner = true)
      by (revert H; apply clear_of_weaken; intros c ->; reflexivity).
    assert (S : clear_of (Ascii.eqb single_quote) inner = true)
      by (revert H; apply clear_of_weaken; intros c ->;
          rewrite orb_true_r; reflexivity).
    assert (D : clear_of (Ascii.eqb double_quote) inner = true)
      by (revert H; apply clear_of_weaken; intros c ->; apply orb_true_r).
    unfold clear_of in B. apply andb_true_iff in B. destruct B as [Bh Bt].
    rewrite (strip_by_enclose (Ascii.eqb backtick)); try assumption;
      try (apply all_chars_replicate; reflexivity).
    rewrite (strip_by_clear _ _ S). now apply strip_by_clear.
Qed.

Lemma clean_sql_strips_whole_runs_in_one_pass_witness :
  clean_sql (enclose (replicate 1 double_quote) "`SELECT 1`"
               (replicate 1 double_quote))
  = "`SELECT 1`".
Proof.
  apply (proj1 (proj2 clean_sql_strips_whole_runs_in_one_pass) "`SELECT 1`" 0 0).
  reflexivity.
Defined.

(** C9, as stated, fails: a text enclosed in two layers of backticks loses
    both, where removing exactly one layer would leave one. *)
Lemma two_backtick_layers_are_both_removed :
  clean_sql "``SELECT 1``" = "SELECT 1"
  /\ strip_one_layer "``SELECT 1``" = "`SELECT 1`"
  /\ clean_sql "``SELECT 1``" <> strip_one_layer "``SELECT 1``".
Proof.
  repeat split. discriminate.
Qed.

End Cleaning.

(** ** The visualization mapper *)

Section MapperFacts.

Import Mapper.

Variable format_duration_tooltip : cell -> cell.
Variable float_is_nonzero : string -> bool.
Variable str_of_json : json -> string.

Local Abbreviation with_tooltips := (_add_tooltips format_duration_tooltip).
Local Abbreviation is_truthy := (truthy float_is_nonzero).
Local Abbreviation printed := (fmt str_of_json).
Local Abbreviation given_or := (or_else float_is_nonzero).
Local Abbreviation is_requested := (requested float_is_nonzero str_of_json).
Local Abbreviation is_accounted := (accounted float_is_nonzero str_of_json).
Local Abbreviation all_accounted :=
  (channels_accounted float_is_nonzero str_of_json).
Local Abbreviation added_channel :=
  (optional_channel float_is_nonzero str_of_json).
Local Abbreviation well_built :=
  (built_well float_is_nonzero str_of_json).
Local Abbreviation build :=
  (builder_for format_duration_tooltip float_is_nonzero str_of_json).

Lemma bind_inl {A B : Type} (m : A + exn) (k : A -> B + exn) (b : B) :
  bind m k = inl b -> exists a, m = inl a /\ k a = inl b.
Proof. destruct m as [a|e]; simpl; [eauto | discriminate]. Qed.

Lemma or_else_inl (given : json) (fb : string + exn) (v : json) :
  given_or given fb = inl v ->
  (is_truthy given = true /\ v = given)
  \/ (is_truthy given = false /\ exists column, fb = inl column /\ v = JStr column).
Proof.
  unfold or_else. destruct (is_truthy given).
  - intros H. injection H as <-. now left.
  - destruct fb as [column|e]; simpl; [|discriminate].
    intros H. injection H as <-. right. eauto.
Qed.

Lemma item_in (l : list string) (i : nat) (f : string) :
  item l i = inl f -> In f l.
Proof.
  unfold item. destruct (nth_error l i) eqn:E; [|discriminate].
  intros H. injection H as <-. eapply nth_error_In; eauto.
Qed.

Lemma item_or_in (l : list string) (i : nat) (cols : list string) (j : nat)
    (f : string) :
  incl l cols -> item_or l i cols j = inl f -> In f cols.
Proof.
  intros Hl. unfold item_or. destruct (nth_error l i) eqn:E.
  - intros H. injection H as <-. apply Hl. eapply nth_error_In; eauto.
  - apply item_in.
Qed.

Lemma filtered_names_incl (keep : series -> bool) (df : DataFrame) :
  incl (map s_name (filter keep df)) (columns df).
Proof.
  intros f H. apply in_map_iff in H. destruct H as [s [<- Hs]].
  apply filter_In in Hs. apply in_map. tauto.
Qed.

Lemma other_cols_incl (df : DataFrame) : incl (other_cols df) (columns df).
Proof. intros f H. unfold other_cols in H. apply filter_In in H. tauto. Qed.

Lemma columns_with_tooltips (df : DataFrame) (f : string) :
  In f (columns (with_tooltips df)) -> In f (columns df) \/ f = "duration_tooltip".
Proof.
  unfold _add_tooltips.
  destruct (mem "total_ms" (columns df) && negb (mem "duration_tooltip" (columns df)));
    [|auto].
  destruct (find _ df); [|auto].
  unfold columns. rewrite map_app, in_app_iff. simpl. intuition.
Qed.

(** What [given or fallback] yields is the given field or a column. *)
Lemma or_else_accounted (df : DataFrame) (dims : json) (role : string)
    (l : list string) (i j : nat) (given v : json) :
  field_of role dims = inl given ->
  incl l (columns df) ->
  given_or given (item_or l i (columns df) j) = inl v ->
  is_accounted df dims (printed v).
Proof.
  intros G Hl H. apply or_else_inl in H.
  destruct H as [[T ->] | [_ [column [F ->]]]].
  - right. exists role, given. auto.
  - left. simpl. eapply item_or_in; eauto.
Qed.

Lemma optional_channel_accounted (df : DataFrame) (dims : json)
    (role default : string) (field : json) (c : channel) :
  field_of role dims = inl field ->
  added_channel role default dims field = inl (Some c) ->
  is_accounted df dims (c_field c).
Proof.
  intros G. unfold optional_channel.
  destruct (is_truthy field) eqn:T; [|discriminate].
  destruct (type_of role default dims); simpl; [|discriminate].
  intros H. injection H as <-. right. exists role, field. auto.
Qed.

(** A truthy given field is the one that comes out. *)
Lemma or_else_given (given : json) (fb : string + exn) (v : json) :
  is_truthy given = true -> given_or given fb = inl v -> v = given.
Proof. unfold or_else. intros ->. congruence. Qed.

Ltac invert_binds H :=
  repeat (let a := fresh "v" in
          let E := fresh "E" in
          apply bind_inl in H; destruct H as [a [E H]]).

Ltac channel_cases :=
  match goal with
  | H : In _ (channels _) |- _ =>
      unfold channels in H; simpl in H;
      repeat (destruct H as [H|H]; [injection H as <- <-|]); try contradiction
  end.

Ltac account :=
  cbn [c_field channel_for];
  match goal with
  | G : field_of _ ?dims = inl ?g,
    E : or_else _ ?g (item_or _ _ _ _) = inl ?v
    |- accounted _ _ _ ?dims (fmt _ ?v) =>
      eapply (or_else_accounted _ _ _ _ _ _ _ _ G); [|exact E];
      first [ apply filtered_names_incl | apply other_cols_incl ]
  | G : field_of _ ?dims = inl ?g,
    E : optional_channel _ _ _ _ ?dims ?g = inl (Some ?c)
    |- accounted _ _ _ ?dims (c_field ?c) =>
      exact (optional_channel_accounted _ _ _ _ _ _ G E)
  end.

Ltac split_optional_channels :=
  repeat match goal with
         | v : option channel |- _ => destruct v
         end.

Ltac same_given :=
  repeat match goal with
         | A : field_of ?role ?dims = inl ?a, B : field_of ?role ?dims = inl ?b |- _ =>
             rewrite A in B; injection B as <-
         end.

Ltac carried :=
  eexists; split; [reflexivity|]; cbn [c_field channel_for]; f_equal;
  same_given;
  match goal with
  | T : truthy _ ?g = true, E : or_else _ ?g _ = inl ?v |- ?v = ?g =>
      exact (or_else_given _ _ _ T E)
  end.

Ltac fallen_back :=
  same_given;
  match goal with
  | T : truthy _ ?g = false, E : or_else _ ?g (item_or _ _ _ _) = inl ?v |- _ =>
      destruct (or_else_inl _ _ _ E) as [[T' _] | [_ [column [F ->]]]];
      [congruence|];
      eexists; split; [reflexivity|]; cbn [c_field channel_for fmt];
      try left;
      eapply item_or_in; [|exact F];
      first [ apply filtered_names_incl | apply other_cols_incl ]
  end.

Ltac builder_facts H :=
  invert_binds H; injection H as <-;
  split; [split; [reflexivity|]; intros role c Hin Hskip;
          split_optional_channels; channel_cases; account
         | split; [intros w G T; carried
                  | split; [intros w G T; carried
                           | split; intros w G T; fallen_back ] ] ].

Lemma bar_built (df : DataFrame) (dims : json) (ch : chart) :
  _create_bar_chart format_duration_tooltip float_is_nonzero str_of_json df dims
  = inl ch ->
  well_built enc_x enc_y (fun _ => False) [] (with_tooltips df) dims ch.
Proof. unfold _create_bar_chart. intros H. builder_facts H. Qed.

Lemma line_built (df : DataFrame) (dims : json) (ch : chart) :
  _create_line_chart format_duration_tooltip float_is_nonzero str_of_json df dims
  = inl ch ->
  well_built enc_x enc_y (fun _ => False) [] (with_tooltips df) dims ch.
Proof. unfold _create_line_chart. intros H. builder_facts H. Qed.

Lemma scatter_built (df : DataFrame) (dims : json) (ch : chart) :
  _create_scatter_chart format_duration_tooltip float_is_nonzero str_of_json
    df dims = inl ch ->
  well_built enc_x enc_y (fun _ => False) [] (with_tooltips df) dims ch.
Proof. unfold _create_scatter_chart. intros H. builder_facts H. Qed.

Lemma heatmap_built (df : DataFrame) (dims : json) (ch : chart) :
  _create_heatmap format_duration_tooltip float_is_nonzero str_of_json df dims
  = inl ch ->
  well_built enc_x enc_y (fun _ => False) [] (with_tooltips df) dims ch.
Proof. unfold _create_heatmap. intros H. builder_facts H. Qed.

Lemma area_built (df : DataFrame) (dims : json) (ch : chart) :
  _create_area_chart format_duration_tooltip float_is_nonzero str_of_json df dims
  = inl ch ->
  well_built enc_x enc_y (fun _ => False) [] (with_tooltips df) dims ch.
Proof. unfold _create_area_chart. intros H. builder_facts H. Qed.

Lemma polar_built (df : DataFrame) (dims : json) (ch : chart) :
  _create_polar_chart format_duration_tooltip float_is_nonzero str_of_json df dims
  = inl ch ->
  well_built enc_theta enc_radius (fun _ => False) [] (with_tooltips df) dims ch.
Proof. unfold _create_polar_chart. intros H. builder_facts H. Qed.

(** The ridgeline builder prints its colour field without a fallback; its
    other channels are accounted for. *)
Lemma ridgeline_built (df : DataFrame) (dims : json) (ch : chart) :
  _create_ridgeline_plot format_duration_tooltip float_is_nonzero str_of_json
    df dims = inl ch ->
  well_built enc_x enc_y (fun _ => False) ["color"] (with_tooltips df) dims ch.
Proof.
  unfold _create_ridgeline_plot. intros H.
  invert_binds H. injection H as <-.
  split; [split; [reflexivity|]; intros role c Hin Hskip; channel_cases;
          [account | account | exfalso; apply Hskip; now left]
         | split; [intros w G T; carried
                  | split; [intros w G T; carried
                           | split; intros w G T; fallen_back ] ] ].
Qed.

(** The colour of a pie chart: the field of x, or else that of color, or
    else a column. *)
Lemma pie_built (df : DataFrame) (dims : json) (ch : chart) :
  _create_pie_chart format_duration_tooltip float_is_nonzero str_of_json df dims
  = inl ch ->
  well_built enc_color enc_theta (color_given float_is_nonzero str_of_json dims)
    [] (with_tooltips df) dims ch.
Proof.
  unfold _create_pie_chart. intros H.
  invert_binds H. injection H as <-.
  match goal with
  | O : or_value _ ?x _ = inl _ |- _ =>
      unfold or_value in O; destruct (is_truthy x) eqn:X;
      [injection O as <-|]
  end.
  all: split; [split; [reflexivity|]; intros role c Hin Hskip; channel_cases;
               account|].
  all: split; [intros w G T; first [ carried | same_given; congruence ]|].
  all: split; [intros w G T; carried|].
  all: split; [|intros w G T; fallen_back].
  - intros w G T. same_given. congruence.
  - intros w G T.
    match goal with
    | C : field_of "color" dims = inl ?g,
      E : or_else _ ?g (item_or _ _ _ _) = inl ?v |- _ =>
        destruct (or_else_inl _ _ _ E) as [[Tg ->] | [_ [column [F ->]]]]
    end.
    + eexists. split; [reflexivity|]. right. eexists. eauto.
    + eexists. split; [reflexivity|]. left. cbn [c_field channel_for fmt].
      eapply item_or_in; [apply other_cols_incl | exact F].
Qed.

Lemma no_stand_in (x_at y_at : chart -> option channel) (allowed : string -> Prop)
    (skip : list string) (df : DataFrame) (dims : json) (ch : chart) :
  well_built x_at y_at (fun _ => False) skip df dims ch ->
  well_built x_at y_at allowed skip df dims ch.
Proof.
  intros [A [X [Y [Fx Fy]]]]. repeat split; try assumption; try apply A.
  intros v G T. destruct (Fx v G T) as [c [E [I|[]]]]. eauto.
Qed.

(** The builder picked for a chart kind, with the channels that carry the
    fields given for x and y. *)
Lemma builder_for_built (kind : string) (df : DataFrame) (dims : json)
    (ch : chart) :
  build kind df dims = inl ch ->
  well_built (x_channel kind) (y_channel kind)
    (fun f => (kind = "pie" \/ kind = "donut")
              /\ color_given float_is_nonzero str_of_json dims f)
    (if String.eqb kind "ridgeline" then ["color"] else [])
    (with_tooltips df) dims ch.
Proof.
  unfold builder_for, x_channel, y_channel.
  destruct (String.eqb_spec kind "bar") as [->|_];
    [intros H; now apply no_stand_in, bar_built|].
  destruct (String.eqb_spec kind "stacked bar") as [->|_];
    [intros H; now apply no_stand_in, bar_built|].
  cbn [orb].
  destruct (String.eqb_spec kind "line") as [->|_];
    [intros H; now apply no_stand_in, line_built|].
  destruct (String.eqb_spec kind "scatter") as [->|_];
    [intros H; now apply no_stand_in, scatter_built|].
  assert (Pie : forall k, k = "pie" \/ k = "donut" ->
                  _create_pie_chart format_duration_tooltip float_is_nonzero
                    str_of_json df dims = inl ch ->
                  well_built enc_color enc_theta
                    (fun f => (k = "pie" \/ k = "donut")
                              /\ color_given float_is_nonzero str_of_json dims f)
                    [] (with_tooltips df) dims ch).
  { intros k Hk H. destruct (pie_built df dims ch H) as [A [X [Y [Fx Fy]]]].
    repeat split; try assumption; try apply A.
    intros v G T. destruct (Fx v G T) as [c [E [I|C]]]; eauto. }
  destruct (String.eqb_spec kind "pie") as [->|_];
    [intros H; apply Pie; auto|].
  destruct (String.eqb_spec kind "donut") as [->|_];
    [intros H; apply Pie; auto|].
  clear Pie. cbn [orb].
  destruct (String.eqb_spec kind "heatmap") as [->|_];
    [intros H; now apply no_stand_in, heatmap_built|].
  destruct (String.eqb_spec kind "area") as [->|_];
    [intros H; now apply no_stand_in, area_built|].
  destruct (String.eqb_spec kind "polar") as [->|_];
    [intros H; now apply no_stand_in, polar_built|].
  destruct (String.eqb_spec kind "ridgeline") as [->|_];
    [intros H; now apply no_stand_in, ridgeline_built|].
  intros H; now apply no_stand_in, bar_built.
Qed.

Variable pl_DataFrame : list row -> DataFrame.

Local Abbreviation map_rows :=
  (map_to_visualization format_duration_tooltip float_is_nonzero str_of_json
     pl_DataFrame).

(** A returned chart comes from the builder of the intent's kind, run on
    the intent's dimensions. *)
Lemma map_rows_chart (data : list row) (spec : json) (ch : chart) :
  map_rows data spec = inl (Some ch) ->
  exists kind dims,
    kind_of spec = inl kind /\ dims_of spec = inl dims
    /\ build kind (pl_DataFrame data) dims = inl ch.
Proof.
  unfold map_to_visualization. destruct data as [|r0 data]; [discriminate|].
  cbv zeta. intros H. invert_binds H. injection H as <-. eauto.
Qed.

(** C6, as amended. For non-empty rows and any intent, when the mapper
    returns a chart: a field the intent gives for x or y that is truthy (a
    non-empty string, in an intent of the shape the prompt asks for) is
    encoded as it stands, whether or not the rows have such a column, on the
    channel that carries the role in that kind of chart: x and y themselves,
    but colour and angle in a pie or donut chart, angle and radius in a polar
    chart. A fallback stands there only when the field is missing, null or
    empty, and it is then a column of the frame (or, for the colour of a pie
    or donut chart, the field the intent gives for color). And the field of
    every channel (the colour channel of a ridgeline plot apart) is either a
    field the intent gives, or a column of the rows, or the derived column
    duration_tooltip. *)
Theorem mapped_field_is_requested_or_column
    (data : list row) (spec : json) (ch : chart) :
  map_rows data spec = inl (Some ch) ->
  exists kind dims,
    kind_of spec = inl kind /\ dims_of spec = inl dims
    /\ (forall role c,
          In (role, c) (channels ch) ->
          (kind = "ridgeline" -> role <> "color") ->
          is_requested dims (c_field c)
          \/ In (c_field c) (columns (pl_DataFrame data))
          \/ c_field c = "duration_tooltip")
    /\ (forall v, field_of "x" dims = inl v -> is_truthy v = true ->
                  exists c, x_channel kind ch = Some c /\ c_field c = printed v)
    /\ (forall v, field_of "y" dims = inl v -> is_truthy v = true ->
                  exists c, y_channel kind ch = Some c /\ c_field c = printed v)
    /\ (forall v, field_of "x" dims = inl v -> is_truthy v = false ->
                  exists c, x_channel kind ch = Some c
                            /\ (In (c_field c) (columns (frame ch))
                                \/ ((kind = "pie" \/ kind = "donut")
                                    /\ color_given float_is_nonzero str_of_json
                                         dims (c_field c))))
    /\ (forall v, field_of "y" dims = inl v -> is_truthy v = false ->
                  exists c, y_channel kind ch = Some c
                            /\ In (c_field c) (columns (frame ch))).
Proof.
  intros H. destruct (map_rows_chart data spec ch H) as [kind [dims [K [D B]]]].
  exists kind, dims. split; [exact K|]. split; [exact D|].
  destruct (builder_for_built kind _ dims ch B) as [[Fr A] [X [Y [Fx Fy]]]].
  rewrite Fr.
  split; [|split; [exact X | split; [exact Y | split; [exact Fx | exact Fy]]]].
  intros role c Hin Hr.
  destruct (A role c Hin) as [Hc|Hq].
  - destruct (String.eqb_spec kind "ridgeline") as [E|_]; [|intros []].
    intros [<-|[]]. now apply Hr.
  - right. now apply columns_with_tooltips.
  - now left.
Qed.

End MapperFacts.

Lemma mapped_field_is_requested_or_column_witness :
  exists kind dims,
    Mapper.kind_of Fixtures.genre_spec = inl kind
    /\ Mapper.dims_of Fixtures.genre_spec = inl dims
    /\ forall v,
         Mapper.field_of "x" dims = inl v ->
         Mapper.truthy Fixtures.no_float v = true ->
         exists c,
           Mapper.x_channel kind
             (Mapper.xy_chart "bar" Fixtures.genre_frame
                {| Mapper.c_field := "missing_col"; Mapper.c_type := "q" |}
                {| Mapper.c_field := "count"; Mapper.c_type := "n" |}
                None None) = Some c
           /\ Mapper.c_field c = Mapper.fmt Fixtures.show_json v.
Proof.
  destruct (mapped_field_is_requested_or_column Fixtures.no_tooltip
              Fixtures.no_float Fixtures.show_json
              (fun _ => Fixtures.genre_frame) Fixtures.genre_rows
              Fixtures.genre_spec
              (Mapper.xy_chart "bar" Fixtures.genre_frame
                 {| Mapper.c_field := "missing_col"; Mapper.c_type := "q" |}
                 {| Mapper.c_field := "count"; Mapper.c_type := "n" |}
                 None None) eq_refl)
    as [kind [dims [K [D [_ [X _]]]]]].
  exists kind, dims. auto.
Defined.

(** C6, as stated, fails: the rows have the columns genre and count, the
    intent gives missing_col as the field of x, and the bar chart encodes
    missing_col on x; no fallback column replaces it. *)
Lemma absent_requested_field_is_encoded :
  exists ch c,
    Mapper.map_to_visualization Fixtures.no_tooltip Fixtures.no_float
      Fixtures.show_json (fun _ => Fixtures.genre_frame) Fixtures.genre_rows
      Fixtures.genre_spec
    = inl (Some ch)
    /\ Mapper.enc_x ch = Some c
    /\ Mapper.c_field c = "missing_col"
    /\ ~ In (Mapper.c_field c) (columns (Mapper.frame ch))
    /\ ~ In (Mapper.c_field c) (columns Fixtures.genre_frame).
Proof.
  eexists. eexists. split; [reflexivity|]. split; [reflexivity|].
  split; [reflexivity|].
  split; simpl; intros [H|[H|[]]]; discriminate.
Qed.

(* ===================================================================== *)
(** * Part III: further properties of the sources                         *)
(* ===================================================================== *)

(** ** Runs of the analysis chain *)

Section ChainRuns.

Import LangChain.

Variable json_loads : string -> json + exn.
Variable str_of_json : json -> string.
Variable str_of_exn : exn -> string.
Variable Store : Type.

Local Abbreviation parse := (parse_analysis json_loads str_of_exn).
Local Abbreviation respond := (execute_and_respond str_of_json str_of_exn Store).
Local Abbreviation analyze := (analyze_query json_loads str_of_json str_of_exn Store).
Local Abbreviation visualize := (visualization_response str_of_json str_of_exn).

Lemma analyze_reaches_executor
    (question : string) (llm : collaborator) (executor : Executor Store)
    (r : run Store) (schema_analysis : string) (analysis : json) (raw : string) :
  schema_analyzer llm = inl schema_analysis ->
  parse schema_analysis = inl analysis ->
  sql_generator llm = inl raw ->
  clean_sql raw <> "" ->
  analyze question llm (Some executor) r
  = respond executor llm question analysis (clean_sql raw) r.
Proof.
  intros Hs Hp Hg Hne. unfold analyze_query. rewrite Hs, Hp, Hg.
  now destruct (String.eqb_spec (clean_sql raw) "").
Qed.

Lemma visualize_ok (question : string) (analysis : json) (sql_query : string)
    (result : exec_result) (spec : VisualizationSpec) (kind : json)
    (rows : list row) :
  make_viz_spec question analysis = inl spec ->
  Py.getitem analysis "analysis_type" = inl kind ->
  data result = Some (DRows rows) ->
  visualize question analysis sql_query result
  = {| r_type := "visualization";
       r_content := "Analysis of " ++ str_of_json kind;
       r_sql := Some sql_query;
       r_data := Some rows;
       r_visualization := Some spec |}.
Proof.
  intros Hv Hk Hd. unfold visualization_response. now rewrite Hv, Hk, Hd.
Qed.

(** X1. When the primary query succeeds with at least one row, the response
    is the visualization of those rows under the primary SQL; the executor
    was invoked once and the simplification was not consulted, whatever it
    would have answered. *)
Theorem rows_of_the_primary_query_are_reported
    (question : string) (llm : collaborator) (executor : Executor Store)
    (r : run Store) (schema_analysis : string) (analysis : json) (raw : string)
    (result : exec_result) (s1 : Store) (first : row) (rest : list row)
    (spec : VisualizationSpec) (kind : json) :
  schema_analyzer llm = inl schema_analysis ->
  parse schema_analysis = inl analysis ->
  sql_generator llm = inl raw ->
  clean_sql raw <> "" ->
  executor (store r) (clean_sql raw) = (inl result, s1) ->
  success result = Some true ->
  data result = Some (DRows (first :: rest)) ->
  make_viz_spec question analysis = inl spec ->
  Py.getitem analysis "analysis_type" = inl kind ->
  analyze question llm (Some executor) r
  = ({| r_type := "visualization";
        r_content := "Analysis of " ++ str_of_json kind;
        r_sql := Some (clean_sql raw);
        r_data := Some (first :: rest);
        r_visualization := Some spec |},
     {| store := s1; calls := (calls r ++ [clean_sql raw])%list |}).
Proof.
  intros Hs Hp Hg Hne He Hok Hd Hv Hk.
  rewrite (analyze_reaches_executor _ _ _ _ _ _ _ Hs Hp Hg Hne).
  unfold execute_and_respond, call. rewrite He, Hok, Hd. simpl.
  unfold has_rows. rewrite Hd.
  now rewrite (visualize_ok _ _ _ _ _ _ _ Hv Hk Hd).
Qed.

(** X2. When the primary query succeeds with no rows and the simplified
    query (non-empty, different from the primary) succeeds with rows, the
    response reports the simplified SQL and the simplified rows; the executor
    was invoked with the primary and then the simplified candidate. *)
Theorem rows_of_the_simplified_query_replace_the_primary
    (question : string) (llm : collaborator) (executor : Executor Store)
    (r : run Store) (schema_analysis : string) (analysis : json) (raw : string)
    (result result2 : exec_result) (s1 s2 : Store) (simplified_query : string)
    (first : row) (rest : list row) (spec : VisualizationSpec) (kind : json) :
  schema_analyzer llm = inl schema_analysis ->
  parse schema_analysis = inl analysis ->
  sql_generator llm = inl raw ->
  clean_sql raw <> "" ->
  executor (store r) (clean_sql raw) = (inl result, s1) ->
  success result = Some true ->
  has_rows result = false ->
  data result <> Some DNone ->
  generate_simplified_query llm = Some simplified_query ->
  simplified_query <> "" ->
  simplified_query <> clean_sql raw ->
  executor s1 simplified_query = (inl result2, s2) ->
  success result2 = Some true ->
  data result2 = Some (DRows (first :: rest)) ->
  make_viz_spec question analysis = inl spec ->
  Py.getitem analysis "analysis_type" = inl kind ->
  analyze question llm (Some executor) r
  = ({| r_type := "visualization";
        r_content := "Analysis of " ++ str_of_json kind;
        r_sql := Some simplified_query;
        r_data := Some (first :: rest);
        r_visualization := Some spec |},
     {| store := s2;
        calls := (calls r ++ [clean_sql raw; simplified_query])%list |}).
Proof.
  intros Hs Hp Hg Hne He Hok Hnr Hnn Hsq Hn1 Hn2 He2 Hok2 Hd2 Hv Hk.
  rewrite (analyze_reaches_executor _ _ _ _ _ _ _ Hs Hp Hg Hne).
  unfold execute_and_respond, call. rewrite He, Hok. simpl.
  rewrite Hnr, Hsq.
  destruct (String.eqb_spec simplified_query ""); [contradiction|].
  destruct (String.eqb_spec simplified_query (clean_sql raw)); [contradiction|].
  simpl. rewrite He2, Hok2. simpl.
  assert (Hr2 : has_rows result2 = true) by (unfold has_rows; now rewrite Hd2).
  rewrite Hr2. rewrite (visualize_ok _ _ _ _ _ _ _ Hv Hk Hd2).
  rewrite <- app_assoc.
  destruct (data result) as [[|rows]|]; try reflexivity. contradiction.
Qed.

(** X3. When the executor reports that the primary query failed, the
    response is of type error and carries the primary SQL, and no retry takes
    place: the executor was invoked once. Its content quotes the message of
    the result after the words Query execution failed when the result holds
    no data key or a list under it; when the result holds [None] under data,
    the log line takes the length of [None] first, and the content is that
    [TypeError] after the words Error executing SQL query. *)
Theorem failed_primary_query_is_not_retried
    (question : string) (llm : collaborator) (executor : Executor Store)
    (r : run Store) (schema_analysis : string) (analysis : json) (raw : string)
    (result : exec_result) (s1 : Store) :
  schema_analyzer llm = inl schema_analysis ->
  parse schema_analysis = inl analysis ->
  sql_generator llm = inl raw ->
  clean_sql raw <> "" ->
  executor (store r) (clean_sql raw) = (inl result, s1) ->
  success result = Some false ->
  exists content,
    analyze question llm (Some executor) r
    = (error_response content (Some (clean_sql raw)),
       {| store := s1; calls := (calls r ++ [clean_sql raw])%list |})
    /\ (forall message,
          data result <> Some DNone -> error result = Some message ->
          content = "Query execution failed: " ++ message)
    /\ (data result <> Some DNone -> error result = None ->
        content = "Error executing SQL query: " ++ str_of_exn (KeyError "error"))
    /\ (data result = Some DNone ->
        content = "Error executing SQL query: "
                    ++ str_of_exn (TypeError "object of type 'NoneType' has no len()")).
Proof.
  intros Hs Hp Hg Hne He Hok.
  rewrite (analyze_reaches_executor _ _ _ _ _ _ _ Hs Hp Hg Hne).
  unfold execute_and_respond, call. rewrite He, Hok.
  destruct (data result) as [[|rows]|]; cbn [negb];
    destruct (error result) as [msg|]; eexists;
    (split; [reflexivity|]);
    repeat split; intros; try congruence; try discriminate.
  all: repeat match goal with
              | H : Some _ = Some _ |- _ => injection H as <-
              end; try reflexivity; try contradiction.
Qed.

(** X4. The executor is invoked only after a complete plan was parsed and a
    non-empty SQL text was generated, and the first statement it receives is
    that cleaned text. *)
Theorem nothing_is_executed_before_plan_and_sql
    (question : string) (llm : collaborator)
    (executor : option (Executor Store)) (r : run Store) :
  calls (snd (analyze question llm executor r)) <> calls r ->
  exists schema_analysis analysis raw later,
    schema_analyzer llm = inl schema_analysis
    /\ parse schema_analysis = inl analysis
    /\ complete_plan analysis
    /\ sql_generator llm = inl raw
    /\ clean_sql raw <> ""
    /\ calls (snd (analyze question llm executor r))
       = (calls r ++ clean_sql raw :: later)%list.
Proof.
  unfold analyze_query.
  destruct (schema_analyzer llm) as [text|e] eqn:Hs; simpl; [|congruence].
  pose proof (parse_analysis_cases json_loads str_of_exn text) as C.
  destruct (parse text) as [analysis|response] eqn:Hp; simpl; [|congruence].
  destruct (sql_generator llm) as [raw|e] eqn:Hg; simpl; [|congruence].
  destruct executor as [ex|]; simpl; [|congruence].
  destruct (String.eqb_spec (clean_sql raw) "") as [|Hne]; simpl; [congruence|].
  intros _.
  destruct (respond_calls str_of_json str_of_exn Store ex llm question analysis
              (clean_sql raw) r) as [H | [sq [_ [_ [_ H]]]]].
  - exists text, analysis, raw, []. repeat split; auto.
  - exists text, analysis, raw, [sq]. repeat split; auto.
Qed.

Lemma visualize_sql (question : string) (analysis : json) (sql_query : string)
    (result : exec_result) :
  r_sql (visualize question analysis sql_query result) = Some sql_query.
Proof.
  unfold visualization_response, execution_error, error_response.
  destruct (make_viz_spec question analysis); simpl; [|reflexivity].
  destruct (Py.getitem analysis "analysis_type"); simpl; [|reflexivity].
  now destruct (data result).
Qed.

Lemma respond_sql (executor : Executor Store) (llm : collaborator)
    (question : string) (analysis : json) (sql_query : string) (r : run Store) :
  let out := respond executor llm question analysis sql_query r in
  r_sql (fst out) = Some sql_query
  \/ exists simplified_query result2 s1 s2,
       generate_simplified_query llm = Some simplified_query
       /\ r_sql (fst out) = Some simplified_query
       /\ executor s1 simplified_query = (inl result2, s2)
       /\ success result2 = Some true /\ has_rows result2 = true
       /\ calls (snd out) = (calls r ++ [sql_query; simplified_query])%list.
Proof.
  unfold execute_and_respond, call, execution_error.
  destruct (executor (store r) sql_query) as [[result|e] s1]; simpl; auto.
  destruct (success result) as [ok|]; simpl; auto.
  destruct (data result) as [[|rows]|] eqn:D; simpl; auto;
    destruct ok; simpl; auto;
    try (destruct (error result); simpl; now auto);
    try (destruct (has_rows result); simpl; [left; now apply visualize_sql|]);
    (destruct (generate_simplified_query llm) as [sq|];
       [|left; now apply visualize_sql];
     destruct (negb (String.eqb sq "") && negb (String.eqb sq sql_query));
       [|left; now apply visualize_sql];
     destruct (executor s1 sq) as [[result2|e2] s2] eqn:E2; simpl; auto;
     destruct (success result2) as [[|]|] eqn:S2; simpl; auto;
     try (left; now apply visualize_sql);
     destruct (has_rows result2) eqn:R2; simpl;
       [|left; now apply visualize_sql];
     right; exists sq, result2, s1, s2; repeat split; auto;
     [apply visualize_sql | now rewrite <- app_assoc]).
Qed.

(** X5. The SQL a response carries is never anything but a text the model
    generated, cleaned: it is absent, or the primary candidate, or the
    simplified candidate; and it is the simplified candidate only after the
    executor ran it successfully with at least one row. *)
Theorem reported_sql_is_primary_or_successful_simplification
    (question : string) (llm : collaborator)
    (executor : option (Executor Store)) (r : run Store) :
  let out := analyze question llm executor r in
  r_sql (fst out) = None
  \/ (exists raw, sql_generator llm = inl raw
                  /\ r_sql (fst out) = Some (clean_sql raw))
  \/ (exists ex simplified_query result2 s1 s2,
         executor = Some ex
         /\ generate_simplified_query llm = Some simplified_query
         /\ r_sql (fst out) = Some simplified_query
         /\ ex s1 simplified_query = (inl result2, s2)
         /\ success result2 = Some true /\ has_rows result2 = true
         /\ List.length (calls (snd out)) = List.length (calls r) + 2).
Proof.
  unfold analyze_query.
  destruct (schema_analyzer llm) as [text|e]; simpl; auto.
  pose proof (parse_analysis_cases json_loads str_of_exn text) as C.
  destruct (parse text) as [analysis|response]; simpl; [|left; tauto].
  destruct (sql_generator llm) as [raw|e] eqn:Hg; simpl; auto.
  destruct executor as [ex|]; simpl; auto.
  destruct (String.eqb (clean_sql raw) ""); simpl; auto.
  destruct (respond_sql ex llm question analysis (clean_sql raw) r)
    as [H | [sq [result2 [s1 [s2 [G [H [E [S [R L]]]]]]]]]].
  - right. left. now exists raw.
  - right. right. exists ex, sq, result2, s1, s2. repeat split; auto.
    rewrite L, length_app. simpl. lia.
Qed.

End ChainRuns.

Lemma rows_of_the_primary_query_are_reported_witness :
  LangChain.analyze_query Fixtures.decode Fixtures.show_json Fixtures.show_exn
    nat "Who do I play most?" (Fixtures.llm (inr (Raised "not consulted")))
    (Some (Fixtures.scripted [inl Fixtures.with_rows])) Fixtures.start
  = ({| LangChain.r_type := "visualization";
        LangChain.r_content := "Analysis of aggregation";
        LangChain.r_sql := Some Fixtures.primary_sql;
        LangChain.r_data := Some Fixtures.two_rows;
        LangChain.r_visualization :=
          Some (Fixtures.bar_spec "Who do I play most?") |},
     {| LangChain.store := 1; LangChain.calls := [Fixtures.primary_sql] |}).
Proof.
  apply (rows_of_the_primary_query_are_reported
           Fixtures.decode Fixtures.show_json Fixtures.show_exn nat
           "Who do I play most?" (Fixtures.llm (inr (Raised "not consulted")))
           (Fixtures.scripted [inl Fixtures.with_rows]) Fixtures.start
           "Sure! Here is the analysis: {plan}" Fixtures.plan
           ("`" ++ Fixtures.primary_sql ++ "`") Fixtures.with_rows 1
           [("artist", CStr "Nina Simone")] [[("artist", CStr "Bill Evans")]]
           (Fixtures.bar_spec "Who do I play most?") (JStr "aggregation")).
  all: try reflexivity.
  discriminate.
Defined.

Lemma rows_of_the_simplified_query_replace_the_primary_witness :
  LangChain.analyze_query Fixtures.decode Fixtures.show_json Fixtures.show_exn
    nat "Who do I play most?" (Fixtures.llm (inl Fixtures.simplified_sql))
    (Some (Fixtures.scripted [inl Fixtures.no_rows; inl Fixtures.with_rows]))
    Fixtures.start
  = ({| LangChain.r_type := "visualization";
        LangChain.r_content := "Analysis of aggregation";
        LangChain.r_sql := Some Fixtures.simplified_sql;
        LangChain.r_data := Some Fixtures.two_rows;
        LangChain.r_visualization :=
          Some (Fixtures.bar_spec "Who do I play most?") |},
     {| LangChain.store := 2;
        LangChain.calls := [Fixtures.primary_sql; Fixtures.simplified_sql] |}).
Proof.
  apply (rows_of_the_simplified_query_replace_the_primary
           Fixtures.decode Fixtures.show_json Fixtures.show_exn nat
           "Who do I play most?" (Fixtures.llm (inl Fixtures.simplified_sql))
           (Fixtures.scripted [inl Fixtures.no_rows; inl Fixtures.with_rows])
           Fixtures.start "Sure! Here is the analysis: {plan}" Fixtures.plan
           ("`" ++ Fixtures.primary_sql ++ "`") Fixtures.no_rows
           Fixtures.with_rows 1 2 Fixtures.simplified_sql
           [("artist", CStr "Nina Simone")] [[("artist", CStr "Bill Evans")]]
           (Fixtures.bar_spec "Who do I play most?") (JStr "aggregation")).
  all: try reflexivity.
  all: discriminate.
Defined.

Lemma failed_primary_query_is_not_retried_witness :
  exists content,
    LangChain.analyze_query Fixtures.decode Fixtures.show_json Fixtures.show_exn
      nat "Who do I play most?" (Fixtures.llm (inl Fixtures.simplified_sql))
      (Some (Fixtures.scripted [inl Fixtures.failed_with_null_data]))
      Fixtures.start
    = (LangChain.error_response content (Some Fixtures.primary_sql),
       {| LangChain.store := 1; LangChain.calls := [Fixtures.primary_sql] |})
    /\ content = "Error executing SQL query: object of type 'NoneType' has no len()".
Proof.
  destruct (failed_primary_query_is_not_retried
              Fixtures.decode Fixtures.show_json Fixtures.show_exn nat
              "Who do I play most?" (Fixtures.llm (inl Fixtures.simplified_sql))
              (Fixtures.scripted [inl Fixtures.failed_with_null_data])
              Fixtures.start
              "Sure! Here is the analysis: {plan}" Fixtures.plan
              ("`" ++ Fixtures.primary_sql ++ "`") Fixtures.failed_with_null_data 1
              eq_refl eq_refl eq_refl)
    as [content [A [_ [_ N]]]];
    [discriminate | reflexivity | reflexivity |].
  exists content. split; [exact A | exact (N eq_refl)].
Defined.

Lemma nothing_is_executed_before_plan_and_sql_witness :
  exists schema_analysis analysis raw later,
    LangChain.schema_analyzer (Fixtures.llm (inl Fixtures.simplified_sql))
    = inl schema_analysis
    /\ LangChain.parse_analysis Fixtures.decode Fixtures.show_exn schema_analysis
       = inl analysis
    /\ LangChain.complete_plan analysis
    /\ LangChain.sql_generator (Fixtures.llm (inl Fixtures.simplified_sql))
       = inl raw
    /\ LangChain.clean_sql raw <> ""
    /\ LangChain.calls
         (snd (LangChain.analyze_query Fixtures.decode Fixtures.show_json
                 Fixtures.show_exn nat "Who do I play most?"
                 (Fixtures.llm (inl Fixtures.simplified_sql))
                 (Some (Fixtures.scripted [inl Fixtures.with_rows]))
                 Fixtures.start))
       = (LangChain.calls Fixtures.start ++ LangChain.clean_sql raw :: later)%list.
Proof.
  apply (nothing_is_executed_before_plan_and_sql
           Fixtures.decode Fixtures.show_json Fixtures.show_exn nat
           "Who do I play most?" (Fixtures.llm (inl Fixtures.simplified_sql))
           (Some (Fixtures.scripted [inl Fixtures.with_rows])) Fixtures.start).
  discriminate.
Defined.

(** ** Parsing of the schema analysis *)

Section Extraction.

Import SpecWords LangChain.

Lemma find_from_first (ch : ascii) (pre rest : string) (i : Z) :
  no_char ch pre = true ->
  PyStr.find_from ch (pre ++ String ch rest) i = (i + Z.of_nat (String.length pre))%Z.
Proof.
  revert i. induction pre as [|c pre IH]; intros i H; simpl.
  - rewrite Ascii.eqb_refl. lia.
  - unfold no_char in H. simpl in H. apply andb_true_iff in H.
    destruct H as [Hc Hp]. apply negb_true_iff in Hc. rewrite Hc.
    rewrite IH by exact Hp. lia.
Qed.

Lemma find_from_absent (ch : ascii) (s : string) (i : Z) :
  no_char ch s = true -> PyStr.find_from ch s i = (-1)%Z.
Proof.
  revert i. induction s as [|c s IH]; intros i H; simpl; [reflexivity|].
  unfold no_char in H. simpl in H. apply andb_true_iff in H.
  destruct H as [Hc Hp]. apply negb_true_iff in Hc. rewrite Hc. now apply IH.
Qed.

Lemma rfind_from_absent (ch : ascii) (s : string) (i last : Z) :
  no_char ch s = true -> PyStr.rfind_from ch s i last = last.
Proof.
  revert i last. induction s as [|c s IH]; intros i last H; simpl; [reflexivity|].
  unfold no_char in H. simpl in H. apply andb_true_iff in H.
  destruct H as [Hc Hp]. apply negb_true_iff in Hc. rewrite Hc. now apply IH.
Qed.

Lemma rfind_from_last (ch : ascii) (x post : string) (i last : Z) :
  no_char ch post = true ->
  PyStr.rfind_from ch (x ++ String ch post) i last
  = (i + Z.of_nat (String.length x))%Z.
Proof.
  revert i last. induction x as [|c x IH]; intros i last H; simpl.
  - rewrite Ascii.eqb_refl, rfind_from_absent by exact H. lia.
  - rewrite IH by exact H. lia.
Qed.

Lemma substring_prefix (mid post : string) :
  substring 0 (String.length mid) (mid ++ post) = mid.
Proof.
  induction mid as [|c mid IH]; simpl.
  - now destruct post.
  - now rewrite IH.
Qed.

Lemma substring_middle (pre mid post : string) :
  substring (String.length pre) (String.length mid) (pre ++ mid ++ post) = mid.
Proof.
  induction pre as [|c pre IH]; simpl; [apply substring_prefix | exact IH].
Qed.

Lemma length_append (a b : string) :
  String.length (a ++ b) = String.length a + String.length b.
Proof. induction a as [|c a IH]; simpl; [reflexivity | now rewrite IH]. Qed.

Lemma append_assoc (a b c : string) : (a ++ b) ++ c = a ++ b ++ c.
Proof. induction a as [|x a IH]; simpl; [reflexivity | now rewrite IH]. Qed.

(** X7. A response whose trimmed text is some prose without an opening
    brace, then a brace-delimited object, then some prose without a closing
    brace, is decoded from exactly that object; and a response without an
    opening brace, or without a closing brace, is decoded from its whole
    trimmed text. *)
Theorem json_is_taken_from_first_to_last_brace (schema_analysis : string) :
  (forall pre body post,
      PyStr.strip schema_analysis = pre ++ "{" ++ body ++ "}" ++ post ->
      no_char "{"%char pre = true ->
      no_char "}"%char post = true ->
      json_candidate schema_analysis = "{" ++ body ++ "}")
  /\ (no_char "{"%char (PyStr.strip schema_analysis) = true
      \/ no_char "}"%char (PyStr.strip schema_analysis) = true ->
      json_candidate schema_analysis = PyStr.strip schema_analysis).
Proof.
  unfold json_candidate. cbv zeta. split.
  - intros pre body post E Hpre Hpost. rewrite E.
    assert (F : PyStr.find "{"%char (pre ++ "{" ++ body ++ "}" ++ post)
                = Z.of_nat (String.length pre)).
    { unfold PyStr.find.
      change (pre ++ "{" ++ body ++ "}" ++ post)
        with (pre ++ String "{"%char (body ++ "}" ++ post)).
      rewrite find_from_first by exact Hpre. lia. }
    assert (R : PyStr.rfind "}"%char (pre ++ "{" ++ body ++ "}" ++ post)
                = Z.of_nat (String.length (pre ++ "{" ++ body))).
    { unfold PyStr.rfind.
      replace (pre ++ "{" ++ body ++ "}" ++ post)
        with ((pre ++ "{" ++ body) ++ String "}"%char post).
      - rewrite rfind_from_last by exact Hpost. lia.
      - now rewrite append_assoc. }
    rewrite F, R.
    destruct (Z.leb_spec 0 (Z.of_nat (String.length pre))); [|lia].
    destruct (Z.ltb_spec 0 (Z.of_nat (String.length (pre ++ "{" ++ body)) + 1));
      [|lia].
    cbn [andb]. unfold PyStr.slice.
    rewrite Nat2Z.id.
    replace (Z.to_nat (Z.of_nat (String.length (pre ++ "{" ++ body)) + 1
                       - Z.of_nat (String.length pre)))
      with (String.length ("{" ++ body ++ "}")).
    + replace (pre ++ "{" ++ body ++ "}" ++ post)
        with (pre ++ ("{" ++ body ++ "}") ++ post).
      * apply substring_middle.
      * simpl. now rewrite append_assoc.
    + repeat (rewrite length_append; simpl). lia.
  - intros [H|H].
    + unfold PyStr.find. rewrite find_from_absent by exact H. reflexivity.
    + unfold PyStr.rfind. rewrite rfind_from_absent by exact H.
      now rewrite andb_false_r.
Qed.

Variable json_loads : string -> json + exn.
Variable str_of_exn : exn -> string.

Local Abbreviation parse := (parse_analysis json_loads str_of_exn).

Lemma missing_fields_of_dict (fields : list string) (entries : list (string * json)) :
  missing_fields fields (JDict entries)
  = inl (filter (fun f => negb (Py.has_key f entries)) fields).
Proof.
  induction fields as [|f fields IH]; simpl; [reflexivity|].
  rewrite IH. now destruct (Py.has_key f entries).
Qed.

(** X6. When the decoded analysis is a dict lacking some of the four
    required fields, the response is the error that names exactly the
    absent fields, in the order tables, columns, analysis_type,
    visualization. *)
Theorem absent_required_fields_are_named
    (schema_analysis : string) (entries : list (string * json)) :
  json_loads (json_candidate schema_analysis) = inl (JDict entries) ->
  filter (fun f => negb (Py.has_key f entries)) required_fields <> [] ->
  parse schema_analysis
  = inr (error_response
           ("Invalid schema analysis: missing required fields "
              ++ PyStr.repr_names
                   (filter (fun f => negb (Py.has_key f entries)) required_fields))
           None).
Proof.
  intros H Hm. unfold parse_analysis, json_candidate in *. cbv zeta in *.
  destruct ((0 <=? _)%Z && (0 <? _)%Z); rewrite H;
    rewrite missing_fields_of_dict;
    destruct (filter _ required_fields); try contradiction; reflexivity.
Qed.

End Extraction.

Lemma json_is_taken_from_first_to_last_brace_witness :
  LangChain.json_candidate "  Sure! Here is the analysis: {plan} Hope it helps. "
  = "{plan}".
Proof.
  apply (proj1 (json_is_taken_from_first_to_last_brace
                  "  Sure! Here is the analysis: {plan} Hope it helps. ")
           "Sure! Here is the analysis: " "plan" " Hope it helps.");
    reflexivity.
Defined.

Lemma absent_required_fields_are_named_witness :
  LangChain.parse_analysis
    (fun _ => inl (JDict [("tables", JList []); ("analysis_type", JStr "trend")]))
    Fixtures.show_exn "{...}"
  = inr (LangChain.error_response
           "Invalid schema analysis: missing required fields ['columns', 'visualization']"
           None).
Proof.
  apply (absent_required_fields_are_named
           (fun _ => inl (JDict [("tables", JList []); ("analysis_type", JStr "trend")]))
           Fixtures.show_exn "{...}"
           [("tables", JList []); ("analysis_type", JStr "trend")]).
  - reflexivity.
  - discriminate.
Defined.

(** The parsing block consults the decoder on [json_candidate] only. *)
Lemma parse_analysis_decodes_json_candidate
    (json_loads : string -> json + exn) (str_of_exn : exn -> string)
    (schema_analysis : string) :
  LangChain.parse_analysis json_loads str_of_exn schema_analysis
  = LangChain.parse_analysis
      (fun _ => json_loads (LangChain.json_candidate schema_analysis))
      str_of_exn schema_analysis.
Proof.
  unfold LangChain.parse_analysis, LangChain.json_candidate. cbv zeta.
  now destruct ((0 <=? _)%Z && (0 <? _)%Z).
Qed.

(** ** What the cleaning of generated SQL removes and leaves *)

Section CleaningShape.

Import SpecWords LangChain.

Lemma strip_by_removes_ends (p : ascii -> bool) (s : string) :
  (forall c, p c = true -> space_or_quote c = true) ->
  exists l r, s = l ++ PyStr.strip_by p s ++ r
              /\ all_chars space_or_quote l = true
              /\ all_chars space_or_quote r = true.
Proof.
  intros W. destruct (strip_by_split p s) as [l [r [E [Al Ar]]]].
  exists l, r. split; [exact E|].
  split; eapply all_chars_weaken; eauto.
Qed.

Lemma removed_ends_compose (outer inner : string) (l r l' r' : string) :
  outer = l ++ inner ++ r ->
  all_chars space_or_quote l = true -> all_chars space_or_quote r = true ->
  forall innermost,
    inner = l' ++ innermost ++ r' ->
    all_chars space_or_quote l' = true -> all_chars space_or_quote r' = true ->
    exists a b, outer = a ++ innermost ++ b
                /\ all_chars space_or_quote a = true
                /\ all_chars space_or_quote b = true.
Proof.
  intros E Al Ar innermost E' Al' Ar'.
  exists (l ++ l'), (r' ++ r). split; [|split; now apply all_chars_app].
  rewrite E, E'. now rewrite !append_assoc.
Qed.

(** X8. The cleaning only removes characters at the two ends of the
    generated text, and only whitespace, backticks and quotes: the raw text
    is the cleaned SQL between two runs of such characters. *)
Theorem clean_sql_removes_only_edge_whitespace_and_quotes (raw : string) :
  exists l r,
    raw = l ++ clean_sql raw ++ r
    /\ all_chars space_or_quote l = true
    /\ all_chars space_or_quote r = true.
Proof.
  unfold clean_sql, PyStr.strip, PyStr.strip_char. cbv zeta.
  destruct (strip_by_removes_ends PyStr.is_space raw space_is_space_or_quote)
    as [l1 [r1 [E1 [A1 B1]]]].
  set (s1 := PyStr.strip_by PyStr.is_space raw) in *.
  destruct (strip_by_removes_ends (Ascii.eqb "096"%char) s1
              (quote_is_space_or_quote "096"%char eq_refl)) as [l2 [r2 [E2 [A2 B2]]]].
  set (s2 := PyStr.strip_by (Ascii.eqb "096"%char) s1) in *.
  destruct (strip_by_removes_ends (Ascii.eqb "039"%char) s2
              (quote_is_space_or_quote "039"%char eq_refl)) as [l3 [r3 [E3 [A3 B3]]]].
  set (s3 := PyStr.strip_by (Ascii.eqb "039"%char) s2) in *.
  destruct (strip_by_removes_ends (Ascii.eqb "034"%char) s3
              (quote_is_space_or_quote "034"%char eq_refl)) as [l4 [r4 [E4 [A4 B4]]]].
  destruct (removed_ends_compose _ _ _ _ _ _ E1 A1 B1 _ E2 A2 B2)
    as [a [b [E12 [Aa Ab]]]].
  destruct (removed_ends_compose _ _ _ _ _ _ E12 Aa Ab _ E3 A3 B3)
    as [a' [b' [E13 [Aa' Ab']]]].
  exact (removed_ends_compose _ _ _ _ _ _ E13 Aa' Ab' _ E4 A4 B4).
Qed.

(** X9. The cleaned SQL never begins or ends with a double quote, and a text
    whose two ends are neither whitespace, backtick nor quote is left as it
    is. *)
Theorem clean_sql_has_no_outer_double_quote_and_keeps_clean_text :
  (forall raw,
      head_clear (Ascii.eqb "034"%char) (clean_sql raw) = true
      /\ last_clear (Ascii.eqb "034"%char) (clean_sql raw) = true)
  /\ (forall sql, edges_clear sql = true -> clean_sql sql = sql).
Proof.
  split.
  - intros raw. unfold clean_sql, PyStr.strip_char. cbv zeta.
    apply strip_by_edges.
  - intros sql H. unfold edges_clear in H. apply andb_true_iff in H.
    destruct H as [Hh Ht].
    assert (N : forall s : string, enclose "" s "" = s).
    { intros s. unfold enclose. simpl.
      induction s as [|c s IH]; simpl; [reflexivity | now rewrite IH]. }
    assert (K : forall q, (forall c, q c = true -> space_or_quote c = true) ->
                          PyStr.strip_by q sql = sql).
    { intros q W. rewrite <- (N sql) at 1.
      apply strip_by_enclose; try reflexivity.
      - now apply (head_clear_weaken q space_or_quote).
      - now apply (last_clear_weaken q space_or_quote). }
    unfold clean_sql, PyStr.strip, PyStr.strip_char. cbv zeta.
    rewrite (K PyStr.is_space space_is_space_or_quote).
    rewrite (K (Ascii.eqb "096"%char) (quote_is_space_or_quote "096"%char eq_refl)).
    rewrite (K (Ascii.eqb "039"%char) (quote_is_space_or_quote "039"%char eq_refl)).
    apply (K (Ascii.eqb "034"%char) (quote_is_space_or_quote "034"%char eq_refl)).
Qed.

End CleaningShape.

Lemma clean_sql_has_no_outer_double_quote_and_keeps_clean_text_witness :
  LangChain.clean_sql "SELECT artist FROM streaming_history"
  = "SELECT artist FROM streaming_history".
Proof.
  apply (proj2 clean_sql_has_no_outer_double_quote_and_keeps_clean_text
           "SELECT artist FROM streaming_history").
  reflexivity.
Defined.

(** ** Validation and the explain plan *)

Section ValidationMore.

Import DbUtils.

Lemma upper_char_idempotent (c : ascii) :
  PyStr.upper_char (PyStr.upper_char c) = PyStr.upper_char c.
Proof. destruct c as [[] [] [] [] [] [] [] []]; reflexivity. Qed.

Lemma upper_char_lower_char (c : ascii) :
  PyStr.upper_char (PyStr.lower_char c) = PyStr.upper_char c.
Proof. destruct c as [[] [] [] [] [] [] [] []]; reflexivity. Qed.

Lemma upper_idempotent (s : string) : PyStr.upper (PyStr.upper s) = PyStr.upper s.
Proof.
  induction s as [|c s IH]; simpl; [reflexivity|].
  now rewrite upper_char_idempotent, IH.
Qed.

Lemma upper_lower (s : string) : PyStr.upper (PyStr.lower s) = PyStr.upper s.
Proof.
  induction s as [|c s IH]; simpl; [reflexivity|].
  now rewrite upper_char_lower_char, IH.
Qed.

(** X10. The verdict of [validate_query] does not depend on letter case:
    the query, its uppercased form and its lowercased form are all accepted
    or all rejected. *)
Theorem validate_query_ignores_case (query : string) :
  validate_query (PyStr.upper query) = validate_query query
  /\ validate_query (PyStr.lower query) = validate_query query.
Proof.
  unfold validate_query. cbv zeta.
  now rewrite upper_idempotent, upper_lower.
Qed.

Variable Db : Type.
Variable conn_execute : Db -> string -> (DataFrame + string) * Db.

(** X11. [get_query_explain_plan] hands the store nothing at all for a
    query that [validate_query] rejects, or when the database file cannot be
    opened, and answers [None]. Otherwise the only statements it hands over
    are the probe SELECT 1 with which a connection is opened, once per
    attempt and at most six times, and after them at most one statement: the
    query prefixed by EXPLAIN and a space. When no connection comes out, the
    probes are all that was sent and the answer is [None]. *)
Theorem explain_plan_forwards_only_an_accepted_query
    (w : DuckDb.world Db) (query : string) :
  let out := get_query_explain_plan Db conn_execute w query in
  (fst out = None /\ snd out = w)
  \/ (validate_query query = true
      /\ DuckDb.reachable w = true
      /\ exists attempts,
           1 <= attempts <= 6
           /\ ((fst out = None
                /\ DuckDb.forwarded (snd out)
                   = (DuckDb.forwarded w ++ repeat DuckDb.probe attempts)%list)
               \/ DuckDb.forwarded (snd out)
                  = (DuckDb.forwarded w ++ repeat DuckDb.probe attempts
                       ++ [("EXPLAIN " ++ query)%string])%list)).
Proof.
  unfold get_query_explain_plan, DuckDb.execute_query.
  generalize ("EXPLAIN " ++ query). intros statement.
  destruct (validate_query query); cbn [negb]; [|now left].
  destruct (get_db_connection_probes Db conn_execute w)
    as [attempts [Le [F [_ [_ [P U]]]]]].
  destruct (DuckDb.reachable w) eqn:R;
    [|rewrite (U eq_refl); now left].
  destruct (DuckDb.get_db_connection Db conn_execute w) as [opened w1].
  cbn [fst snd] in *. right. split; [reflexivity|]. split; [reflexivity|].
  exists attempts. split; [specialize (P eq_refl); lia|].
  destruct opened; [right | left; split; [reflexivity | exact F]].
  unfold DuckDb.execute.
  destruct (conn_execute (DuckDb.db w1) statement) as [[df|e] d];
    [|cbn; now rewrite F, <- app_assoc].
  destruct (negb (is_empty df)); [|cbn; now rewrite F, <- app_assoc].
  destruct df as [|first rest]; [cbn; now rewrite F, <- app_assoc|].
  destruct (str_values (s_values first)); cbn; now rewrite F, <- app_assoc.
Qed.

(** X12. When the store raises on the EXPLAIN statement, or answers with an
    empty frame, [get_query_explain_plan] returns [None]: the caller cannot
    tell a failure from an empty plan. The statement is run on the database
    as the opening of the connection left it. *)
Theorem explain_plan_hides_store_failures
    (w : DuckDb.world Db) (query : string) (outcome : DataFrame + string)
    (d : Db) :
  conn_execute (DuckDb.db (snd (DuckDb.get_db_connection Db conn_execute w)))
    ("EXPLAIN " ++ query) = (outcome, d) ->
  match outcome with
  | inl df => is_empty df = true
  | inr _ => True
  end ->
  fst (get_query_explain_plan Db conn_execute w query) = None.
Proof.
  unfold get_query_explain_plan, DuckDb.execute_query.
  generalize ("EXPLAIN " ++ query). intros statement E H.
  destruct (validate_query query); cbn [negb]; [|reflexivity].
  destruct (DuckDb.get_db_connection Db conn_execute w) as [opened w1].
  cbn [snd] in E. destruct opened; [|reflexivity].
  unfold DuckDb.execute. rewrite E. destruct outcome as [df|e]; cbn.
  - now rewrite H.
  - reflexivity.
Qed.

End ValidationMore.

Lemma explain_plan_hides_store_failures_witness :
  fst (DbUtils.get_query_explain_plan unit Fixtures.empty_database
         Fixtures.fresh_world "SELECT artist FROM plays")
  = None.
Proof.
  apply (explain_plan_hides_store_failures unit Fixtures.empty_database
           Fixtures.fresh_world "SELECT artist FROM plays"
           (inr "Catalog Error: Table does not exist!") tt).
  - reflexivity.
  - exact I.
Defined.

(** ** More on the visualization mapper *)

Section MapperMore.

Import Mapper.

Variable format_duration_tooltip : cell -> cell.

Local Abbreviation with_tooltips := (_add_tooltips format_duration_tooltip).

Lemma mem_app_last (x : string) (l : list string) : mem x (l ++ [x]) = true.
Proof.
  unfold mem. rewrite existsb_app. simpl. rewrite String.eqb_refl.
  now rewrite orb_true_r.
Qed.

(** X13. [_add_tooltips] keeps every column as it is and appends at most
    one, named duration_tooltip, of string type and with one value per value
    of total_ms; it appends it exactly when the frame has a column total_ms
    and no column duration_tooltip; and applying it twice is the same as
    applying it once. *)
Theorem add_tooltips_appends_one_column_once (df : DataFrame) :
  (with_tooltips df = df
   \/ exists total,
        find (fun s => String.eqb (s_name s) "total_ms") df = Some total
        /\ mem "duration_tooltip" (columns df) = false
        /\ with_tooltips df
           = (df ++ [{| s_name := "duration_tooltip"; s_dtype := Utf8;
                        s_values := map format_duration_tooltip (s_values total) |}])%list)
  /\ (mem "total_ms" (columns df) = true ->
      mem "duration_tooltip" (columns (with_tooltips df)) = true)
  /\ with_tooltips (with_tooltips df) = with_tooltips df.
Proof.
  assert (Shape :
    with_tooltips df = df
    \/ exists total,
         find (fun s => String.eqb (s_name s) "total_ms") df = Some total
         /\ mem "total_ms" (columns df) = true
         /\ mem "duration_tooltip" (columns df) = false
         /\ with_tooltips df
            = (df ++ [{| s_name := "duration_tooltip"; s_dtype := Utf8;
                         s_values := map format_duration_tooltip (s_values total) |}])%list).
  { unfold _add_tooltips.
    destruct (mem "total_ms" (columns df)) eqn:T; simpl; [|now left].
    destruct (mem "duration_tooltip" (columns df)) eqn:D; simpl; [now left|].
    destruct (find _ df) as [total|] eqn:F; [|now left].
    right. now exists total. }
  assert (Present : mem "total_ms" (columns df) = true ->
                    mem "duration_tooltip" (columns (with_tooltips df)) = true).
  { intros T. unfold _add_tooltips. rewrite T. simpl.
    destruct (mem "duration_tooltip" (columns df)) eqn:D; simpl; [exact D|].
    destruct (find _ df) as [total|] eqn:F.
    - unfold columns. rewrite map_app. simpl. apply mem_app_last.
    - exfalso. unfold mem, columns in T. apply existsb_exists in T.
      destruct T as [x [Hx Ex]]. apply in_map_iff in Hx.
      destruct Hx as [s [Hs Hin]]. apply String.eqb_eq in Ex. subst x.
      apply (find_none _ _ F) in Hin. rewrite <- Ex in Hin.
      now rewrite String.eqb_refl in Hin. }
  split; [|split; [exact Present|]].
  - destruct Shape as [H | [total [F [_ [D E]]]]]; [now left|].
    right. now exists total.
  - destruct Shape as [H | [total [F [T [D E]]]]]; [now rewrite !H|].
    specialize (Present T).
    unfold _add_tooltips at 1. rewrite Present.
    now rewrite andb_false_r.
Qed.

Ltac invert_binds H :=
  repeat (let a := fresh "v" in
          let E := fresh "E" in
          apply bind_inl in H; destruct H as [a [E H]]).

Variable float_is_nonzero : string -> bool.
Variable str_of_json : json -> string.
Variable pl_DataFrame : list row -> DataFrame.

Local Abbreviation map_rows :=
  (map_to_visualization format_duration_tooltip float_is_nonzero str_of_json
     pl_DataFrame).

(** X14. Whatever chart the mapper returns, it is drawn from the frame of
    the rows with the tooltip column added, and its tooltip lists every
    column of that frame exactly once, in column order, typed T for dates, Q
    for 64-bit numbers and N otherwise. *)
Theorem every_column_gets_a_tooltip
    (data : list row) (spec : json) (ch : chart) :
  map_rows data spec = inl (Some ch) ->
  frame ch = with_tooltips (pl_DataFrame data)
  /\ tooltip ch = tooltip_fields (frame ch)
  /\ map c_field (tooltip ch) = columns (frame ch).
Proof.
  assert (Names : forall df, map c_field (tooltip_fields df) = columns df).
  { intros df. unfold tooltip_fields, columns. rewrite map_map. reflexivity. }
  intros H.
  destruct (map_rows_chart _ _ _ _ _ _ _ H) as [kind [dims [_ [_ B]]]].
  revert B. unfold builder_for.
  repeat match goal with
         | |- context [if ?b then _ else _] => destruct b
         end;
    intros B;
    unfold _create_bar_chart, _create_line_chart, _create_scatter_chart,
      _create_pie_chart, _create_heatmap, _create_area_chart,
      _create_polar_chart, _create_ridgeline_plot in B;
    invert_binds B; injection B as <-; simpl;
    (split; [reflexivity | split; [reflexivity | apply Names]]).
Qed.

End MapperMore.

Lemma every_column_gets_a_tooltip_witness :
  map Mapper.c_field
    (Mapper.tooltip
       (Mapper.xy_chart "bar" Fixtures.genre_frame
          {| Mapper.c_field := "missing_col"; Mapper.c_type := "q" |}
          {| Mapper.c_field := "count"; Mapper.c_type := "n" |} None None))
  = ["genre"; "count"].
Proof.
  apply (every_column_gets_a_tooltip Fixtures.no_tooltip Fixtures.no_float
           Fixtures.show_json (fun _ => Fixtures.genre_frame)
           Fixtures.genre_rows Fixtures.genre_spec).
  reflexivity.
Defined.

Section MapperTotality.

Import Mapper.

Variable format_duration_tooltip : cell -> cell.
Variable float_is_nonzero : string -> bool.
Variable str_of_json : json -> string.
Variable pl_DataFrame : list row -> DataFrame.

Local Abbreviation with_tooltips := (_add_tooltips format_duration_tooltip).
Local Abbreviation given_or := (or_else float_is_nonzero).
Local Abbreviation added_channel :=
  (optional_channel float_is_nonzero str_of_json).
Local Abbreviation build :=
  (builder_for format_duration_tooltip float_is_nonzero str_of_json).
Local Abbreviation map_rows :=
  (map_to_visualization format_duration_tooltip float_is_nonzero str_of_json
     pl_DataFrame).












End MapperTotality.


Section BarFallback.

Import Mapper.

Variable format_duration_tooltip : cell -> cell.
Variable float_is_nonzero : string -> bool.
Variable str_of_json : json -> string.
Variable pl_DataFrame : list row -> DataFrame.

Local Abbreviation with_tooltips := (_add_tooltips format_duration_tooltip).
Local Abbreviation given_or := (or_else float_is_nonzero).
Local Abbreviation not_given := (unrequested float_is_nonzero).
Local Abbreviation bar_chart :=
  (_create_bar_chart format_duration_tooltip float_is_nonzero str_of_json).
Local Abbreviation map_rows :=
  (map_to_visualization format_duration_tooltip float_is_nonzero str_of_json
     pl_DataFrame).

Lemma or_else_unrequested (given : json) (fallback : string + exn) :
  truthy float_is_nonzero given = false ->
  given_or given fallback = (column <- fallback ;; inl (JStr column)).
Proof. unfold or_else. now intros ->. Qed.

Lemma map_rows_bar (first : row) (rest : list row) (spec dims : json) :
  kind_of spec = inl "bar" ->
  dims_of spec = inl dims ->
  map_rows (first :: rest) spec
  = (c <- bar_chart (pl_DataFrame (first :: rest)) dims ;; inl (Some c)).
Proof.
  intros K D. unfold map_to_visualization. now rewrite K, D.
Qed.

(** X16. For a bar chart whose intent gives neither an x nor a y field, the
    mapper puts the first 64-bit numeric column on x and the first other
    column on y, whenever the frame has one of each. *)
Theorem bar_chart_falls_back_to_first_numeric_and_first_other_column
    (first : row) (rest : list row) (spec dims : json)
    (n o : string) (ns os : list string) (ch : chart) :
  kind_of spec = inl "bar" ->
  dims_of spec = inl dims ->
  not_given "x" dims ->
  not_given "y" dims ->
  numeric_cols (with_tooltips (pl_DataFrame (first :: rest))) = n :: ns ->
  other_cols (with_tooltips (pl_DataFrame (first :: rest))) = o :: os ->
  map_rows (first :: rest) spec = inl (Some ch) ->
  option_map c_field (enc_x ch) = Some n
  /\ option_map c_field (enc_y ch) = Some o
  /\ n <> o.
Proof.
  intros K D [vx [Gx Ux]] [vy [Gy Uy]] Hn Ho H.
  rewrite (map_rows_bar _ _ _ _ K D) in H.
  apply bind_inl in H. destruct H as [c [H E]]. injection E as <-.
  unfold _create_bar_chart in H. cbv zeta in H.
  rewrite Gx, Gy in H. cbn [bind] in H.
  destruct (field_of "color" dims) as [vc|]; cbn [bind] in H; [|discriminate].
  rewrite (or_else_unrequested _ _ Ux), (or_else_unrequested _ _ Uy) in H.
  rewrite Hn, Ho in H. cbn [item_or nth_error bind] in H.
  destruct (type_of "x" "quantitative" dims); cbn [bind] in H; [|discriminate].
  destruct (type_of "y" "nominal" dims); cbn [bind] in H; [|discriminate].
  destruct (optional_channel _ _ "color" "nominal" dims vc); cbn [bind] in H;
    [|discriminate].
  injection H as <-. cbn. repeat split.
  intros ->.
  assert (I : In o (other_cols (with_tooltips (pl_DataFrame (first :: rest)))))
    by (rewrite Ho; now left).
  unfold other_cols in I. apply filter_In in I. destruct I as [_ I].
  rewrite Hn in I. simpl in I. now rewrite String.eqb_refl in I.
Qed.

(** X17. A bar chart over a frame with a single column, numeric and not
    named total_ms, with no y field given, cannot be built: the mapper
    raises. When the entries of x and color can be read, the exception is the
    IndexError of the fallback for y, which indexes a second column. *)
Theorem bar_chart_of_one_numeric_column_raises
    (first : row) (rest : list row) (spec dims : json) (s : series) :
  kind_of spec = inl "bar" ->
  dims_of spec = inl dims ->
  not_given "y" dims ->
  pl_DataFrame (first :: rest) = [s] ->
  is_numeric (s_dtype s) = true ->
  s_name s <> "total_ms" ->
  (exists e, map_rows (first :: rest) spec = inr e)
  /\ (forall x_given color_given,
         field_of "x" dims = inl x_given ->
         field_of "color" dims = inl color_given ->
         map_rows (first :: rest) spec
         = inr (IndexError "list index out of range")).
Proof.
  intros K D [vy [Gy Uy]] F N T. rewrite (map_rows_bar _ _ _ _ K D), F.
  assert (W : with_tooltips [s] = [s]).
  { assert (M : mem "total_ms" (columns [s]) = false).
    { unfold mem, columns. cbn [map existsb].
      destruct (String.eqb_spec "total_ms" (s_name s)); [congruence|reflexivity]. }
    unfold _add_tooltips. now rewrite M. }
  assert (Nc : numeric_cols [s] = [s_name s])
    by (unfold numeric_cols; simpl; now rewrite N).
  assert (Oc : other_cols [s] = []).
  { unfold other_cols. rewrite Nc. unfold columns, mem.
    cbn [map filter existsb]. now rewrite String.eqb_refl. }
  unfold _create_bar_chart. cbv zeta. rewrite W, Nc, Oc.
  destruct (field_of "x" dims) as [x_given|e]; cbn [bind];
    [|split; [eauto | discriminate]].
  rewrite Gy. cbn [bind].
  destruct (field_of "color" dims) as [color_given|e]; cbn [bind];
    [|split; [eauto | discriminate]].
  rewrite (or_else_unrequested _ _ Uy).
  cbn [item_or item nth_error columns map bind].
  unfold or_else.
  destruct (truthy float_is_nonzero x_given); cbn [bind];
    (split; [eexists | intros ? ? _ _]; reflexivity).
Qed.

End BarFallback.

Lemma bar_chart_falls_back_to_first_numeric_and_first_other_column_witness :
  option_map Mapper.c_field
    (Mapper.enc_x
       (Mapper.xy_chart "bar"
          (Mapper._add_tooltips Fixtures.no_tooltip Fixtures.artist_frame)
          {| Mapper.c_field := "total_ms"; Mapper.c_type := "q" |}
          {| Mapper.c_field := "artist"; Mapper.c_type := "n" |} None None))
  = Some "total_ms"
  /\ option_map Mapper.c_field
       (Mapper.enc_y
          (Mapper.xy_chart "bar"
             (Mapper._add_tooltips Fixtures.no_tooltip Fixtures.artist_frame)
             {| Mapper.c_field := "total_ms"; Mapper.c_type := "q" |}
             {| Mapper.c_field := "artist"; Mapper.c_type := "n" |} None None))
     = Some "artist"
  /\ "total_ms" <> "artist".
Proof.
  apply (bar_chart_falls_back_to_first_numeric_and_first_other_column
           Fixtures.no_tooltip Fixtures.no_float Fixtures.show_json
           (fun _ => Fixtures.artist_frame)
           [("artist", CStr "Nina Simone"); ("total_ms", CInt 7200000)] []
           Fixtures.plain_bar (JDict []) "total_ms" "artist" []
           ["duration_tooltip"]).
  - reflexivity.
  - reflexivity.
  - exists JNull. split; reflexivity.
  - exists JNull. split; reflexivity.
  - reflexivity.
  - reflexivity.
  - reflexivity.
Defined.

Lemma bar_chart_of_one_numeric_column_raises_witness :
  Mapper.map_to_visualization Fixtures.no_tooltip Fixtures.no_float
    Fixtures.show_json (fun _ => [Fixtures.count_series])
    [[("plays", CInt 42)]] Fixtures.plain_bar
  = inr (IndexError "list index out of range").
Proof.
  apply (proj2 (bar_chart_of_one_numeric_column_raises Fixtures.no_tooltip
                  Fixtures.no_float Fixtures.show_json
                  (fun _ => [Fixtures.count_series]) [("plays", CInt 42)] []
                  Fixtures.plain_bar (JDict []) Fixtures.count_series
                  eq_refl eq_refl
                  (ex_intro _ JNull (conj eq_refl eq_refl))
                  eq_refl eq_refl ltac:(discriminate))
           JNull JNull eq_refl eq_refl).
Defined.

(** ** Intents the builders cannot read *)

Section IllShapedIntent.

Import Mapper.

Variable format_duration_tooltip : cell -> cell.
Variable float_is_nonzero : string -> bool.
Variable str_of_json : json -> string.
Variable pl_DataFrame : list row -> DataFrame.

Local Abbreviation with_tooltips := (_add_tooltips format_duration_tooltip).
Local Abbreviation given_or := (or_else float_is_nonzero).
Local Abbreviation map_rows :=
  (map_to_visualization format_duration_tooltip float_is_nonzero str_of_json
     pl_DataFrame).





End IllShapedIntent.



(** ** Opening a connection *)

Section RetryFacts.

Import Connection.

Variable Conn Env : Type.
Variable handle_lock_file : Env -> bool * Env.
Variable connect : bool -> Env -> attempt Conn * Env.
Variable sleep : nat -> Env -> Env.

Local Abbreviation retry :=
  (get_connection_with_retry Conn Env handle_lock_file connect sleep).
Local Abbreviation lock := (lock_step Env handle_lock_file).
Local Abbreviation try_connect := (connect_step Conn Env connect).
Local Abbreviation pause := (sleep_step Env sleep).

Lemma lock_step_journal (h : host Env) :
  journal (snd (lock h)) = (journal h ++ [LockHandled (fst (lock h))])%list.
Proof. unfold lock_step. now destruct (handle_lock_file (env h)). Qed.

Lemma connect_step_journal (read_only : bool) (h : host Env) :
  journal (snd (try_connect read_only h))
  = (journal h ++ [Connecting read_only])%list.
Proof. unfold connect_step. now destruct (connect read_only (env h)). Qed.

Ltac journal_facts :=
  repeat match goal with
         | H : lock_step _ _ ?h = (?b, ?h1) |- _ =>
             let L := fresh "L" in
             assert (L : journal h1 = (journal h ++ [LockHandled b])%list)
               by (pose proof (lock_step_journal h) as L; rewrite H in L;
                   exact L);
             clear H
         | H : connect_step _ _ _ ?ro ?h = (?a, ?h2) |- _ =>
             let C := fresh "C" in
             assert (C : journal h2 = (journal h ++ [Connecting ro])%list)
               by (pose proof (connect_step_journal ro h) as C; rewrite H in C;
                   exact C);
             clear H
         end.

Ltac no_pause :=
  unfold bounded_run, attempts, pauses; simpl;
  split; [lia | split; [lia |]];
  let k := fresh "k" in
  let H := fresh "H" in
  intros k H; repeat (destruct H as [H|H]; [discriminate|]); contradiction.

Lemma retry_bounded (read_only : bool) (retry_count : nat) (h : host Env) :
  exists added,
    journal (snd (retry read_only retry_count h)) = (journal h ++ added)%list
    /\ bounded_run retry_count added.
Proof.
  funelim (retry read_only retry_count h);
    try rewrite <- Heqcall; journal_facts; cbn [snd];
    first
      [ solve [ exists [LockHandled false]; split; [assumption | no_pause] ]
      | solve [ exists [LockHandled true; Connecting read_only];
                split; [now rewrite C, L, <- app_assoc | no_pause] ]
      | idtac ].
  destruct H as [added [J [A [P S]]]].
  exists (LockHandled true :: Connecting read_only :: Sleeping retry_count
            :: added).
  split.
  - rewrite J. unfold sleep_step. cbn [journal]. rewrite C, L.
    now rewrite <- !app_assoc.
  - unfold bounded_run, attempts, pauses in *. cbn [filter List.length].
    unfold MAX_RETRIES in *. split; [lia | split; [lia |]].
    intros k [E|[E|[E|E]]]; try discriminate.
    + injection E as <-. lia.
    + apply S in E. lia.
Qed.

(** X18. One call of [get_connection_with_retry] tries to connect at most
    six times and pauses at most five times, with the retry counts 0 to 4
    setting the delays; this holds whatever the lock handling and the
    database answer. *)
Theorem connection_is_tried_at_most_six_times (read_only : bool) (h : host Env) :
  exists added,
    journal (snd (retry read_only 0 h)) = (journal h ++ added)%list
    /\ attempts added <= 6
    /\ pauses added <= 5
    /\ forall k, In (Sleeping k) added -> k < 5.
Proof.
  destruct (retry_bounded read_only 0 h) as [added [J [A [P S]]]].
  exists added. unfold MAX_RETRIES in *. simpl in *.
  repeat split; auto. intros k H. now apply S.
Qed.

(** X19. Only configuration conflicts are retried: when no error of the
    database mentions the words different configuration, a call handles the
    lock file once, tries to connect at most once and never pauses. *)
Theorem other_connection_errors_are_not_retried
    (read_only : bool) (retry_count : nat) (h : host Env) :
  (forall ro e message e',
      connect ro e = (DuckDbError message, e') ->
      PyStr.contains "different configuration" message = false) ->
  journal (snd (retry read_only retry_count h))
  = (journal h ++ [LockHandled false])%list
  \/ journal (snd (retry read_only retry_count h))
     = (journal h ++ [LockHandled true; Connecting read_only])%list.
Proof.
  intros Quiet.
  funelim (retry read_only retry_count h); try rewrite <- Heqcall;
    try (journal_facts; cbn [snd];
         first [ now left | right; now rewrite C, L, <- app_assoc ]).
  exfalso. unfold connect_step in *.
  destruct (connect read_only (env h1)) as [a e'] eqn:E.
  match goal with
  | H : (a, _) = (DuckDbError _, _) |- _ => injection H as -> _
  end.
  apply Quiet in E. congruence.
Qed.

End RetryFacts.

(** The store model of [get_connection_with_retry] is the retry loop run on
    the store: with the lock file out of the way and pauses that leave the
    store alone, both give the same answer and the same store. *)
Lemma store_opening_is_the_retry_loop
    (Db : Type) (conn_execute : Db -> string -> (DataFrame + string) * Db)
    (read_only : bool) (retry_count : nat)
    (h : Connection.host (DuckDb.world Db)) (retries_left : nat) :
  retries_left + retry_count = Connection.MAX_RETRIES ->
  let looped :=
    Connection.get_connection_with_retry unit (DuckDb.world Db)
      (fun w => (true, w)) (DuckDb.connect_and_probe Db conn_execute)
      (fun _ w => w) read_only retry_count h in
  DuckDb.get_connection_with_retry Db conn_execute retries_left
    (Connection.env h)
  = (match fst looped with Some _ => true | None => false end,
     Connection.env (snd looped)).
Proof.
  cbv zeta. revert retries_left.
  funelim (Connection.get_connection_with_retry unit (DuckDb.world Db)
             (fun w => (true, w)) (DuckDb.connect_and_probe Db conn_execute)
             (fun _ w => w) read_only retry_count h);
    intros retries_left Bound; try rewrite <- Heqcall; cbn [fst snd].
  all: unfold Connection.lock_step in *.
  all: repeat match goal with
              | H : (_, _) = (_, _) |- _ => injection H as ? ?; subst
              end.
  all: try discriminate.
  all: unfold Connection.connect_step, DuckDb.connect_and_probe in *;
    cbn [Connection.env Connection.journal] in *.
  all: destruct retries_left as [|fewer];
    cbn [DuckDb.get_connection_with_retry].
  all: destruct (DuckDb.reachable (Connection.env h)) eqn:R.
  all: try destruct (DuckDb.execute Db conn_execute (Connection.env h) DuckDb.probe)
         as [[df|m] w'] eqn:X.
  all: repeat match goal with
              | H : (_, _) = (_, _) |- _ => injection H as ? ?; subst
              end.
  all: try discriminate.
  all: cbn [Connection.env] in *.
  all: try reflexivity.
  all: unfold Connection.MAX_RETRIES in *; try lia.
  all: match goal with
       | C : PyStr.contains _ _ = _ |- _ =>
           first [ solve [vm_compute in C; discriminate C] | rewrite C ]
       end.
  all: try reflexivity.
  match goal with
  | IH : forall n, _ -> _ = _ |- _ => apply (IH fewer)
  end.
  lia.
Qed.

Lemma other_connection_errors_are_not_retried_witness :
  Connection.journal
    (snd (Connection.get_connection_with_retry unit unit
            (fun e => (true, e))
            (fun _ e => (Connection.DuckDbError "IO Error: cannot open file", e))
            (fun _ e => e) true 0 (Connection.Build_host tt [])))
  = [Connection.LockHandled false]
  \/ Connection.journal
       (snd (Connection.get_connection_with_retry unit unit
               (fun e => (true, e))
               (fun _ e => (Connection.DuckDbError "IO Error: cannot open file", e))
               (fun _ e => e) true 0 (Connection.Build_host tt [])))
     = [Connection.LockHandled true; Connection.Connecting true].
Proof.
  apply (other_connection_errors_are_not_retried unit unit
           (fun e => (true, e))
           (fun _ e => (Connection.DuckDbError "IO Error: cannot open file", e))
           (fun _ e => e) true 0 (Connection.Build_host tt [])).
  intros ro e message e' H. injection H as <- _. reflexivity.
Defined.

(** ** Creating the tables and describing them *)

Section TableFacts.

Import Tables.

Variable Db : Type.
Variable conn_execute : Db -> string -> (DataFrame + string) * Db.

Local Abbreviation run := (run_statements Db conn_execute).
Local Abbreviation create := (create_tables_if_needed Db conn_execute).
Local Abbreviation info := (get_table_info Db conn_execute).

Lemma run_statements_forwards (statements : list string) (w : DuckDb.world Db) :
  exists sent later,
    statements = (sent ++ later)%list
    /\ DuckDb.forwarded (snd (run statements w))
       = (DuckDb.forwarded w ++ sent)%list
    /\ (fst (run statements w) = true -> later = [])
    /\ (fst (run statements w) = false -> sent <> []).
Proof.
  revert w. induction statements as [|sql statements IH]; intros w.
  - exists [], []. simpl. rewrite app_nil_r. repeat split; auto. discriminate.
  - cbn [run_statements]. unfold DuckDb.execute.
    destruct (conn_execute (DuckDb.db w) sql) as [[df|e] d].
    + match goal with
      | |- context [run statements ?w1] =>
          destruct (IH w1) as [sent [later [E [F [T N]]]]]
      end.
      exists (sql :: sent), later. cbn [DuckDb.forwarded] in F.
      rewrite F, <- app_assoc.
      repeat split; auto; [now rewrite E | discriminate].
    + exists [sql], statements. simpl. repeat split; auto; discriminate.
Qed.

(** X20. [create_tables_if_needed] hands a connection it is given a leading
    part of its four statements, in order, and nothing else; called without
    one, it opens a connection first, which sends the probe SELECT 1 once per
    attempt and at most six times, and then hands over a leading part of the
    four statements. It stops at the first statement that raises and then
    answers [False]; it answers [True] only after all four were sent; and
    when the database file cannot be opened it sends nothing. *)
Theorem create_tables_sends_a_prefix_of_its_statements
    (conn_given : bool) (w : DuckDb.world Db) :
  exists attempts sent later,
    ddl_statements = (sent ++ later)%list
    /\ DuckDb.forwarded (snd (create conn_given w))
       = (DuckDb.forwarded w ++ repeat DuckDb.probe attempts ++ sent)%list
    /\ attempts <= 6
    /\ (conn_given = true -> attempts = 0)
    /\ (fst (create conn_given w) = true -> sent = ddl_statements)
    /\ (conn_given = false -> DuckDb.reachable w = false ->
        create conn_given w = (false, w)).
Proof.
  unfold create_tables_if_needed. destruct conn_given.
  - destruct (run_statements_forwards ddl_statements w)
      as [sent [later [E [F [T _]]]]].
    exists 0, sent, later. repeat split; auto; try lia; try discriminate.
    intros H. rewrite E, (T H). now rewrite app_nil_r.
  - destruct (get_connection_with_retry_probes Db conn_execute
                Connection.MAX_RETRIES w) as [attempts [Le [F [_ [_ [_ U]]]]]].
    destruct (DuckDb.get_connection_with_retry Db conn_execute
                Connection.MAX_RETRIES w) as [opened w1].
    cbn [fst snd] in *. destruct opened.
    + destruct (run_statements_forwards ddl_statements w1)
        as [sent [later [E [F1 [T _]]]]].
      exists attempts, sent, later. rewrite F1, F, <- app_assoc.
      repeat split; auto; try discriminate.
      * intros H. rewrite E, (T H). now rewrite app_nil_r.
      * intros _ R. discriminate (U R).
    + exists attempts, [], ddl_statements. cbn [fst snd]. rewrite app_nil_r.
      repeat split; auto; discriminate.
Qed.

Lemma append_cancel_r (a b c : string) : a ++ c = b ++ c -> a = b.
Proof.
  revert b. induction a as [|x a IH]; intros [|y b] H; simpl in H.
  - reflexivity.
  - exfalso. apply (f_equal String.length) in H. simpl in H.
    rewrite length_append in H. lia.
  - exfalso. apply (f_equal String.length) in H. simpl in H.
    rewrite length_append in H. lia.
  - injection H as -> H. now rewrite (IH b H).
Qed.

Lemma counts_keys (w : DuckDb.world Db) (key : string) (n : cell) :
  Py.lookup key (fst (get_table_counts Db conn_execute w)) = Some n ->
  key = "history_count" \/ key = "metadata_count" \/ key = "genre_track_count".
Proof.
  unfold get_table_counts.
  destruct (DuckDb.get_db_connection Db conn_execute w) as [opened w1].
  destruct opened; [|discriminate].
  destruct (DuckDb.execute Db conn_execute w1 counts_query) as [[df|e] w'];
    [|discriminate].
  destruct (fetchone df) as [[|h [|m [|g rest]]]|]; try discriminate.
  cbn [fst Py.lookup].
  destruct (String.eqb_spec "history_count" key); [now left|].
  destruct (String.eqb_spec "metadata_count" key); [now right; left|].
  destruct (String.eqb_spec "genre_track_count" key); [now right; right|].
  discriminate.
Qed.

(** X21. [get_table_info] looks its row count up under the table name
    followed by _count, while [get_table_counts] files the counts under
    history_count, metadata_count and genre_track_count: for every other
    table name, streaming_history and track_metadata included, the row count
    reported is the default 0, whatever the store holds. *)
Theorem row_count_defaults_to_zero_for_real_tables
    (w : DuckDb.world Db) (table_name : string) :
  table_name <> "history" ->
  table_name <> "metadata" ->
  table_name <> "genre_track" ->
  row_count (fst (info w table_name)) = CInt 0.
Proof.
  intros H1 H2 H3. unfold get_table_info.
  destruct (get_table_schema Db conn_execute w table_name) as [[cols|e] w1];
    [|reflexivity].
  pose proof (counts_keys w1 (table_name ++ "_count")) as K.
  destruct (get_table_counts Db conn_execute w1) as [counts w2].
  cbn [fst row_count] in *.
  destruct (Py.lookup (table_name ++ "_count") counts) as [n|]; [|reflexivity].
  exfalso. destruct (K n eq_refl) as [E|[E|E]].
  - apply H1. now apply (append_cancel_r table_name "history" "_count").
  - apply H2. now apply (append_cancel_r table_name "metadata" "_count").
  - apply H3. now apply (append_cancel_r table_name "genre_track" "_count").
Qed.

End TableFacts.

Lemma row_count_defaults_to_zero_for_real_tables_witness :
  Tables.row_count
    (fst (Tables.get_table_info unit
            (fun d _ =>
               (inl [{| s_name := "history_count"; s_dtype := Int64;
                        s_values := [CInt 1200] |};
                     {| s_name := "metadata_count"; s_dtype := Int64;
                        s_values := [CInt 300] |};
                     {| s_name := "genre_track_count"; s_dtype := Int64;
                        s_values := [CInt 250] |}], d))
            Fixtures.fresh_world "streaming_history"))
  = CInt 0.
Proof.
  apply row_count_defaults_to_zero_for_real_tables; discriminate.
Defined.

(** ** Sanitizing a query *)

Section SanitizeFacts.

Lemma replace_from_absent (old new s : string) :
  PyStr.contains old s = false -> PyStr.replace_from old new 0 s = s.
Proof.
  induction s as [|c s IH]; [reflexivity|].
  rewrite contains_cons. intros H. apply orb_false_iff in H.
  destruct H as [P C]. cbn [PyStr.replace_from]. rewrite P.
  now rewrite (IH C).
Qed.

Lemma prefix_length (p s : string) :
  prefix p s = true -> String.length p <= String.length s.
Proof.
  intros H. apply prefix_iff in H. destruct H as [post ->].
  rewrite length_append. lia.
Qed.

Lemma replace_from_length (old new : string) (skip : nat) (s : string) :
  String.length new <= String.length old ->
  String.length (PyStr.replace_from old new skip s) <= String.length s - skip.
Proof.
  intros L. revert skip. induction s as [|c s IH]; intros skip; [simpl; lia|].
  destruct skip as [|k]; cbn [PyStr.replace_from].
  - destruct (prefix old (String c s)) eqn:P.
    + apply prefix_length in P. rewrite length_append.
      specialize (IH (String.length old - 1)). simpl in *. lia.
    + specialize (IH 0). simpl in *. lia.
  - specialize (IH k). simpl. lia.
Qed.

(** X22. [sanitize_sql_query] returns unchanged every query in which
    neither WHERE AND nor WHERE WHERE occurs, and it never returns a text
    longer than the query. *)
Theorem sanitize_keeps_clean_queries_and_never_lengthens (query : string) :
  (~ PyStr.occurs_in "WHERE AND" query ->
   ~ PyStr.occurs_in "WHERE WHERE" query ->
   DbUtils.sanitize_sql_query query = query)
  /\ String.length (DbUtils.sanitize_sql_query query) <= String.length query.
Proof.
  unfold DbUtils.sanitize_sql_query, PyStr.replace. cbv zeta. split.
  - intros A W.
    assert (Ca : PyStr.contains "WHERE AND" query = false).
    { destruct (PyStr.contains "WHERE AND" query) eqn:E; [|reflexivity].
      exfalso. apply A. now apply contains_iff. }
    assert (Cw : PyStr.contains "WHERE WHERE" query = false).
    { destruct (PyStr.contains "WHERE WHERE" query) eqn:E; [|reflexivity].
      exfalso. apply W. now apply contains_iff. }
    rewrite (replace_from_absent _ _ _ Ca). now apply replace_from_absent.
  - pose proof (replace_from_length "WHERE AND" "WHERE" 0 query) as L1.
    pose proof (replace_from_length "WHERE WHERE" "WHERE" 0
                  (PyStr.replace_from "WHERE AND" "WHERE" 0 query)) as L2.
    simpl String.length in L1 at 1 2. simpl String.length in L2 at 1 2.
    lia.
Qed.

End SanitizeFacts.

Lemma sanitize_keeps_clean_queries_and_never_lengthens_witness :
  DbUtils.sanitize_sql_query "SELECT artist FROM plays WHERE ms_played > 0"
  = "SELECT artist FROM plays WHERE ms_played > 0".
Proof.
  apply (proj1 (sanitize_keeps_clean_queries_and_never_lengthens
                  "SELECT artist FROM plays WHERE ms_played > 0"));
    intros H; apply contains_iff in H; discriminate.
Defined.

(** ** The one-shot analysis chain *)

Section FenceFacts.

Import SpecWords Chains.

Lemma prefix_cons (a b : ascii) (p s : string) :
  prefix (String a p) (String b s) = Ascii.eqb a b && prefix p s.
Proof.
  change (prefix (String a p) (String b s))
    with (match ascii_dec a b with left _ => prefix p s | right _ => false end).
  destruct (ascii_dec a b) as [->|N].
  - now rewrite Ascii.eqb_refl.
  - apply Ascii.eqb_neq in N. now rewrite N.
Qed.

Lemma prefix_head_differs (c0 b : ascii) (sep' s : string) :
  Ascii.eqb b c0 = false -> prefix (String c0 sep') (String b s) = false.
Proof.
  intros H. rewrite prefix_cons, Ascii.eqb_sym, H. reflexivity.
Qed.

Lemma before_first_app (c0 : ascii) (sep' body x : string) :
  no_char c0 body = true ->
  PyStr.before_first (String c0 sep') (body ++ x)
  = body ++ PyStr.before_first (String c0 sep') x.
Proof.
  induction body as [|b body IH]; intros H; [reflexivity|].
  unfold no_char in H. simpl in H. apply andb_true_iff in H.
  destruct H as [Hb Hbody]. apply negb_true_iff in Hb.
  change (String b body ++ x) with (String b (body ++ x)).
  cbn [PyStr.before_first]. rewrite (prefix_head_differs _ _ _ _ Hb).
  now rewrite (IH Hbody).
Qed.

Lemma after_first_app (c0 : ascii) (sep' pre x : string) :
  no_char c0 pre = true ->
  PyStr.after_first (String c0 sep') (pre ++ x)
  = PyStr.after_first (String c0 sep') x.
Proof.
  induction pre as [|b pre IH]; intros H; [reflexivity|].
  unfold no_char in H. simpl in H. apply andb_true_iff in H.
  destruct H as [Hb Hpre]. apply negb_true_iff in Hb.
  change (String b pre ++ x) with (String b (pre ++ x)).
  cbn [PyStr.after_first]. rewrite (prefix_head_differs _ _ _ _ Hb).
  now apply IH.
Qed.

Lemma prefix_append (sep x : string) : prefix sep (sep ++ x) = true.
Proof. apply prefix_iff. now exists x. Qed.

Lemma drop_append (sep x : string) : PyStr.drop (String.length sep) (sep ++ x) = x.
Proof. induction sep as [|c sep IH]; simpl; [now destruct x | exact IH]. Qed.

Lemma before_first_at (sep x : string) : PyStr.before_first sep (sep ++ x) = "".
Proof.
  assert (P := prefix_append sep x).
  destruct (sep ++ x); cbn [PyStr.before_first]; now rewrite P.
Qed.

Lemma after_first_at (sep x : string) :
  PyStr.after_first sep (sep ++ x) = Some x.
Proof.
  assert (P := prefix_append sep x). assert (D := drop_append sep x).
  destruct (sep ++ x); cbn [PyStr.after_first]; now rewrite P, D.
Qed.

Lemma before_first_no_char (c0 : ascii) (sep' s : string) :
  no_char c0 s = true -> PyStr.before_first (String c0 sep') s = s.
Proof.
  induction s as [|b s IH]; intros H; [reflexivity|].
  unfold no_char in H. simpl in H. apply andb_true_iff in H.
  destruct H as [Hb Hs]. apply negb_true_iff in Hb.
  cbn [PyStr.before_first]. rewrite (prefix_head_differs _ _ _ _ Hb).
  now rewrite (IH Hs).
Qed.

(** After a closing fence followed by text without backtick, the part
    before the next json fence starts with nothing or with the fence. *)
Lemma cut_after_closing_fence (post : string) :
  no_char "`"%char post = true ->
  PyStr.before_first fence (PyStr.before_first json_fence (fence ++ post)) = "".
Proof.
  intros H. unfold fence, json_fence.
  destruct post as [|c post].
  - reflexivity.
  - unfold no_char in H. simpl in H. apply andb_true_iff in H.
    destruct H as [Hc _]. apply negb_true_iff in Hc.
    rewrite Ascii.eqb_sym in Hc.
    assert (P2 : prefix "```json" (String "`" (String "`" (String c post)))
                 = false)
      by (rewrite !prefix_cons, !Ascii.eqb_refl, Hc; reflexivity).
    assert (P1 : prefix "```json" (String "`" (String c post)) = false)
      by (rewrite !prefix_cons, !Ascii.eqb_refl, Hc; reflexivity).
    change ("```" ++ String c post)
      with (String "`" (String "`" (String "`" (String c post)))).
    cbn [PyStr.before_first].
    destruct (prefix "```json"
                (String "`" (String "`" (String "`" (String c post)))));
      [reflexivity|].
    rewrite P2, P1.
    match goal with
    | |- PyStr.before_first "```" (String "`" (String "`" (String "`" ?z))) = _ =>
        change (String "`" (String "`" (String "`" z))) with ("```" ++ z)
    end.
    apply before_first_at.
Qed.

(** X23. A reply that wraps its JSON in a json code fence, with no backtick
    in the text before the fence, in the JSON and in the text after the
    closing fence, is decoded from the trimmed JSON between the fences; a
    reply without any fence is decoded as it stands. *)
Theorem fenced_json_is_decoded_from_inside_the_fence :
  (forall pre body post,
      no_char "`"%char pre = true ->
      no_char "`"%char body = true ->
      no_char "`"%char post = true ->
      unfenced (pre ++ json_fence ++ body ++ fence ++ post)
      = inl (PyStr.strip body))
  /\ (forall response_text,
         PyStr.contains fence response_text = false ->
         unfenced response_text = inl response_text).
Proof.
  split.
  - intros pre body post Hpre Hbody Hpost. unfold unfenced.
    assert (C : PyStr.contains json_fence
                  (pre ++ json_fence ++ body ++ fence ++ post) = true)
      by (apply contains_iff; now exists pre, (body ++ fence ++ post)).
    rewrite C. unfold PyStr.second_part.
    unfold json_fence at 1 2.
    rewrite (after_first_app "`"%char "``json" pre _ Hpre).
    fold json_fence. rewrite after_first_at.
    unfold json_fence at 1.
    rewrite (before_first_app "`"%char "``json" body _ Hbody).
    fold json_fence. unfold fence at 1.
    rewrite (before_first_app "`"%char "``" body _ Hbody).
    fold fence. rewrite (cut_after_closing_fence post Hpost).
    assert (N : forall s : string, s ++ "" = s)
      by (induction s as [|c s IH]; simpl; [reflexivity | now rewrite IH]).
    now rewrite N.
  - intros text H. unfold unfenced.
    assert (J : PyStr.contains json_fence text = false).
    { destruct (PyStr.contains json_fence text) eqn:E; [|reflexivity].
      apply contains_iff in E. destruct E as [a [b E]].
      assert (T : PyStr.contains fence text = true)
        by (apply contains_iff; exists a, ("json" ++ b); exact E).
      congruence. }
    now rewrite J, H.
Qed.

End FenceFacts.

Lemma fenced_json_is_decoded_from_inside_the_fence_witness :
  Chains.unfenced
    ("Here you go: " ++ Chains.json_fence ++ " {answer} " ++ Chains.fence
       ++ " Enjoy.")
  = inl "{answer}".
Proof.
  apply (proj1 fenced_json_is_decoded_from_inside_the_fence
           "Here you go: " " {answer} " " Enjoy."); reflexivity.
Defined.

Section OneShotChain.

Import Chains.

Variable json_loads : string -> json + exn.
Variable str_of_exn : exn -> string.
Variable Store : Type.

Local Abbreviation analysis := (analyze json_loads str_of_exn).
Local Abbreviation answer := (analyze_query json_loads str_of_exn Store).

(** X24. The one-shot chain invokes the executor at most once, and only
    with the non-empty SQL of an analysis whose type is not error; the SQL
    is the one the model wrote, handed over as it stands. *)
Theorem one_shot_chain_executes_only_the_sql_of_a_usable_analysis
    (reply : string + exn) (executor : option (Executor Store)) (r : run Store) :
  calls (snd (answer reply executor r)) = calls r
  \/ exists statement,
       sql (analysis reply) = Some statement
       /\ statement <> ""
       /\ type (analysis reply) <> "error"
       /\ executor <> None
       /\ calls (snd (answer reply executor r)) = (calls r ++ [statement])%list.
Proof.
  unfold analyze_query. cbv zeta.
  destruct (sql (analysis reply)) as [[|c q]|] eqn:S; auto.
  destruct executor as [ex|]; auto.
  destruct (String.eqb_spec (type (analysis reply)) "error") as [E|N];
    cbn [negb]; auto.
  right. exists (String c q). repeat split; auto; try discriminate.
  destruct (ex (store r) (String c q)) as [[df|e] s]; cbn [snd calls].
  - now destruct (negb (is_empty df)).
  - reflexivity.
Qed.

(** X25. In the one-shot chain the response carries data exactly when the
    executor returned a frame with at least one row, and then the data are
    the records of that frame while type, content and sql stay those of the
    analysis; after an empty frame the analysis is returned unchanged, so a
    response of type visualization can come without data. *)
Theorem one_shot_chain_attaches_data_only_from_a_non_empty_frame
    (reply : string + exn) (executor : Executor Store) (r : run Store)
    (statement : string) (df : DataFrame) (s : Store) :
  sql (analysis reply) = Some statement ->
  statement <> "" ->
  type (analysis reply) <> "error" ->
  executor (store r) statement = (inl df, s) ->
  fst (answer reply (Some executor) r)
  = (if is_empty df then analysis reply
     else {| type := type (analysis reply);
             content := content (analysis reply);
             sql := Some statement;
             data := Some (records df) |})
  /\ (is_empty df = true -> data (fst (answer reply (Some executor) r)) = None)
  /\ (is_empty df = false -> records df <> []).
Proof.
  intros S Ne Nt E.
  assert (D : data (analysis reply) = None).
  { unfold analyze, failure, build.
    destruct reply as [text|e]; [|reflexivity].
    destruct (unfenced text) as [t|e]; [|reflexivity].
    destruct (json_loads t) as [result|[]]; try reflexivity.
    destruct (get result "type" (JStr "text")) as [[]|];
      destruct (get result "content" (JStr "")) as [[]|];
      destruct (get result "sql" (JStr "")) as [[]|]; reflexivity. }
  assert (A : fst (answer reply (Some executor) r)
              = (if is_empty df then analysis reply
                 else {| type := type (analysis reply);
                         content := content (analysis reply);
                         sql := Some statement;
                         data := Some (records df) |})).
  { unfold analyze_query. cbv zeta. rewrite S.
    destruct statement as [|c q]; [contradiction|].
    destruct (String.eqb_spec (type (analysis reply)) "error");
      [contradiction|]. cbn [negb]. rewrite E.
    destruct (is_empty df); reflexivity. }
  split; [exact A|split].
  - intros Em. rewrite A, Em. exact D.
  - intros Em. unfold records, is_empty in *.
    destruct (height df); [discriminate|]. discriminate.
Qed.

(** X26. When the executor raises, the one-shot chain turns the response
    into type error with the text of the exception after the words Error
    executing SQL query, keeps the SQL, and attaches no data. *)
Theorem one_shot_chain_reports_executor_failure
    (reply : string + exn) (executor : Executor Store) (r : run Store)
    (statement : string) (e : exn) (s : Store) :
  sql (analysis reply) = Some statement ->
  statement <> "" ->
  type (analysis reply) <> "error" ->
  executor (store r) statement = (inr e, s) ->
  type (fst (answer reply (Some executor) r)) = "error"
  /\ content (fst (answer reply (Some executor) r))
     = JStr ("Error executing SQL query: " ++ str_of_exn e)
  /\ sql (fst (answer reply (Some executor) r)) = Some statement
  /\ calls (snd (answer reply (Some executor) r)) = (calls r ++ [statement])%list.
Proof.
  intros S Ne Nt E. unfold analyze_query. cbv zeta. rewrite S.
  destruct statement as [|c q]; [contradiction|].
  destruct (String.eqb_spec (type (analysis reply)) "error"); [contradiction|].
  cbn [negb]. rewrite E. cbn [fst snd type content sql calls].
  now repeat split.
Qed.

End OneShotChain.

Lemma one_shot_chain_attaches_data_only_from_a_non_empty_frame_witness :
  fst (Chains.analyze_query Fixtures.decode_answer Fixtures.show_exn unit
         (inl "{answer}") (Some (fun s _ => (inl Fixtures.genre_frame, s)))
         (Chains.Build_run tt []))
  = {| Chains.type := "visualization";
       Chains.content := JStr "Top artists";
       Chains.sql := Some "SELECT artist FROM plays";
       Chains.data := Some [[("genre", CStr "rock"); ("count", CInt 42)]] |}.
Proof.
  apply (one_shot_chain_attaches_data_only_from_a_non_empty_frame
           Fixtures.decode_answer Fixtures.show_exn unit (inl "{answer}")
           (fun s _ => (inl Fixtures.genre_frame, s)) (Chains.Build_run tt [])
           "SELECT artist FROM plays" Fixtures.genre_frame tt).
  - reflexivity.
  - discriminate.
  - discriminate.
  - reflexivity.
Defined.

Lemma one_shot_chain_reports_executor_failure_witness :
  Chains.type
    (fst (Chains.analyze_query Fixtures.decode_answer Fixtures.show_exn unit
            (inl "{answer}")
            (Some (fun s _ => (inr (Raised "Catalog Error: no table plays"), s)))
            (Chains.Build_run tt [])))
  = "error".
Proof.
  apply (one_shot_chain_reports_executor_failure
           Fixtures.decode_answer Fixtures.show_exn unit (inl "{answer}")
           (fun s _ => (inr (Raised "Catalog Error: no table plays"), s))
           (Chains.Build_run tt []) "SELECT artist FROM plays"
           (Raised "Catalog Error: no table plays") tt).
  - reflexivity.
  - discriminate.
  - discriminate.
  - reflexivity.
Defined.

Lemma add_tooltips_appends_one_column_once_witness :
  Mapper.mem "duration_tooltip"
    (columns (Mapper._add_tooltips Fixtures.no_tooltip Fixtures.artist_frame))
  = true.
Proof.
  apply (add_tooltips_appends_one_column_once Fixtures.no_tooltip
           Fixtures.artist_frame).
  reflexivity.
Defined.

(** ** The date range of the history *)

Section DateRangeFacts.

Import DbUtils.

Variable Db : Type.
Variable conn_execute : Db -> string -> (DataFrame + string) * Db.

Local Abbreviation date_range := (get_date_range Db conn_execute).

(** X27. Once [get_date_range] has entered its connection, it returns no
    range at all, [None] instead of a pair of dates, whenever no second
    connection comes out for the query, or the query raises in the store, or
    yields no row. When its own connection cannot be opened it returns the
    fallback range from 2015-01-01 to today. *)
Theorem date_range_is_missing_when_the_query_fails
    (today : cell) (w : DuckDb.world Db) :
  let entered := DuckDb.get_db_connection Db conn_execute w in
  let second := DuckDb.get_db_connection Db conn_execute (snd entered) in
  (fst entered = true ->
   (fst second = false
    \/ exists outcome d,
         conn_execute (DuckDb.db (snd second)) date_range_query = (outcome, d)
         /\ match outcome with inl df => is_empty df = true | inr _ => True end) ->
   fst (date_range today w) = None)
  /\ (fst entered = false ->
      date_range today w = (Some (default_start, today), snd entered)).
Proof.
  unfold get_date_range, DuckDb.execute_query. cbv zeta.
  destruct (DuckDb.get_db_connection Db conn_execute w) as [opened w1].
  cbn [fst snd]. split; intros O; rewrite O; [|reflexivity].
  destruct (DuckDb.get_db_connection Db conn_execute w1) as [again w2].
  cbn [fst snd]. intros [A | [outcome [d [E H]]]].
  - now rewrite A.
  - destruct again; [|reflexivity].
    unfold DuckDb.execute. rewrite E.
    destruct outcome as [df|e]; [now rewrite H | reflexivity].
Qed.

(** X28. A range returned by [get_date_range] never holds a missing value
    and never a datetime: both ends are passed through the conversion to a
    date, and a missing end is replaced by the default range. *)
Theorem date_range_has_no_missing_end
    (today : cell) (w : DuckDb.world Db) (low high : cell) :
  today <> CNull ->
  (forall micros, today <> CDatetime micros) ->
  fst (date_range today w) = Some (low, high) ->
  low <> CNull /\ high <> CNull
  /\ (forall micros, low <> CDatetime micros)
  /\ (forall micros, high <> CDatetime micros).
Proof.
  intros T Td. unfold get_date_range.
  assert (Default : Some (default_start, today) = Some (low, high) ->
                    low <> CNull /\ high <> CNull
                    /\ (forall micros, low <> CDatetime micros)
                    /\ (forall micros, high <> CDatetime micros)).
  { intros H. injection H as <- <-. repeat split; auto; discriminate. }
  destruct (DuckDb.get_db_connection Db conn_execute w) as [opened w1].
  destruct opened; [|exact Default].
  destruct (DuckDb.execute_query Db conn_execute w1 date_range_query)
    as [result w'].
  destruct (negb (is_empty result)); [|discriminate].
  destruct (first_of "min_date" result) as [a|]; [|exact Default].
  destruct (first_of "max_date" result) as [b|]; [|exact Default].
  cbv zeta.
  destruct (is_null (as_date a)) eqn:Na; [exact Default|].
  destruct (is_null (as_date b)) eqn:Nb; [exact Default|].
  cbn [orb fst]. intros H. injection H as <- <-.
  repeat split.
  - intros E. now rewrite E in Na.
  - intros E. now rewrite E in Nb.
  - intros micros E. destruct a; discriminate.
  - intros micros E. destruct b; discriminate.
Qed.

End DateRangeFacts.

Lemma date_range_is_missing_when_the_query_fails_witness :
  fst (DbUtils.get_date_range unit Fixtures.empty_database
         (CDate 20000) Fixtures.fresh_world)
  = None.
Proof.
  apply (proj1 (date_range_is_missing_when_the_query_fails unit
                  Fixtures.empty_database (CDate 20000) Fixtures.fresh_world)
           eq_refl).
  right. exists (inr "Catalog Error: Table does not exist!"), tt.
  split; [reflexivity | exact I].
Defined.

Lemma date_range_has_no_missing_end_witness :
  CDate 16000 <> CNull /\ CDate 19000 <> CNull
  /\ (forall micros, CDate 16000 <> CDatetime micros)
  /\ (forall micros, CDate 19000 <> CDatetime micros).
Proof.
  apply (date_range_has_no_missing_end unit
           (fun d _ =>
              (inl [{| s_name := "min_date"; s_dtype := Date;
                       s_values := [CDate 16000] |};
                    {| s_name := "max_date"; s_dtype := Datetime;
                       s_values := [CDatetime 1641600000000000] |}], d))
           (CDate 20000) Fixtures.fresh_world (CDate 16000) (CDate 19000)).
  - discriminate.
  - discriminate.
  - reflexivity.
Defined.
